(** * Robot Framework documentation server: extraction, indexing and search

    A shallow embedding of [rf_docs_server.py] (the section parser, the
    embedded-object extractor, the keyword normalizer, the refresh cycle,
    the search engine and the keyword lookup), followed by the properties
    stated about them.

    Python [str] values are modelled as lists of 8-bit characters (code
    points below 256); Python [int] values as [Z] or [nat] where they are
    lengths and indices. *)

From Stdlib Require Import String Ascii List ZArith Bool Arith Lia.
From Stdlib Require Import Sorting.Sorted Sorting.Permutation.
Import ListNotations.

#[local] Set Warnings "-register-all".

Local Open Scope list_scope.

(** ** Python strings *)

Definition str := list ascii.

(** The double quote character, code point 34. *)
Definition dquote : ascii := ascii_of_nat 34.

(** A literal; [lit "abc"] is the Python string ['abc']. *)
Definition lit (s : string) : str := list_ascii_of_string s.

(** A literal in which every apostrophe stands for a double quote, used to
    write JSON text. *)
Definition jlit (s : string) : str :=
  map (fun c => if (c =? "'")%char then dquote else c) (list_ascii_of_string s).

Fixpoint str_eqb (a b : str) : bool :=
  match a, b with
  | [], [] => true
  | x :: a', y :: b' => (x =? y)%char && str_eqb a' b'
  | _, _ => false
  end.

(** [s[a:b]] for [0 <= a <= b]. *)
Definition slice (a b : nat) (s : str) : str := firstn (b - a) (skipn a s).

(** [s.startswith(p)], returning the rest of [s] after [p]. *)
Fixpoint strip_prefix (p s : str) : option str :=
  match p with
  | [] => Some s
  | c :: p' =>
      match s with
      | [] => None
      | d :: s' => if (c =? d)%char then strip_prefix p' s' else None
      end
  end.

Definition startswith (s p : str) : bool :=
  match strip_prefix p s with Some _ => true | None => false end.

(** [Py_UNICODE_ISSPACE] on code points below 256: the characters that
    [str.strip()] removes and that [\s] matches. *)
Definition isspace (c : ascii) : bool :=
  let n := nat_of_ascii c in
  ((9 <=? n) && (n <=? 13)) || ((28 <=? n) && (n <=? 32))
  || (n =? 133) || (n =? 160).

(** [s.lstrip()], [s.rstrip()], [s.strip()]. *)
Fixpoint lstrip (s : str) : str :=
  match s with
  | [] => []
  | c :: s' => if isspace c then lstrip s' else s
  end.

Definition rstrip (s : str) : str := rev (lstrip (rev s)).

Definition strip (s : str) : str := rstrip (lstrip s).

(** [sep.join(parts)]. *)
Fixpoint join (sep : str) (parts : list str) : str :=
  match parts with
  | [] => []
  | [p] => p
  | p :: ps => p ++ sep ++ join sep ps
  end.

(** [c.lower()] on code points below 256: A-Z and the Latin-1 capitals
    (U+00C0-U+00DE except the multiplication sign U+00D7) move up by 32. *)
Definition lower_char (c : ascii) : ascii :=
  let n := nat_of_ascii c in
  if ((65 <=? n) && (n <=? 90))
     || ((192 <=? n) && (n <=? 222) && negb (n =? 215))
  then ascii_of_nat (n + 32) else c.

Definition lower (s : str) : str := map lower_char s.

(** [s.replace(old, new)] for a one-character [old]. *)
Fixpoint replace_char (old : ascii) (new : str) (s : str) : str :=
  match s with
  | [] => []
  | c :: s' =>
      if (c =? old)%char then new ++ replace_char old new s'
      else c :: replace_char old new s'
  end.

(** [s.count(sub)]: the number of non-overlapping occurrences of [sub],
    scanning from the left; after an occurrence the scan resumes behind it
    ([skip] counts the characters of the occurrence still to be passed).
    For the empty [sub] Python answers [len(s) + 1]. *)
Fixpoint count_from (sub s : str) (skip : nat) : nat :=
  match s with
  | [] => 0
  | _ :: s' =>
      match skip with
      | S k => count_from sub s' k
      | O =>
          if startswith s sub
          then S (count_from sub s' (length sub - 1))
          else count_from sub s' 0
      end
  end.

Definition count (s sub : str) : nat :=
  match sub with
  | [] => length s + 1
  | _ => count_from sub s 0
  end.

(** ** Results of the tools *)

Inductive parse_error : Type :=
| CouldNotFindLibdoc    (* "Could not find libdoc in HTML" *)
| CouldNotFindEnd       (* "Could not find end of libdoc JSON" *)
| JSONParsingError      (* "JSON parsing error: ..." *)
| ParsingError.         (* "Parsing error: ..." *)

Inductive result (A : Type) : Type :=
| Ok (a : A)
| Err (e : parse_error).

Arguments Ok {A} a.
Arguments Err {A} e.

(** ** The embedded-object extractor ([_parse_library_keywords], lines 205-249) *)

(** [\s*]: the number of leading whitespace characters and the rest. *)
Fixpoint skip_spaces (s : str) : nat * str :=
  match s with
  | [] => (0, [])
  | c :: s' =>
      if isspace c then let (n, r) := skip_spaces s' in (S n, r)
      else (0, s)
  end.

(** The pattern [libdoc\s*=\s*\{] matched at the head of [s]: the length
    of the match.  Both stars are greedy and are followed by a character
    that is no whitespace, so there is at most one way to match. *)
Definition match_libdoc (s : str) : option nat :=
  match strip_prefix (lit "libdoc") s with
  | None => None
  | Some r1 =>
      let (n1, r2) := skip_spaces r1 in
      match r2 with
      | "="%char :: r3 =>
          let (n2, r4) := skip_spaces r3 in
          match r4 with
          | "{"%char :: _ => Some (6 + n1 + 1 + n2 + 1)
          | _ => None
          end
      | _ => None
      end
  end.

(** [re.search(r'libdoc\s*=\s*\{', s)] on the text that starts at index
    [pos]: the leftmost match, as its [(start(), end())]. *)
Fixpoint re_search_libdoc (s : str) (pos : nat) : option (nat * nat) :=
  match match_libdoc s with
  | Some n => Some (pos, pos + n)
  | None =>
      match s with
      | [] => None
      | _ :: s' => re_search_libdoc s' (S pos)
      end
  end.

(** The [for i in range(start_pos, len(html_content))] loop; [chars] is
    [html_content[i:]].  [Some end_pos] is the [break], [None] the [else]
    branch of the loop. *)
Fixpoint scan (chars : str) (i : nat) (depth : Z) (in_string escape : bool)
  : option nat :=
  match chars with
  | [] => None
  | char :: rest =>
      if escape then scan rest (S i) depth in_string false
      else if (char =? "\")%char then scan rest (S i) depth in_string true
      else if (char =? dquote)%char && negb escape
      then scan rest (S i) depth (negb in_string) escape
      else if negb in_string then
        if (char =? "{")%char
        then scan rest (S i) (depth + 1)%Z in_string escape
        else if (char =? "}")%char then
          let depth := (depth - 1)%Z in
          if (depth =? 0)%Z then Some (i + 1)
          else scan rest (S i) depth in_string escape
        else scan rest (S i) depth in_string escape
      else scan rest (S i) depth in_string escape
  end.

(** The marker search followed by the scan: [libdoc_json], or the error
    the function returns. *)
Definition extract_libdoc_json (html_content : str) : result str :=
  match re_search_libdoc html_content 0 with
  | None => Err CouldNotFindLibdoc
  | Some (_, match_end) =>
      let start_pos := match_end - 1 in
      match scan (skipn start_pos html_content) start_pos 0%Z false false with
      | None => Err CouldNotFindEnd
      | Some end_pos => Ok (slice start_pos end_pos html_content)
      end
  end.

(** *** The scan as the specification words it

    The three variables of the scan and its transition on one character:
    an escaped character is consumed, a backslash sets [escape], a double
    quote toggles [in_string], and braces count only outside strings. *)
Record scan_state : Type := mk_scan {
  depth : Z;
  in_string : bool;
  escape : bool
}.

Definition scan_step (st : scan_state) (c : ascii) : scan_state :=
  if escape st then mk_scan (depth st) (in_string st) false
  else if (c =? "\")%char then mk_scan (depth st) (in_string st) true
  else if (c =? dquote)%char then mk_scan (depth st) (negb (in_string st)) false
  else if in_string st then st
  else if (c =? "{")%char then mk_scan (depth st + 1) false false
  else if (c =? "}")%char then mk_scan (depth st - 1) false false
  else st.

Definition scan_from (st : scan_state) (s : str) : scan_state :=
  fold_left scan_step s st.

Definition scan_start : scan_state := mk_scan 0 false false.

(** The [n]-th character of [body] is the one at which the depth first
    returns to 0. *)
Definition closes_at (body : str) (n : nat) : Prop :=
  1 <= n <= length body
  /\ depth (scan_from scan_start (firstn n body)) = 0%Z
  /\ forall m, 1 <= m < n -> depth (scan_from scan_start (firstn m body)) <> 0%Z.

(** The depth never returns to 0 in [body]. *)
Definition never_closes (body : str) : Prop :=
  forall n, 1 <= n -> depth (scan_from scan_start (firstn n body)) <> 0%Z.

(** ** The section parser ([DocumentationParser]) *)

(** One entry of [self.sections]: the dict with the keys ['id'], ['level'],
    ['title'] and ['content'].  The id is [None] for an [id] attribute
    that has no value. *)
Record section : Type := mk_section {
  sec_id : option str;
  sec_level : Z;
  sec_title : str;
  sec_content : str
}.

(** What [HTMLParser.feed] calls back with.  [Other] stands for comments,
    declarations and processing instructions, whose handlers the class
    inherits and which do nothing. *)
Inductive event : Type :=
| StartTag (tag : str) (attrs : list (str * option str))
| EndTag (tag : str)
| Data (data : str)
| Other.

Record DocumentationParser : Type := mk_parser {
  sections : list section;
  current_section : option section;
  current_content : list str;
  in_section : bool;
  section_level : Z
}.

(** [__init__]. *)
Definition init : DocumentationParser :=
  {| sections := []; current_section := None; current_content := [];
     in_section := false; section_level := 0 |}.

(** [tag in ['h1', 'h2', 'h3', 'h4']], with [int(tag[1])]. *)
Definition heading_rank (tag : str) : option Z :=
  if str_eqb tag (lit "h1") then Some 1%Z
  else if str_eqb tag (lit "h2") then Some 2%Z
  else if str_eqb tag (lit "h3") then Some 3%Z
  else if str_eqb tag (lit "h4") then Some 4%Z
  else None.

(** [dict(attrs).get('id', '')]: the last [id] attribute wins. *)
Definition attrs_get_id (attrs : list (str * option str)) : option str :=
  match find (fun kv => str_eqb (fst kv) (lit "id")) (rev attrs) with
  | Some (_, v) => v
  | None => Some []
  end.

(** The section whose content is frozen: [' '.join(current_content).strip()]. *)
Definition finalize (cs : section) (parts : list str) : section :=
  {| sec_id := sec_id cs; sec_level := sec_level cs; sec_title := sec_title cs;
     sec_content := strip (join (lit " ") parts) |}.

(** [self.sections] after the [if self.current_section:] block that saves
    the previous section. *)
Definition save_section (self : DocumentationParser) : list section :=
  match current_section self with
  | Some cs => sections self ++ [finalize cs (current_content self)]
  | None => sections self
  end.

Definition handle_starttag (self : DocumentationParser) (tag : str)
  (attrs : list (str * option str)) : DocumentationParser :=
  match heading_rank tag with
  | Some rank =>
      {| sections := save_section self;
         current_section :=
           Some {| sec_id := attrs_get_id attrs; sec_level := rank;
                   sec_title := []; sec_content := [] |};
         current_content := [];
         in_section := true;
         section_level := rank |}
  | None => self
  end.

Definition handle_endtag (self : DocumentationParser) (tag : str)
  : DocumentationParser :=
  match heading_rank tag with
  | Some _ =>
      {| sections := sections self; current_section := current_section self;
         current_content := current_content self;
         in_section := false; section_level := section_level self |}
  | None => self
  end.

Definition handle_data (self : DocumentationParser) (data : str)
  : DocumentationParser :=
  match current_section self with
  | Some cs =>
      if in_section self then
        {| sections := sections self;
           current_section :=
             Some {| sec_id := sec_id cs; sec_level := sec_level cs;
                     sec_title := strip data; sec_content := sec_content cs |};
           current_content := current_content self;
           in_section := in_section self; section_level := section_level self |}
      else
        let text := strip data in
        match text with
        | [] => self
        | _ :: _ =>
            {| sections := sections self; current_section := current_section self;
               current_content := current_content self ++ [text];
               in_section := in_section self;
               section_level := section_level self |}
        end
  | None => self
  end.

Definition get_sections (self : DocumentationParser) : list section :=
  save_section self.

(** One callback of [feed]. *)
Definition dispatch (self : DocumentationParser) (e : event)
  : DocumentationParser :=
  match e with
  | StartTag tag attrs => handle_starttag self tag attrs
  | EndTag tag => handle_endtag self tag
  | Data data => handle_data self data
  | Other => self
  end.

(** [parser.feed(html_content); parser.get_sections()] on the events the
    tokenizer produces for [html_content]. *)
Definition parse_events (evs : list event) : list section :=
  get_sections (fold_left dispatch evs init).

(** ** JSON values, as [json.loads] returns them *)

(** [JFloat m e] is the float [m * 2^e]. *)
Inductive json : Type :=
| JNull
| JBool (b : bool)
| JInt (n : Z)
| JFloat (m e : Z)
| JStr (s : str)
| JList (l : list json)
| JDict (d : list (str * json)).

(** Python's truth value of a JSON value. *)
Definition truthy (v : json) : bool :=
  match v with
  | JNull => false
  | JBool b => b
  | JInt n => negb (n =? 0)%Z
  | JFloat m _ => negb (m =? 0)%Z
  | JStr s => match s with [] => false | _ => true end
  | JList l => match l with [] => false | _ => true end
  | JDict d => match d with [] => false | _ => true end
  end.

(** Insertion-ordered dicts with [str] keys. *)
Definition dict (A : Type) : Type := list (str * A).

(** [d.get(k)]. *)
Fixpoint dict_get {A : Type} (k : str) (d : dict A) : option A :=
  match d with
  | [] => None
  | (k', v) :: d' => if str_eqb k' k then Some v else dict_get k d'
  end.

(** [d[k] = v]: an existing key keeps its place, a new key goes last. *)
Fixpoint dict_set {A : Type} (k : str) (v : A) (d : dict A) : dict A :=
  match d with
  | [] => [(k, v)]
  | (k', v') :: d' =>
      if str_eqb k' k then (k', v) :: d' else (k', v') :: dict_set k v d'
  end.

(** [x.get(k, default)]; [None] is the AttributeError of a value that is
    no dict. *)
Definition json_get (x : json) (k : str) (default : json) : option json :=
  match x with
  | JDict d =>
      Some (match dict_get k d with Some v => v | None => default end)
  | _ => None
  end.

(** The items of [for item in x]; [None] is the TypeError of a value that
    cannot be iterated.  A string yields its characters, a dict its keys. *)
Definition json_iter (x : json) : option (list json) :=
  match x with
  | JList l => Some l
  | JStr s => Some (map (fun c => JStr [c]) s)
  | JDict d => Some (map (fun kv => JStr (fst kv)) d)
  | _ => None
  end.

(** ** The keyword normalizer ([_parse_library_keywords], lines 251-288) *)

Record KeywordRecord : Type := mk_keyword {
  kw_name : str;
  kw_id : str;
  kw_args : str;
  kw_doc : str;
  kw_library : str;
  kw_source : json;
  kw_lineno : json
}.

(** The length of a match of [[^>]+>] at the head of [s]: the greedy run
    of characters other than [>] must not be empty and must be followed by
    a [>]. *)
Fixpoint tag_rest (s : str) : option nat :=
  match s with
  | [] => None
  | c :: s' =>
      if (c =? ">")%char then None
      else match s' with
           | [] => None
           | d :: _ =>
               if (d =? ">")%char then Some 2
               else option_map S (tag_rest s')
           end
  end.

(** [re.sub(r'<[^>]+>', '', s)]: the matches are found from the left and
    do not overlap; [skip] counts the characters of the current match that
    are still to be dropped. *)
Fixpoint sub_tags (skip : nat) (s : str) : str :=
  match s with
  | [] => []
  | c :: s' =>
      match skip with
      | S k => sub_tags k s'
      | O =>
          if (c =? "<")%char then
            match tag_rest s' with
            | Some n => sub_tags n s'
            | None => c :: sub_tags 0 s'
            end
          else c :: sub_tags 0 s'
      end
  end.

(** The greedy run [[^`]+] at the head of [s] and what follows it. *)
Fixpoint code_run (s : str) : str * str :=
  match s with
  | [] => ([], [])
  | c :: s' =>
      if (c =? "`")%char then ([], s)
      else let (run, rest) := code_run s' in (c :: run, rest)
  end.

(** A match of [``([^`]+)``] at the head of [s]: group 1. *)
Definition match_code (s : str) : option str :=
  match s with
  | "`"%char :: "`"%char :: s1 =>
      match code_run s1 with
      | (c :: run, "`"%char :: "`"%char :: _) => Some (c :: run)
      | _ => None
      end
  | _ => None
  end.

(** [re.sub(r'``([^`]+)``', r'\1', s)]. *)
Fixpoint sub_code (skip : nat) (s : str) : str :=
  match s with
  | [] => []
  | c :: s' =>
      match skip with
      | S k => sub_code k s'
      | O =>
          match match_code s with
          | Some inner => inner ++ sub_code (length inner + 3) s'
          | None => c :: sub_code 0 s'
          end
      end
  end.

(** The loop over [kw_data.get("args", [])], then [", ".join(args_parts)].
    [None] is an exception: an argument that is no dict, or a part that is
    no string. *)
Fixpoint args_parts (args : list json) : option (list json) :=
  match args with
  | [] => Some []
  | arg :: args' =>
      match json_get arg (lit "repr") (JStr []) with
      | None => None
      | Some arg_repr =>
          match args_parts args' with
          | None => None
          | Some parts =>
              Some (if truthy arg_repr then arg_repr :: parts else parts)
          end
      end
  end.

Fixpoint as_strings (parts : list json) : option (list str) :=
  match parts with
  | [] => Some []
  | JStr s :: parts' => option_map (cons s) (as_strings parts')
  | _ :: _ => None
  end.

Definition args_str (kw_data : json) : option str :=
  match json_get kw_data (lit "args") (JList []) with
  | None => None
  | Some args =>
      match json_iter args with
      | None => None
      | Some items =>
          match args_parts items with
          | None => None
          | Some parts => option_map (join (lit ", ")) (as_strings parts)
          end
      end
  end.

(** The body of the loop over the keywords: [keywords] after one entry.
    [None] is an exception raised by the entry. *)
Definition add_keyword (library_name : str) (keywords : dict KeywordRecord)
  (kw_data : json) : option (dict KeywordRecord) :=
  match json_get kw_data (lit "name") (JStr []) with
  | None => None
  | Some name =>
      if negb (truthy name) then Some keywords
      else
        match args_str kw_data with
        | None => None
        | Some args =>
            match json_get kw_data (lit "shortdoc") (JStr []) with
            | Some (JStr doc) =>
                let doc := sub_tags 0 doc in
                let doc := sub_code 0 doc in
                match name,
                      json_get kw_data (lit "source") (JStr []),
                      json_get kw_data (lit "lineno") (JStr []) with
                | JStr name, Some source, Some lineno =>
                    Some (dict_set name
                            {| kw_name := name;
                               kw_id := replace_char " " (lit "%20") name;
                               kw_args := args;
                               kw_doc := doc;
                               kw_library := library_name;
                               kw_source := source;
                               kw_lineno := lineno |}
                            keywords)
                | _, _, _ => None
                end
            | _ => None
            end
        end
  end.

Fixpoint add_keywords (library_name : str) (keywords : dict KeywordRecord)
  (kws : list json) : option (dict KeywordRecord) :=
  match kws with
  | [] => Some keywords
  | kw_data :: kws' =>
      match add_keyword library_name keywords kw_data with
      | None => None
      | Some keywords' => add_keywords library_name keywords' kws'
      end
  end.

(** The keywords of one library from the decoded [libdoc_data]. *)
Definition normalize_keywords (library_name : str) (libdoc_data : json)
  : option (dict KeywordRecord) :=
  match json_get libdoc_data (lit "keywords") (JList []) with
  | None => None
  | Some kws =>
      match json_iter kws with
      | None => None
      | Some items => add_keywords library_name [] items
      end
  end.

(** What [json.loads] does with a text: it returns the decoded value,
    raises [json.JSONDecodeError], or raises another exception (a
    RecursionError on text that is nested too deeply, a ValueError on an
    integer literal beyond the interpreter's digit limit). *)
Inductive loads_result : Type :=
| Loaded (value : json)
| JSONDecodeError
| LoadsRaises.

(** What [_parse_library_keywords] returns once the library file is read:
    the error of the dict with ["success": False], or [keywords]
    ([total_keywords] is its length).  [except json.JSONDecodeError] gives
    the "JSON parsing error", [except Exception] the "Parsing error". *)
Definition parse_library_text (json_loads : str -> loads_result)
  (library_name html_content : str) : result (dict KeywordRecord) :=
  match extract_libdoc_json html_content with
  | Err e => Err e
  | Ok libdoc_json =>
      match json_loads libdoc_json with
      | JSONDecodeError => Err JSONParsingError
      | LoadsRaises => Err ParsingError
      | Loaded libdoc_data =>
          match normalize_keywords library_name libdoc_data with
          | None => Err ParsingError
          | Some keywords => Ok keywords
          end
      end
  end.

(** ** The search engine ([search_rf_documentation], lines 408-443) *)

Definition RF_VERSION : str := lit "7.4.1".

Definition RF_DOCS_URL : str :=
  lit "https://robotframework.org/robotframework/7.4.1/RobotFrameworkUserGuide.html".

Definition RF_BASE_LIB_URL : str :=
  lit "https://robotframework.org/robotframework/7.4.1/libraries".

(** One entry of [results]. *)
Record search_hit : Type := mk_hit {
  hit_title : str;
  hit_id : option str;
  hit_level : Z;
  relevance : nat;
  content_preview : str;
  url : str
}.

(** How an f-string formats the id: [None] is written out. *)
Definition format_id (i : option str) : str :=
  match i with Some s => s | None => lit "None" end.

(** The body of [for section in sections]: the entry appended to
    [results], if any. *)
Definition score (query_lower : str) (s : section) : option search_hit :=
  let title := lower (sec_title s) in
  let content := lower (sec_content s) in
  let title_matches := count title query_lower in
  let content_matches := count content query_lower in
  if (0 <? title_matches) || (0 <? content_matches) then
    Some {| hit_title := sec_title s;
            hit_id := sec_id s;
            hit_level := sec_level s;
            relevance := title_matches * 10 + content_matches;
            content_preview := firstn 300 (sec_content s) ++ lit "...";
            url := RF_DOCS_URL ++ lit "#" ++ format_id (sec_id s) |}
  else None.

(** [results] when the loop ends. *)
Fixpoint matches (query_lower : str) (sections : list section)
  : list search_hit :=
  match sections with
  | [] => []
  | s :: sections' =>
      match score query_lower s with
      | Some hit => hit :: matches query_lower sections'
      | None => matches query_lower sections'
      end
  end.

(** [results.sort(key=lambda x: x["relevance"], reverse=True)].  Python's
    sort is stable, also with [reverse=True]; it is modelled by an
    insertion sort that puts an entry before the first one whose relevance
    is not greater. *)
Fixpoint insert_hit (x : search_hit) (l : list search_hit) : list search_hit :=
  match l with
  | [] => [x]
  | y :: l' =>
      if relevance y <=? relevance x then x :: l else y :: insert_hit x l'
  end.

Definition sort_by_relevance (l : list search_hit) : list search_hit :=
  fold_right insert_hit [] l.

(** [l[:n]] for an [int] n, which may be negative. *)
Definition slice_to {A : Type} (n : Z) (l : list A) : list A :=
  if (0 <=? n)%Z then firstn (Z.to_nat n) l
  else firstn (length l - Z.to_nat (- n)) l.

Record search_response : Type := mk_response {
  total_matches : nat;
  results : list search_hit
}.

Definition search_rf_documentation (sections : list section) (query : str)
  (max_results : Z) : search_response :=
  let query_lower := lower query in
  let results := sort_by_relevance (matches query_lower sections) in
  {| total_matches := length results;
     results := slice_to max_results results |}.

(** ** The keyword lookup ([get_keyword_documentation], lines 610-648) *)

Inductive lookup_response : Type :=
| LibraryNotFound (available_libraries : list str)
| KeywordFound (keyword library arguments documentation url : str)
| KeywordNotFound (keyword : str).

(** [s.lower().replace("_", " ").replace("-", " ")]. *)
Definition normalize_name (s : str) : str :=
  replace_char "-" (lit " ") (replace_char "_" (lit " ") (lower s)).

(** The inner loop [for k, v in keywords.items()], left by [return]. *)
Fixpoint find_in_library (lib_name : str) (keywords : dict KeywordRecord)
  (keyword_name_lower : str) : option lookup_response :=
  match keywords with
  | [] => None
  | (k, v) :: keywords' =>
      if str_eqb (normalize_name k) keyword_name_lower then
        let lib_url := RF_BASE_LIB_URL ++ lit "/" ++ lib_name ++ lit ".html" in
        Some (KeywordFound k lib_name (kw_args v) (kw_doc v)
                (lib_url ++ lit "#" ++ kw_id v))
      else find_in_library lib_name keywords' keyword_name_lower
  end.

(** The outer loop [for lib_name, keywords in libraries_to_search.items()]. *)
Fixpoint find_in_libraries (libraries_to_search : dict (dict KeywordRecord))
  (keyword_name_lower : str) : option lookup_response :=
  match libraries_to_search with
  | [] => None
  | (lib_name, keywords) :: libraries' =>
      match find_in_library lib_name keywords keyword_name_lower with
      | Some r => Some r
      | None => find_in_libraries libraries' keyword_name_lower
      end
  end.

(** [library_name] is [None] for the Python [None]; the empty name is
    false too and searches every library. *)
Definition get_keyword_documentation (all_libraries : dict (dict KeywordRecord))
  (keyword_name : str) (library_name : option str) : lookup_response :=
  let search libraries_to_search :=
    match find_in_libraries libraries_to_search (normalize_name keyword_name) with
    | Some r => r
    | None => KeywordNotFound keyword_name
    end in
  match library_name with
  | Some (c :: n) =>
      match dict_get (c :: n) all_libraries with
      | None => LibraryNotFound (map fst all_libraries)
      | Some keywords => search [(c :: n, keywords)]
      end
  | _ => search all_libraries
  end.

(** ** The refresh cycle ([fetch_rf_documentation], lines 316-386) *)

Definition STANDARD_LIBRARIES : list str :=
  [ lit "BuiltIn"; lit "Collections"; lit "DateTime"; lit "OperatingSystem";
    lit "Process"; lit "Screenshot"; lit "String"; lit "Telnet"; lit "XML" ].

(** The snapshot written to [KEYWORDS_INDEX].  Its [version] and its
    [parsed_at], the time of the write, are read by nothing below and are
    left out: snapshots that are equal here are equal up to that time. *)
Record KeywordsIndex : Type := mk_index {
  ki_total_libraries : nat;
  ki_total_keywords : nat;
  ki_libraries : dict (dict KeywordRecord)
}.

(** The cache directory: the downloaded HTML files by path ([None] for a
    file that does not exist), and the two snapshots [INDEX_FILE] and
    [KEYWORDS_INDEX] with their decoded content ([docs_index] is the
    ["sections"] of [INDEX_FILE], without its [parsed_at]). *)
Record cache : Type := mk_cache {
  html_files : str -> option str;
  docs_index : option (list section);
  keywords_snapshot : option KeywordsIndex
}.

(** One entry of [results["libraries"]]. *)
Record library_status : Type := mk_status {
  ls_success : bool;
  ls_total_keywords : nat
}.

(** The dict [fetch_rf_documentation] returns ([version] and
    [cache_location] are constants and left out); [indexing] is the success
    flag of [_parse_documentation], [keywords_index] the pair
    [(total_libraries, total_keywords)]. *)
Record fetch_results : Type := mk_results {
  files_downloaded : list str;
  libraries : dict library_status;
  user_guide : bool;
  indexing : option bool;
  keywords_index : option (nat * nat);
  success : bool
}.

(** The variables of the loop over [STANDARD_LIBRARIES]. *)
Record loop_state : Type := mk_loop {
  l_cache : cache;
  l_files_downloaded : list str;
  l_libraries : dict library_status;
  l_all_keywords : dict (dict KeywordRecord);
  l_total_keywords : nat
}.

Section Refresh.

(** The collaborators: [CACHE_DIR]; the network ([Some body] when
    [urlopen(...).read()] and the write of the body succeed); the
    tokenizer: the callbacks that [parser.feed] delivers for the text of
    the file (the parser is never closed, so text that [feed] keeps
    buffered at the end of the input is not among them), [None] when the
    [try] block of [_parse_documentation] raises before anything is
    written (reading the file, tokenizing it, serializing the index or
    opening the index file); and [json.loads]. *)
Variable CACHE_DIR : str.
Variable urlopen : str -> option str.
Variable feed : str -> option (list event).
Variable json_loads : str -> loads_result.

Definition DOCS_FILE : str :=
  CACHE_DIR ++ lit "/RobotFrameworkUserGuide_" ++ RF_VERSION ++ lit ".html".

(** [CACHE_DIR / f"{library_name}_{RF_VERSION}.html"]. *)
Definition library_file (library_name : str) : str :=
  CACHE_DIR ++ lit "/" ++ library_name ++ lit "_" ++ RF_VERSION ++ lit ".html".

Definition write_file (files : str -> option str) (path content : str)
  : str -> option str :=
  fun p => if str_eqb p path then Some content else files p.

(** [_download_file]: its ["success"], and the cache afterwards. *)
Definition _download_file (url target_path : str) (c : cache) : bool * cache :=
  match urlopen url with
  | Some content =>
      (true, {| html_files := write_file (html_files c) target_path content;
                docs_index := docs_index c;
                keywords_snapshot := keywords_snapshot c |})
  | None => (false, c)
  end.

(** [_parse_documentation]: its ["success"], [None] for the dict that
    has an ["error"] and no ["success"].  [except Exception] answers
    ["success": False] and leaves the index as it was. *)
Definition _parse_documentation (c : cache) : option bool * cache :=
  match html_files c DOCS_FILE with
  | None => (None, c)
  | Some html_content =>
      match feed html_content with
      | Some callbacks =>
          let sections := parse_events callbacks in
          (Some true, {| html_files := html_files c;
                         docs_index := Some sections;
                         keywords_snapshot := keywords_snapshot c |})
      | None => (Some false, c)
      end
  end.

(** [_parse_library_keywords]: [None] is the dict that has an ["error"]
    and no ["success"]. *)
Definition _parse_library_keywords (library_name : str) (c : cache)
  : option (result (dict KeywordRecord)) :=
  match html_files c (library_file library_name) with
  | None => None
  | Some html_content =>
      Some (parse_library_text json_loads library_name html_content)
  end.

(** The body of [for library_name in STANDARD_LIBRARIES]. *)
Definition process_library (force_refresh : bool) (st : loop_state)
  (library_name : str) : loop_state :=
  let library_file := library_file library_name in
  let library_url := RF_BASE_LIB_URL ++ lit "/" ++ library_name ++ lit ".html" in
  (* Download library docs *)
  let '(c, downloaded) :=
    if force_refresh
       || match html_files (l_cache st) library_file with
          | Some _ => false | None => true end
    then
      let (ok, c) := _download_file library_url library_file (l_cache st) in
      (c, if ok then l_files_downloaded st ++ [library_name ++ lit ".html"]
          else l_files_downloaded st)
    else (l_cache st, l_files_downloaded st) in
  (* Parse keywords *)
  match _parse_library_keywords library_name c with
  | None =>
      {| l_cache := c; l_files_downloaded := downloaded;
         l_libraries := l_libraries st;
         l_all_keywords := l_all_keywords st;
         l_total_keywords := l_total_keywords st |}
  | Some (Err _) =>
      {| l_cache := c; l_files_downloaded := downloaded;
         l_libraries :=
           dict_set library_name
             {| ls_success := false; ls_total_keywords := 0 |}
             (l_libraries st);
         l_all_keywords := l_all_keywords st;
         l_total_keywords := l_total_keywords st |}
  | Some (Ok keywords) =>
      {| l_cache := c; l_files_downloaded := downloaded;
         l_libraries :=
           dict_set library_name
             {| ls_success := true; ls_total_keywords := length keywords |}
             (l_libraries st);
         l_all_keywords := dict_set library_name keywords (l_all_keywords st);
         l_total_keywords := l_total_keywords st + length keywords |}
  end.

(** The refresh over the libraries [libs]; the tool runs it on
    [STANDARD_LIBRARIES]. *)
Definition fetch_libraries (libs : list str) (force_refresh : bool) (c : cache)
  : fetch_results * cache :=
  (* Download User Guide *)
  let '(user_guide, c, downloaded) :=
    if force_refresh
       || match html_files c DOCS_FILE with Some _ => false | None => true end
    then
      let (ok, c) := _download_file RF_DOCS_URL DOCS_FILE c in
      (ok, c, if ok then [lit "RobotFrameworkUserGuide.html"] else [])
    else (true, c, []) in
  (* Parse and index User Guide documentation *)
  let '(indexing, c) :=
    match html_files c DOCS_FILE with
    | Some _ => _parse_documentation c
    | None => (None, c)
    end in
  (* Download and parse all standard libraries *)
  let st :=
    fold_left (process_library force_refresh) libs
      {| l_cache := c; l_files_downloaded := downloaded; l_libraries := [];
         l_all_keywords := []; l_total_keywords := 0 |} in
  (* Save combined keywords index *)
  let '(keywords_index, c) :=
    match l_all_keywords st with
    | [] => (None, l_cache st)
    | _ :: _ =>
        (Some (length (l_all_keywords st), l_total_keywords st),
         {| html_files := html_files (l_cache st);
            docs_index := docs_index (l_cache st);
            keywords_snapshot :=
              Some {| ki_total_libraries := length (l_all_keywords st);
                      ki_total_keywords := l_total_keywords st;
                      ki_libraries := l_all_keywords st |} |})
    end in
  ({| files_downloaded := l_files_downloaded st;
      libraries := l_libraries st;
      user_guide := user_guide;
      indexing := indexing;
      keywords_index := keywords_index;
      success := user_guide |}, c).

Definition fetch_rf_documentation (force_refresh : bool) (c : cache)
  : fetch_results * cache :=
  fetch_libraries STANDARD_LIBRARIES force_refresh c.

End Refresh.

(** ** The keyword listings ([get_library_keywords], lines 463-507, and
    [get_all_keywords], lines 523-569) *)

(** [a <= b] on Python strings: code point by code point, a prefix first. *)
Fixpoint str_leb (a b : str) : bool :=
  match a, b with
  | [], _ => true
  | _ :: _, [] => false
  | x :: a', y :: b' =>
      if nat_of_ascii x <? nat_of_ascii y then true
      else if nat_of_ascii y <? nat_of_ascii x then false
      else str_leb a' b'
  end.

(** [sorted(d.items())].  The keys of a dict are distinct, so the pairs are
    ordered by their keys alone; the sort is stable. *)
Fixpoint insert_item {A : Type} (x : str * A) (l : list (str * A))
  : list (str * A) :=
  match l with
  | [] => [x]
  | y :: l' =>
      if str_leb (fst x) (fst y) then x :: l else y :: insert_item x l'
  end.

Definition sorted_items {A : Type} (d : dict A) : list (str * A) :=
  fold_right insert_item [] d.

(** One entry of [keyword_list]. *)
Record keyword_item : Type := mk_item {
  item_name : str;
  item_library : str;
  item_args : str;
  item_description : str
}.

(** The list comprehension that formats the keywords of a library. *)
Definition keyword_list (lib_name : str) (keywords : dict KeywordRecord)
  : list keyword_item :=
  map (fun kv => {| item_name := fst kv;
                    item_library := lib_name;
                    item_args := kw_args (snd kv);
                    item_description := firstn 200 (kw_doc (snd kv)) |})
      (sorted_items keywords).

(** [{k: v for k, v in keywords.items() if pattern.search(k)}]. *)
Definition filter_keywords (search : str -> bool) (keywords : dict KeywordRecord)
  : dict KeywordRecord :=
  filter (fun kv => search (fst kv)) keywords.

Inductive keywords_response : Type :=
| UnknownLibrary (available_libraries : list str)
| FailedToFetch              (* "Failed to fetch ... documentation" *)
| NotDownloaded              (* "... documentation not downloaded." *)
| ParseFailed (e : parse_error)
| InvalidPattern             (* "Invalid regex pattern: ..." *)
| KeywordList (library : str) (total_keywords : nat)
    (keywords : list keyword_item).

Inductive all_keywords_response : Type :=
| AllFailedToFetch           (* "Failed to fetch documentation" *)
| AllInvalidPattern          (* "Invalid regex pattern: ..." *)
| FailedToReadIndex          (* "Failed to read keywords index: ..." *)
| AllKeywords (total_keywords total_libraries : nat)
    (libraries : dict (list keyword_item)).

(** ** The availability check ([check_keyword_availability], lines 667-676) *)

(** What the whole tool [get_keyword_documentation] returns: one of its two
    dicts that only have an ["error"], or the answer of the lookup. *)
Inductive documentation_response : Type :=
| FailedToFetchDocumentation   (* "Failed to fetch documentation" *)
| FailedToSearchKeyword        (* "Failed to search keyword: ..." *)
| Documentation (answer : lookup_response).

Record availability : Type := mk_availability {
  keyword_searched : str;
  available : bool;
  av_library : option str;
  keyword_actual_name : option str;
  message : str
}.

(** [result.get("available", False)], [result.get("library")],
    [result.get("keyword")] and [result.get("message")] on the dict of a
    response. *)
Definition response_available (r : documentation_response) : bool :=
  match r with Documentation (KeywordFound _ _ _ _ _) => true | _ => false end.

Definition response_library (r : documentation_response) : option str :=
  match r with
  | Documentation (KeywordFound _ lib _ _ _) => Some lib
  | _ => None
  end.

Definition response_keyword (r : documentation_response) : option str :=
  match r with
  | Documentation (KeywordFound k _ _ _ _) => Some k
  | Documentation (KeywordNotFound k) => Some k
  | _ => None
  end.

Definition response_message (r : documentation_response) : option str :=
  match r with
  | Documentation (KeywordNotFound k) =>
      Some (lit "Keyword '" ++ k
              ++ lit "' not found in any standard library for RF "
              ++ RF_VERSION)
  | _ => None
  end.

(** How an f-string formats an optional string. *)
Definition format_opt (o : option str) : str :=
  match o with Some s => s | None => lit "None" end.

Section Tools.

Variable CACHE_DIR : str.
Variable urlopen : str -> option str.
Variable feed : str -> option (list event).
Variable json_loads : str -> loads_result.

(** [re.compile(filter_pattern, re.IGNORECASE)]: [None] for a [re.error],
    else whether [pattern.search] finds a match in a name. *)
Variable re_compile : str -> option (str -> bool).

Definition get_library_keywords (library_name : str)
  (filter_pattern : option str) (c : cache) : keywords_response * cache :=
  if negb (existsb (str_eqb library_name) STANDARD_LIBRARIES)
  then (UnknownLibrary STANDARD_LIBRARIES, c)
  else
    (* Ensure we have the data *)
    let '(fetched, c) :=
      match html_files c (library_file CACHE_DIR library_name) with
      | None =>
          let (fetch_result, c) :=
            fetch_rf_documentation CACHE_DIR urlopen feed json_loads false c in
          (success fetch_result, c)
      | Some _ => (true, c)
      end in
    if negb fetched then (FailedToFetch, c)
    else
      match _parse_library_keywords CACHE_DIR json_loads library_name c with
      | None => (NotDownloaded, c)
      | Some (Err e) => (ParseFailed e, c)
      | Some (Ok keywords) =>
          (* Apply filter if provided *)
          let filtered :=
            match filter_pattern with
            | Some (ch :: p) =>
                match re_compile (ch :: p) with
                | Some search => Some (filter_keywords search keywords)
                | None => None
                end
            | _ => Some keywords
            end in
          match filtered with
          | None => (InvalidPattern, c)
          | Some keywords =>
              let keyword_list := keyword_list library_name keywords in
              (KeywordList library_name (length keyword_list) keyword_list, c)
          end
      end.

(** The loop that keeps the libraries in which the pattern finds a name. *)
Fixpoint filtered_libraries (search : str -> bool)
  (all_libraries : dict (dict KeywordRecord)) : dict (dict KeywordRecord) :=
  match all_libraries with
  | [] => []
  | (lib_name, keywords) :: libraries' =>
      match filter_keywords search keywords with
      | [] => filtered_libraries search libraries'
      | filtered_kw => (lib_name, filtered_kw) :: filtered_libraries search libraries'
      end
  end.

Definition get_all_keywords (filter_pattern : option str) (c : cache)
  : all_keywords_response * cache :=
  let '(fetched, c) :=
    match keywords_snapshot c with
    | None =>
        let (fetch_result, c) :=
          fetch_rf_documentation CACHE_DIR urlopen feed json_loads false c in
        (success fetch_result, c)
    | Some _ => (true, c)
    end in
  if negb fetched then (AllFailedToFetch, c)
  else
    match keywords_snapshot c with
    | None => (FailedToReadIndex, c)
    | Some index_data =>
        let all_libraries := ki_libraries index_data in
        let filtered :=
          match filter_pattern with
          | Some (ch :: p) =>
              match re_compile (ch :: p) with
              | Some search => Some (filtered_libraries search all_libraries)
              | None => None
              end
          | _ => Some all_libraries
          end in
        match filtered with
        | None => (AllInvalidPattern, c)
        | Some all_libraries =>
            let result_libraries :=
              map (fun lk => (fst lk, keyword_list (fst lk) (snd lk)))
                  all_libraries in
            (AllKeywords
               (list_sum (map (fun lk => length (snd lk)) result_libraries))
               (length result_libraries) result_libraries, c)
        end
    end.

(** The whole tool [get_keyword_documentation] (lines 605-650): the
    snapshot is built when it is missing, then read, then searched. *)
Definition get_keyword_documentation_tool (keyword_name : str)
  (library_name : option str) (c : cache) : documentation_response * cache :=
  let '(fetched, c) :=
    match keywords_snapshot c with
    | None =>
        let (fetch_result, c) :=
          fetch_rf_documentation CACHE_DIR urlopen feed json_loads false c in
        (success fetch_result, c)
    | Some _ => (true, c)
    end in
  if negb fetched then (FailedToFetchDocumentation, c)
  else
    match keywords_snapshot c with
    | None => (FailedToSearchKeyword, c)
    | Some index_data =>
        (Documentation
           (get_keyword_documentation (ki_libraries index_data) keyword_name
              library_name), c)
    end.

Definition check_keyword_availability (keyword_name : str) (c : cache)
  : availability * cache :=
  let (result, c) := get_keyword_documentation_tool keyword_name None c in
  ({| keyword_searched := keyword_name;
      available := response_available result;
      av_library :=
        if response_available result then response_library result else None;
      keyword_actual_name :=
        if response_available result then response_keyword result else None;
      message :=
        match response_message result with
        | Some m => m
        | None =>
            lit "Keyword '" ++ format_opt (response_keyword result)
              ++ lit "' is available in "
              ++ format_opt (response_library result) ++ lit " library"
        end |}, c).

End Tools.

(** ** The documentation addresses ([get_documentation_url], lines 691-712) *)

(** A value of the [urls] dict: an address, or the table of the libraries. *)
Inductive url_entry : Type :=
| Url (address : str)
| UrlTable (addresses : dict str).

Definition urls : dict url_entry :=
  [ (lit "user_guide", Url RF_DOCS_URL);
    (lit "builtin_library", Url (RF_BASE_LIB_URL ++ lit "/BuiltIn.html"));
    (lit "release_notes",
     Url (lit "https://github.com/robotframework/robotframework/blob/master/doc/releasenotes/rf-"
            ++ RF_VERSION ++ lit ".rst"));
    (lit "all_libraries",
     Url (lit "https://robotframework.org/robotframework/" ++ RF_VERSION
            ++ lit "/libraries/"));
    (lit "standard_libraries",
     UrlTable
       [ (lit "BuiltIn", RF_BASE_LIB_URL ++ lit "/BuiltIn.html");
         (lit "Collections", RF_BASE_LIB_URL ++ lit "/Collections.html");
         (lit "DateTime", RF_BASE_LIB_URL ++ lit "/DateTime.html");
         (lit "OperatingSystem", RF_BASE_LIB_URL ++ lit "/OperatingSystem.html");
         (lit "Process", RF_BASE_LIB_URL ++ lit "/Process.html");
         (lit "Screenshot", RF_BASE_LIB_URL ++ lit "/Screenshot.html");
         (lit "String", RF_BASE_LIB_URL ++ lit "/String.html");
         (lit "Telnet", RF_BASE_LIB_URL ++ lit "/Telnet.html");
         (lit "XML", RF_BASE_LIB_URL ++ lit "/XML.html") ]) ].

(** The ["urls"] of the answer. *)
Definition get_documentation_url (topic : option str) : dict url_entry :=
  match topic with
  | Some (c :: t) =>
      [ (c :: t,
         match dict_get (c :: t) urls with
         | Some u => u
         | None => Url (lit "Topic not found")
         end) ]
  | _ => urls
  end.

(** ** The installed library documentation
    ([list_installed_library_docs], lines 1126-1188, and
    [get_installed_library_docs], lines 1216-1317) *)

(** A file of [LIBRARY_DOCS_DIR] as the code reads it: the attributes of
    its [Path]; what [stat] gives, the size and the time of modification
    as [datetime.fromtimestamp(st_mtime).isoformat()], [None] when it
    raises; and what [read_text] returns, [None] when it raises. *)
Record doc_file : Type := mk_doc_file {
  df_name : str;
  df_stem : str;
  df_suffix : str;
  df_path : str;
  df_stat : option (nat * str);
  df_text : option str
}.

Definition st_size (f : doc_file) : nat :=
  match df_stat f with Some (size, _) => size | None => 0 end.

Definition df_modified (f : doc_file) : str :=
  match df_stat f with Some (_, modified) => modified | None => [] end.

Definition stat_ok (f : doc_file) : bool :=
  match df_stat f with Some _ => true | None => false end.

Record file_info : Type := mk_file_info {
  fi_name : str;
  fi_path : str;
  fi_size_bytes : nat;
  fi_size_human : str;
  fi_modified : str;
  fi_format : str
}.

Record format_entry : Type := mk_format_entry {
  fe_format : str;
  fe_file : str;
  fe_size : str
}.

Record library_entry : Type := mk_library_entry {
  le_library : str;
  le_formats : list format_entry
}.

Inductive listing_response : Type :=
| DocsDirectoryNotFound      (* "Documentation directory not found: ..." *)
| NoDocumentationFiles       (* "No documentation files found" *)
| FailedToListDocs           (* "Failed to list library docs: ..." *)
| DocsListing (total_files : nat) (available_libraries : list str)
    (libraries : list library_entry) (files : list file_info).

(** [s.lstrip('.')]. *)
Fixpoint lstrip_dots (s : str) : str :=
  match s with
  | [] => []
  | c :: s' => if (c =? ".")%char then lstrip_dots s' else s
  end.

(** [s.split('_')[0]]. *)
Fixpoint before_underscore (s : str) : str :=
  match s with
  | [] => []
  | c :: s' => if (c =? "_")%char then [] else c :: before_underscore s'
  end.

Section InstalledDocs.

(** [f"{a / b:.1f}"] for two integers. *)
Variable format_1f : nat -> nat -> str.

Definition size_human (size : nat) : str :=
  if size <? 1024 * 1024 then format_1f size 1024 ++ lit " KB"
  else format_1f size (1024 * 1024) ++ lit " MB".

Definition file_info_of (f : doc_file) : file_info :=
  {| fi_name := df_name f;
     fi_path := df_path f;
     fi_size_bytes := st_size f;
     fi_size_human := size_human (st_size f);
     fi_modified := df_modified f;
     fi_format := lstrip_dots (df_suffix f) |}.

(** The body of [for doc_file in doc_files], on [libraries] and
    [all_files]. *)
Definition add_doc_file (st : dict library_entry * list file_info)
  (f : doc_file) : dict library_entry * list file_info :=
  let (libraries, all_files) := st in
  let file_info := file_info_of f in
  let all_files := all_files ++ [file_info] in
  (* Extract library name *)
  let lib_name := before_underscore (df_stem f) in
  let libraries :=
    match dict_get lib_name libraries with
    | None => dict_set lib_name (mk_library_entry lib_name []) libraries
    | Some _ => libraries
    end in
  let libraries :=
    match dict_get lib_name libraries with
    | Some entry =>
        dict_set lib_name
          (mk_library_entry (le_library entry)
             (le_formats entry
                ++ [ {| fe_format := fi_format file_info;
                        fe_file := df_name f;
                        fe_size := fi_size_human file_info |} ]))
          libraries
    | None => libraries
    end in
  (libraries, all_files).

(** [dir_exists] is [LIBRARY_DOCS_DIR.exists()], [doc_files] what
    [LIBRARY_DOCS_DIR.glob("*.*")] lists.  The loop is left by the
    exception of the first [stat()] that raises, and [except Exception]
    answers that the listing failed. *)
Definition list_installed_library_docs (dir_exists : bool)
  (doc_files : list doc_file) : listing_response :=
  if negb dir_exists then DocsDirectoryNotFound
  else
    match doc_files with
    | [] => NoDocumentationFiles
    | _ =>
        if forallb stat_ok doc_files then
          let (libraries, all_files) :=
            fold_left add_doc_file doc_files ([], []) in
          DocsListing (length all_files) (map fst libraries)
            (map snd libraries) all_files
        else FailedToListDocs
    end.

End InstalledDocs.

Inductive docs_response : Type :=
| DirectoryNotFound          (* "Documentation directory not found: ..." *)
| DocumentationNotFound (available_formats : list str) (hint : str)
| JSONDocs (file_path : str) (version scope : json) (keywords_count : nat)
    (file_size : nat) (modified : str) (documentation keywords : json)
| RawDocs (file_path : str) (file_size : nat) (modified : str)
    (truncated : bool) (content : str)
| FailedToParseJSON          (* "Failed to parse JSON: ..." *)
| FailedToReadDocs.          (* "Failed to read library docs: ..." *)

(** [len(x)]; [None] is the TypeError of a value without a length. *)
Definition json_len (x : json) : option nat :=
  match x with
  | JStr s => Some (length s)
  | JList l => Some (length l)
  | JDict d => Some (length d)
  | _ => None
  end.

(** [x[:n]]; [None] is the error of a value that cannot be sliced. *)
Definition json_slice (n : nat) (x : json) : option json :=
  match x with
  | JStr s => Some (JStr (firstn n s))
  | JList l => Some (JList (firstn n l))
  | _ => None
  end.

(** [x + "..."]; [None] is the TypeError of a value that is no string. *)
Definition json_add_dots (x : json) : option json :=
  match x with
  | JStr s => Some (JStr (s ++ lit "..."))
  | _ => None
  end.

Section InstalledLibraryDocs.

Variable json_loads : str -> loads_result.

(** The world of the tool.  [dir_exists] is [LIBRARY_DOCS_DIR.exists()].
    [tree] holds the files under [LIBRARY_DOCS_DIR], each under its path
    relative to the directory, in the order the directory lists them;
    [elsewhere] is the file at [LIBRARY_DOCS_DIR / name] for a name that
    is no path of [tree] as it is spelled (another spelling of a path, an
    absolute name, a name through [..]).  [glob_match] is the matching of
    [Path.glob]: [None] when the pattern makes it raise (an absolute
    pattern), else which paths of the tree the pattern matches. *)
Variable dir_exists : bool.
Variable tree : dict doc_file.
Variable elsewhere : str -> option doc_file.
Variable glob_match : str -> option (str -> bool).

(** [LIBRARY_DOCS_DIR / name], [None] when it does not exist. *)
Definition docs (name : str) : option doc_file :=
  match dict_get name tree with
  | Some f => Some f
  | None => elsewhere name
  end.

(** [[f.name for f in LIBRARY_DOCS_DIR.glob(pattern)]]. *)
Definition glob (pattern : str) : option (list str) :=
  match glob_match pattern with
  | Some matches =>
      Some (map (fun pf => df_name (snd pf))
              (filter (fun pf => matches (fst pf)) tree))
  | None => None
  end.

Definition robocop_file : option doc_file :=
  match docs (lit "Robocop_help.txt") with
  | Some f => Some f
  | None => docs (lit "Robocop_rules.txt")
  end.

Definition json_docs (f : doc_file) : docs_response :=
  match df_text f with
  | None => FailedToReadDocs
  | Some text =>
      match json_loads text with
      | JSONDecodeError => FailedToParseJSON
      | LoadsRaises => FailedToReadDocs
      | Loaded content =>
          (* Extract summary information *)
          let summary :=
            match json_get content (lit "keywords") (JList []) with
            | None => None
            | Some keywords =>
                match json_len keywords with
                | None => None
                | Some keywords_count =>
                    match json_get content (lit "version") (JStr (lit "unknown")),
                          json_get content (lit "scope") (JStr (lit "unknown")),
                          json_get content (lit "doc") (JStr [])
                    with
                    | Some library_version, Some library_scope, Some library_doc =>
                        match json_len library_doc with
                        | None => None
                        | Some n =>
                            let documentation :=
                              if 500 <? n
                              then match json_slice 500 library_doc with
                                   | Some head => json_add_dots head
                                   | None => None
                                   end
                              else Some library_doc in
                            match documentation, json_slice 10 keywords with
                            | Some documentation, Some sample =>
                                Some (JSONDocs (df_path f) library_version
                                        library_scope keywords_count (st_size f)
                                        (df_modified f) documentation sample)
                            | _, _ => None
                            end
                        end
                    | _, _, _ => None
                    end
                end
            end in
          match summary with
          | Some r => r
          | None => FailedToReadDocs
          end
      end
  end.

Definition raw_docs (f : doc_file) : docs_response :=
  match df_text f with
  | None => FailedToReadDocs
  | Some content =>
      (* Truncate if too large *)
      let truncated := 5000 <? length content in
      let display_content :=
        if truncated
        then firstn 5000 content ++ [ascii_of_nat 10; ascii_of_nat 10]
               ++ lit "... (truncated)"
        else content in
      RawDocs (df_path f) (st_size f) (df_modified f) truncated display_content
  end.

Definition get_installed_library_docs (library_name format : str)
  : docs_response :=
  if negb dir_exists then DirectoryNotFound
  else
    (* Handle different file naming patterns *)
    let doc_file :=
      if str_eqb (lower library_name) (lit "robocop")
         && str_eqb format (lit "txt")
      then robocop_file
      else docs (library_name ++ lit "." ++ format) in
    match doc_file with
    | None =>
        (* Try to find any file matching the library name *)
        match glob (library_name ++ lit "*") with
        | None => FailedToReadDocs
        | Some available =>
            DocumentationNotFound available
              (lit "Available files: "
                 ++ match available with
                    | [] => lit "none"
                    | _ => join (lit ", ") available
                    end)
        end
    | Some f =>
        (* Read the documentation file *)
        if negb (stat_ok f) then FailedToReadDocs
        else if str_eqb format (lit "json") then json_docs f
        else raw_docs f
    end.

End InstalledLibraryDocs.

(** * The vocabulary of the statements

    Definitions that the properties below are stated with; none of them
    is part of the program. *)

(** ** Extractor *)

(** The loop on the three variables held in one [scan_state]. *)
Definition scan_st (chars : str) (i : nat) (st : scan_state) : option nat :=
  scan chars i (depth st) (in_string st) (escape st).

(** ** Section parser *)

(** A heading start tag, with the identifier and the rank of the section
    it opens; heading end tags. *)
Definition heading_start (e : event) : option (option str * Z) :=
  match e with
  | StartTag tag attrs =>
      match heading_rank tag with
      | Some rank => Some (attrs_get_id attrs, rank)
      | None => None
      end
  | _ => None
  end.

Definition is_heading_start (e : event) : bool :=
  match heading_start e with Some _ => true | None => false end.

Definition is_heading_end (e : event) : bool :=
  match e with
  | EndTag tag => match heading_rank tag with Some _ => true | None => false end
  | _ => false
  end.

(** The headings of a document, in document order. *)
Fixpoint headings (evs : list event) : list (option str * Z) :=
  match evs with
  | [] => []
  | e :: evs' =>
      match heading_start e with
      | Some h => h :: headings evs'
      | None => headings evs'
      end
  end.

(** The text fragments of a run of events, in document order. *)
Fixpoint fragments (evs : list event) : list str :=
  match evs with
  | [] => []
  | Data data :: evs' => data :: fragments evs'
  | _ :: evs' => fragments evs'
  end.

(** The trimmed fragments that are not empty. *)
Definition text_parts (evs : list event) : list str :=
  filter (fun t => match t with [] => false | _ => true end)
         (map strip (fragments evs)).

(** The last fragment, trimmed; the empty string if there is none. *)
Definition last_fragment (evs : list event) : str :=
  last (map strip (fragments evs)) [].

(** The first trimmed fragment that is not empty; the empty string if
    there is none. *)
Definition first_nonempty_fragment (evs : list event) : str :=
  match text_parts evs with
  | [] => []
  | t :: _ => t
  end.

(** [feed] from a state of the parser. *)
Definition run (evs : list event) (st : DocumentationParser)
  : DocumentationParser :=
  fold_left dispatch evs st.

(** The heading [<h2>Foo <b>bar</b> baz</h2>] as the tokenizer reports it. *)
Definition heading_with_inline_markup : list event :=
  [Data (lit "Foo "); StartTag (lit "b") []; Data (lit "bar");
   EndTag (lit "b"); Data (lit " baz")].

(** ** Search engine *)

(** [sub] occurs in [s] as a substring. *)
Definition occurs_in (sub s : str) : Prop :=
  exists pre post, s = pre ++ sub ++ post.


(** The two sections of the relevance example. *)
Definition run_keyword_sections : list section :=
  [ mk_section (Some []) 2 (lit "Run Keyword") (lit "run a keyword");
    mk_section (Some []) 2 (lit "x") (lit "run run") ].

(** ** Keyword lookup *)

(** No key of [keywords] has the normal form [qn]. *)
Definition no_match (qn : str) (keywords : dict KeywordRecord) : Prop :=
  Forall (fun kv => normalize_name (fst kv) <> qn) keywords.

(** The answer for the keyword [k] with the record [v] of [lib_name]. *)
Definition found_response (lib_name k : str) (v : KeywordRecord)
  : lookup_response :=
  KeywordFound k lib_name (kw_args v) (kw_doc v)
    ((RF_BASE_LIB_URL ++ lit "/" ++ lib_name ++ lit ".html")
       ++ lit "#" ++ kw_id v).

(** A small index: two libraries, the second with keys that have the same
    normal form as keys of the first. *)
Definition example_record (name library : str) : KeywordRecord :=
  mk_keyword name (replace_char " " (lit "%20") name) (lit "item")
    (lit "Returns a number.") library (JStr (lit "lib.py")) (JInt 7).

Definition example_index : dict (dict KeywordRecord) :=
  [ (lit "BuiltIn",
     [ (lit "Get Count", example_record (lit "Get Count") (lit "BuiltIn"));
       (lit "Get Length", example_record (lit "Get Length") (lit "BuiltIn"));
       (lit "get_length", example_record (lit "get_length") (lit "BuiltIn")) ]);
    (lit "Collections",
     [ (lit "Get-Length", example_record (lit "Get-Length") (lit "Collections"));
       (lit "Get Length Of List",
        example_record (lit "Get Length Of List") (lit "Collections")) ]) ].

(** ** Keyword normalizer *)

(** The fields of a keyword entry, as the statements read them: the name
    (empty when missing), the argument representations that are not empty,
    and the short documentation. *)
Definition field (k : string) (x : json) : option json :=
  match x with
  | JDict d => dict_get (lit k) d
  | _ => None
  end.

Definition name_of (kw_data : json) : str :=
  match field "name" kw_data with Some (JStr s) => s | _ => [] end.

Definition repr_of (arg : json) : list str :=
  match field "repr" arg with Some (JStr (c :: s)) => [c :: s] | _ => [] end.

Definition reprs_of (kw_data : json) : list str :=
  match field "args" kw_data with
  | Some (JList args) => flat_map repr_of args
  | _ => []
  end.

Definition shortdoc_of (kw_data : json) : str :=
  match field "shortdoc" kw_data with Some (JStr s) => s | _ => [] end.

(** The shape of a keyword entry: a mapping whose [name], if present, is a
    string; and, when the name is not empty, whose [args], if present, is a
    list of mappings with a string [repr], if any, and whose [shortdoc], if
    present, is a string. *)
Definition arg_shaped (arg : json) : bool :=
  match arg with
  | JDict a =>
      match dict_get (lit "repr") a with
      | None | Some (JStr _) => true
      | Some _ => false
      end
  | _ => false
  end.

Definition entry_shaped (kw_data : json) : bool :=
  match kw_data with
  | JDict d =>
      match dict_get (lit "name") d with
      | None | Some (JStr []) => true
      | Some (JStr (_ :: _)) =>
          match dict_get (lit "args") d with
          | None => true
          | Some (JList args) => forallb arg_shaped args
          | Some _ => false
          end
          && match dict_get (lit "shortdoc") d with
             | None | Some (JStr _) => true
             | Some _ => false
             end
      | Some _ => false
      end
  | _ => false
  end.

(** The record the loop builds for a keyword entry. *)
Definition record_of (library_name : str) (kw_data : json) : KeywordRecord :=
  {| kw_name := name_of kw_data;
     kw_id := replace_char " " (lit "%20") (name_of kw_data);
     kw_args := join (lit ", ") (reprs_of kw_data);
     kw_doc := sub_code 0 (sub_tags 0 (shortdoc_of kw_data));
     kw_library := library_name;
     kw_source :=
       match field "source" kw_data with Some v => v | None => JStr [] end;
     kw_lineno :=
       match field "lineno" kw_data with Some v => v | None => JStr [] end |}.

(** One turn of the loop on an entry of the expected shape. *)
Definition add_entry (library_name : str) (keywords : dict KeywordRecord)
  (kw_data : json) : dict KeywordRecord :=
  match name_of kw_data with
  | [] => keywords
  | _ :: _ =>
      dict_set (name_of kw_data) (record_of library_name kw_data) keywords
  end.

(** A libdoc object with one keyword that has four arguments (one with
    an empty repr, one without a repr), one entry whose name is empty and
    one entry without a name. *)
Definition example_libdoc : dict json :=
  [ (lit "name", JStr (lit "BuiltIn"));
    (lit "keywords",
     JList
       [ JDict [ (lit "name", JStr (lit "Should Be"));
                 (lit "args",
                  JList [ JDict [(lit "repr", JStr (lit "first"))];
                          JDict [(lit "repr", JStr [])];
                          JDict [(lit "name", JStr (lit "x"))];
                          JDict [(lit "repr", JStr (lit "second=None"))] ]);
                 (lit "shortdoc", JStr (lit "``Foo Bar`` should be <b>x</b>"));
                 (lit "lineno", JInt 7) ];
         JDict [ (lit "name", JStr []); (lit "args", JInt 5) ];
         JDict [ (lit "shortdoc", JStr (lit "no name")) ] ]) ].

(** ** Refresh cycle *)

(** The entry of the per-library map, the keywords that enter the
    snapshot and the number of keywords counted, for what happens to a
    library: [None] when there is no file to parse, else the result of
    parsing it. *)
Definition status_of (o : option (result (dict KeywordRecord)))
  : option library_status :=
  match o with
  | None => None
  | Some (Ok keywords) => Some (mk_status true (length keywords))
  | Some (Err _) => Some (mk_status false 0)
  end.

Definition keywords_of (o : option (result (dict KeywordRecord)))
  : option (dict KeywordRecord) :=
  match o with Some (Ok keywords) => Some keywords | _ => None end.

(** A dict of at most one entry, and [d[k] = a] when there is an [a]. *)
Definition opt_list {A : Type} (k : str) (o : option A) : dict A :=
  match o with Some a => [(k, a)] | None => [] end.

Definition opt_set {A : Type} (k : str) (o : option A) (d : dict A) : dict A :=
  match o with Some a => dict_set k a d | None => d end.

Definition counted (o : option (result (dict KeywordRecord))) : nat :=
  match o with Some (Ok keywords) => length keywords | _ => 0 end.

Section RefreshOutcomes.

Variable CACHE_DIR : str.
Variable urlopen : str -> option str.
Variable json_loads : str -> loads_result.
Variable force_refresh : bool.

(** The file that is parsed for a library: what the download step leaves
    at its path.  A download that fails leaves the cached file, if any. *)
Definition library_text (files : str -> option str) (library_name : str)
  : option str :=
  let cached := files (library_file CACHE_DIR library_name) in
  if force_refresh || match cached with Some _ => false | None => true end
  then
    match urlopen (RF_BASE_LIB_URL ++ lit "/" ++ library_name ++ lit ".html")
    with
    | Some content => Some content
    | None => cached
    end
  else cached.

(** What happens to a library in the cycle: [None] when there is no file
    to parse, else the result of parsing it. *)
Definition library_outcome (files : str -> option str) (library_name : str)
  : option (result (dict KeywordRecord)) :=
  option_map (parse_library_text json_loads library_name)
    (library_text files library_name).

(** The libraries with what happens to each, from the files at the start
    of the loop. *)
Definition outcomes (files : str -> option str) (libs : list str)
  : list (str * option (result (dict KeywordRecord))) :=
  map (fun lib => (lib, library_outcome files lib)) libs.

End RefreshOutcomes.

(** A world in which one download fails: an empty cache, a network that
    serves every document but the one of BuiltIn, and a decoder that knows
    the one object served. *)
Definition served_html : str := jlit "<script>libdoc = {'keywords': []};</script>".

Definition example_urlopen (url : str) : option str :=
  if str_eqb url (RF_BASE_LIB_URL ++ lit "/BuiltIn.html") then None
  else Some served_html.

Definition example_json_loads (text : str) : loads_result :=
  if str_eqb text (jlit "{'keywords': []}")
  then Loaded (JDict [(lit "keywords", JList [])]) else JSONDecodeError.

Definition empty_cache : cache :=
  mk_cache (fun _ => None) None None.

Definition example_refresh : fetch_results * cache :=
  fetch_rf_documentation (lit "/tmp/rf_docs_cache") example_urlopen
    (fun _ => Some []) example_json_loads false empty_cache.

(** ** Further vocabulary *)

(** The result for the first section of the relevance example. *)
Definition run_keyword_hit : search_hit :=
  mk_hit (lit "Run Keyword") (Some []) 2 11 (lit "run a keyword...")
    (RF_DOCS_URL ++ lit "#").

Section RefreshFiles.

Variable urlopen : str -> option str.
Variable force_refresh : bool.

(** The file at [path] after its download step from [url]: the body that
    is served when a download is asked for (forced, or the file is
    missing), else the cached file. *)
Definition file_after (files : str -> option str) (path url : str)
  : option str :=
  let cached := files path in
  if force_refresh || match cached with Some _ => false | None => true end
  then match urlopen url with Some content => Some content | None => cached end
  else cached.

(** Whether the document is downloaded in this cycle: asked for and served. *)
Definition downloaded_now (files : str -> option str) (path url : str) : bool :=
  (force_refresh || match files path with Some _ => false | None => true end)
  && match urlopen url with Some _ => true | None => false end.

End RefreshFiles.

(** The address a library is downloaded from. *)
Definition library_url (library_name : str) : str :=
  RF_BASE_LIB_URL ++ lit "/" ++ library_name ++ lit ".html".

(** ** Keyword listings *)

(** Whether a name passes the filter of a listing: every name does when
    there is no pattern or an empty one. *)
Definition passes (re_compile : str -> option (str -> bool))
  (filter_pattern : option str) (k : str) : bool :=
  match filter_pattern with
  | Some (ch :: p) =>
      match re_compile (ch :: p) with
      | Some search => search k
      | None => false
      end
  | _ => true
  end.

Definition str_le (a b : str) : Prop := str_leb a b = true.

(** Whether a library of the snapshot is listed: with a pattern, when the
    pattern finds one of its keyword names. *)
Definition listed (re_compile : str -> option (str -> bool))
  (filter_pattern : option str) (keywords : dict KeywordRecord) : bool :=
  match filter_pattern with
  | Some (_ :: _) =>
      existsb (passes re_compile filter_pattern) (map fst keywords)
  | _ => true
  end.

(** The listing [items] of a library is the listing of [keywords] under
    the pattern. *)
Definition lists (re_compile : str -> option (str -> bool))
  (filter_pattern : option str) (listing : str * list keyword_item)
  (library : str * dict KeywordRecord) : Prop :=
  fst listing = fst library
  /\ StronglySorted str_le (map item_name (snd listing))
  /\ Permutation (map item_name (snd listing))
       (filter (passes re_compile filter_pattern) (map fst (snd library)))
  /\ forall i, In i (snd listing) ->
       item_library i = fst library
       /\ exists v, In (item_name i, v) (snd library)
            /\ item_args i = kw_args v
            /\ item_description i = firstn 200 (kw_doc v).

(** The entry that lists [example_record]. *)
Definition example_item (name library : str) : keyword_item :=
  mk_item name library (lit "item") (lit "Returns a number.").

(** A cache that holds nothing but the snapshot of [example_index]. *)
Definition example_snapshot : cache :=
  mk_cache (fun _ => None) None (Some (mk_index 2 5 example_index)).

(** ** Installed library documentation *)

(** The library a documentation file is filed under, and its entry in the
    list of formats of that library. *)
Definition library_of (f : doc_file) : str := before_underscore (df_stem f).

Definition format_entry_of (format_1f : nat -> nat -> str) (f : doc_file)
  : format_entry :=
  {| fe_format := lstrip_dots (df_suffix f);
     fe_file := df_name f;
     fe_size := size_human format_1f (st_size f) |}.

(** The files of a library, in the order of the listing. *)
Definition files_of (lib : str) (doc_files : list doc_file) : list doc_file :=
  filter (fun f => str_eqb (library_of f) lib) doc_files.

(** Two documentation files of one library. *)
Definition example_doc_files : list doc_file :=
  [ mk_doc_file (lit "Browser.json") (lit "Browser") (lit ".json")
      (lit "/app/docs/Browser.json")
      (Some (10, lit "2025-01-01T00:00:00")) None;
    mk_doc_file (lit "Browser_keywords.html") (lit "Browser_keywords")
      (lit ".html") (lit "/app/docs/Browser_keywords.html")
      (Some (20, lit "2025-01-01T00:00:00")) None ].

(** The marker as the specification words it: [libdoc], an equals sign
    and an opening brace, with any whitespace around the equals sign,
    between [pre] and [post]. *)
Definition whitespace (ws : str) : Prop := Forall (fun c => isspace c = true) ws.

Definition marker_at (html pre ws1 ws2 post : str) : Prop :=
  html = pre ++ lit "libdoc" ++ ws1 ++ "="%char :: ws2 ++ "{"%char :: post
  /\ whitespace ws1 /\ whitespace ws2.

Definition has_marker (html : str) : Prop :=
  exists pre ws1 ws2 post, marker_at html pre ws1 ws2 post.

(** The first occurrence of the marker: no marker starts before it. *)
Definition first_marker_at (html pre ws1 ws2 post : str) : Prop :=
  marker_at html pre ws1 ws2 post
  /\ forall pre' ws1' ws2' post',
       marker_at html pre' ws1' ws2' post' -> length pre <= length pre'.

(** A text whose object opens more arrays than any interpreter follows,
    and a decoder that does on it what [json.loads] does: it raises a
    RecursionError. *)
Definition deep_html : str :=
  jlit "<script>libdoc = {'a': " ++ repeat "["%char (100 * 1000) ++ lit "};</script>".

Definition deep_object : str :=
  jlit "{'a': " ++ repeat "["%char (100 * 1000) ++ lit "}".

Definition raising_loads (text : str) : loads_result := LoadsRaises.

(** Case folding as the specification means it, letter by letter: a
    capital letter becomes its small letter and every other character
    stays.  The letters are those of the Latin alphabet and the accented
    capitals of Latin-1 (code points 192-214 and 216-222). *)
Definition capital_letters : str :=
  lit "ABCDEFGHIJKLMNOPQRSTUVWXYZ" ++ map ascii_of_nat (seq 192 23 ++ seq 216 7).

Definition small_letters : str :=
  lit "abcdefghijklmnopqrstuvwxyz" ++ map ascii_of_nat (seq 224 23 ++ seq 248 7).

Fixpoint small_letter_of (capitals smalls : str) (c : ascii) : ascii :=
  match capitals, smalls with
  | capital :: capitals', small :: smalls' =>
      if (c =? capital)%char then small
      else small_letter_of capitals' smalls' c
  | _, _ => c
  end.

Definition case_folded (s : str) : str :=
  map (small_letter_of capital_letters small_letters) s.

(** The case-folded query occurs in the case-folded title or in the
    case-folded content of the section. *)
Definition query_occurs (query : str) (s : section) : Prop :=
  occurs_in (case_folded query) (case_folded (sec_title s))
  \/ occurs_in (case_folded query) (case_folded (sec_content s)).

(** Two sections; the empty query matches both. *)
Definition two_sections : list section :=
  [ mk_section None 1 (lit "a") []; mk_section None 1 (lit "b") [] ].

(** A user guide that ends in text with an ampersand, [<h1>T</h1>R&D], and
    the callbacks that [parser.feed] delivers for it: the text after the
    heading may be the beginning of a character reference, so [feed] keeps
    it buffered until more text comes or the parser is closed, and the
    parser is never closed. *)
Definition unfinished_guide : str := lit "<h1>T</h1>R&D".

Definition unfinished_guide_callbacks : list event :=
  [StartTag (lit "h1") []; Data (lit "T"); EndTag (lit "h1")].

Definition feed_unfinished_guide (html_content : str) : option (list event) :=
  if str_eqb html_content unfinished_guide
  then Some unfinished_guide_callbacks else None.

(** The file the tool is to read for a library and a format: for Robocop
    in the txt format the help file, or the rules file when there is no
    help file; else the file named after the library and the format. *)
Definition documentation_file (tree : dict doc_file)
  (elsewhere : str -> option doc_file) (library_name format : str)
  : option doc_file :=
  if str_eqb (lower library_name) (lit "robocop") && str_eqb format (lit "txt")
  then match docs tree elsewhere (lit "Robocop_help.txt") with
       | Some f => Some f
       | None => docs tree elsewhere (lit "Robocop_rules.txt")
       end
  else docs tree elsewhere (library_name ++ lit "." ++ format).

(** A text file of 6000 characters, and a JSON file with twelve keywords. *)
Definition long_text_file : doc_file :=
  mk_doc_file (lit "Browser.txt") (lit "Browser") (lit ".txt")
    (lit "/app/docs/Browser.txt") (Some (6 * 1000, lit "2025-01-01T00:00:00"))
    (Some (repeat "a"%char (6 * 1000))).

Definition twelve_keywords : json :=
  JDict [ (lit "doc", JStr (repeat "d"%char 600));
          (lit "keywords", JList (repeat (JDict []) 12)) ].

Definition json_file : doc_file :=
  mk_doc_file (lit "Browser.json") (lit "Browser") (lit ".json")
    (lit "/app/docs/Browser.json") (Some (700, lit "2025-01-01T00:00:00"))
    (Some (lit "{}")).

(** * Properties *)

(** ** Strings *)

Lemma str_eqb_eq (a b : str) : str_eqb a b = true <-> a = b.
Proof.
  revert b; induction a as [|x a IH]; intros [|y b]; simpl; split;
    try congruence; intros H.
  - apply andb_true_iff in H as [Hxy Hab].
    apply Ascii.eqb_eq in Hxy. apply IH in Hab. congruence.
  - injection H as -> ->. rewrite Ascii.eqb_refl. simpl. now apply IH.
Qed.

Lemma str_eqb_refl (a : str) : str_eqb a a = true.
Proof. now apply str_eqb_eq. Qed.

Lemma str_eqb_neq (a b : str) : str_eqb a b = false <-> a <> b.
Proof.
  split.
  - intros H E. apply str_eqb_eq in E. congruence.
  - intros H. destruct (str_eqb a b) eqn:E; [|reflexivity].
    apply str_eqb_eq in E. contradiction.
Qed.

Lemma strip_prefix_app (p s : str) : strip_prefix p (p ++ s) = Some s.
Proof.
  induction p as [|c p IH]; simpl; [reflexivity|].
  now rewrite Ascii.eqb_refl.
Qed.

Lemma strip_prefix_some (p s r : str) : strip_prefix p s = Some r -> s = p ++ r.
Proof.
  revert s; induction p as [|c p IH]; intros s; simpl.
  - congruence.
  - destruct s as [|d s]; [discriminate|].
    destruct (c =? d)%char eqn:E; [|discriminate].
    apply Ascii.eqb_eq in E. subst d. intros H. f_equal. now apply IH.
Qed.

(** ** The extractor *)

Lemma skip_spaces_length (s : str) :
  s = firstn (fst (skip_spaces s)) s ++ snd (skip_spaces s)
  /\ fst (skip_spaces s) + length (snd (skip_spaces s)) = length s.
Proof.
  induction s as [|c s [IH1 IH2]]; simpl; [auto|].
  destruct (isspace c); simpl; [|auto].
  destruct (skip_spaces s) as [n r]; simpl in *. split; [congruence|lia].
Qed.

Lemma skipn_length_app {A : Type} (a b : list A) (n : nat) :
  n = length a -> skipn n (a ++ b) = b.
Proof. intros ->. induction a; simpl; auto. Qed.

Lemma match_libdoc_brace (s : str) (n : nat) :
  match_libdoc s = Some n ->
  exists rest, 1 <= n <= length s /\ skipn (n - 1) s = "{"%char :: rest.
Proof.
  unfold match_libdoc.
  destruct (strip_prefix (lit "libdoc") s) as [r1|] eqn:E1; [|discriminate].
  apply strip_prefix_some in E1.
  pose proof (skip_spaces_length r1) as [H1 L1].
  destruct (skip_spaces r1) as [n1 r2]; simpl in H1, L1.
  destruct r2 as [|c r3]; [discriminate|].
  destruct c as [[] [] [] [] [] [] [] []]; try discriminate.
  pose proof (skip_spaces_length r3) as [H3 L3].
  destruct (skip_spaces r3) as [n2 r4]; simpl in H3, L3.
  destruct r4 as [|c r5]; [discriminate|].
  destruct c as [[] [] [] [] [] [] [] []]; try discriminate.
  intros [= <-]. exists r5.
  assert (Hn1 : length (firstn n1 r1) = n1) by (apply firstn_length_le; simpl in L1; lia).
  assert (Hn2 : length (firstn n2 r3) = n2) by (apply firstn_length_le; simpl in L3; lia).
  set (ws1 := firstn n1 r1) in *. set (ws2 := firstn n2 r3) in *.
  assert (Hs : s = (lit "libdoc" ++ ws1 ++ "="%char :: ws2) ++ "{"%char :: r5).
  { rewrite E1, H1, H3. rewrite <- !app_assoc. reflexivity. }
  assert (Hl : length (lit "libdoc" ++ ws1 ++ "="%char :: ws2) = 6 + n1 + 1 + n2).
  { rewrite !length_app. simpl. lia. }
  split.
  - apply (f_equal (@length _)) in Hs. rewrite length_app, Hl in Hs.
    simpl in Hs. lia.
  - rewrite Hs at 1. apply skipn_length_app. rewrite Hl. lia.
Qed.

Lemma re_search_libdoc_some (s : str) :
  forall pos a b, re_search_libdoc s pos = Some (a, b) ->
  exists rest,
    pos <= a /\ a < b <= pos + length s
    /\ skipn (b - 1 - pos) s = "{"%char :: rest.
Proof.
  induction s as [|c s IH]; intros pos a b; simpl.
  - discriminate.
  - destruct (match_libdoc (c :: s)) as [n|] eqn:E.
    + intros [= <- <-]. apply match_libdoc_brace in E as (rest & Hn & Hr).
      exists rest. replace (pos + n - 1 - pos) with (n - 1) by lia.
      simpl in Hn. repeat split; try lia. exact Hr.
    + intros H. apply IH in H as (rest & Hp & Hab & Hr). exists rest.
      replace (b - 1 - pos) with (S (b - 1 - S pos)) by lia.
      repeat split; try lia. exact Hr.
Qed.

Lemma re_search_libdoc_complete (pre post : str) :
  forall pos, exists a b,
    re_search_libdoc (pre ++ lit "libdoc = {" ++ post) pos = Some (a, b).
Proof.
  induction pre as [|c pre IH]; intros pos.
  - exists pos, (pos + 10). reflexivity.
  - rewrite <- app_comm_cons. cbn [re_search_libdoc].
    destruct (match_libdoc (c :: pre ++ lit "libdoc = {" ++ post)) as [n|].
    + now exists pos, (pos + n).
    + apply IH.
Qed.

(** One iteration: the loop breaks exactly when the step brings the depth
    to 0, and otherwise goes on from the stepped state. *)
Lemma scan_st_cons (c : ascii) (rest : str) (i : nat) (st : scan_state) :
  (1 <= depth st)%Z ->
  scan_st (c :: rest) i st
  = (if (depth (scan_step st c) =? 0)%Z then Some (i + 1)
     else scan_st rest (S i) (scan_step st c))
  /\ (depth (scan_step st c) <> 0%Z -> (1 <= depth (scan_step st c))%Z).
Proof.
  destruct st as [d ins esc]. unfold scan_st, scan_step. simpl. intros Hd.
  destruct esc; simpl.
  { destruct (d =? 0)%Z eqn:E; [lia|]. split; [reflexivity|lia]. }
  destruct (c =? "\")%char; simpl.
  { destruct (d =? 0)%Z eqn:E; [lia|]. split; [reflexivity|lia]. }
  destruct (c =? dquote)%char; simpl.
  { destruct (d =? 0)%Z eqn:E; [lia|]. split; [reflexivity|lia]. }
  destruct ins; simpl.
  { destruct (d =? 0)%Z eqn:E; [lia|]. split; [reflexivity|lia]. }
  destruct (c =? "{")%char; simpl.
  { destruct (d + 1 =? 0)%Z eqn:E; [lia|]. split; [reflexivity|lia]. }
  destruct (c =? "}")%char; simpl.
  { destruct (d - 1 =? 0)%Z eqn:E; split; try reflexivity; lia. }
  destruct (d =? 0)%Z eqn:E; [lia|]. split; [reflexivity|lia].
Qed.

Lemma scan_st_correct (chars : str) :
  forall i st, (1 <= depth st)%Z ->
  match scan_st chars i st with
  | Some e =>
      exists n, e = i + n /\ 1 <= n <= length chars
        /\ depth (scan_from st (firstn n chars)) = 0%Z
        /\ forall m, m < n -> depth (scan_from st (firstn m chars)) <> 0%Z
  | None => forall n, depth (scan_from st (firstn n chars)) <> 0%Z
  end.
Proof.
  induction chars as [|c rest IH]; intros i st Hd.
  - simpl. intros n. rewrite firstn_nil. simpl. lia.
  - destruct (scan_st_cons c rest i st Hd) as [-> Hpos].
    destruct (depth (scan_step st c) =? 0)%Z eqn:E.
    + apply Z.eqb_eq in E. exists 1. simpl. repeat split; try lia; auto.
      intros m Hm. replace m with 0 by lia. simpl. lia.
    + apply Z.eqb_neq in E. specialize (IH (S i) (scan_step st c) (Hpos E)).
      destruct (scan_st rest (S i) (scan_step st c)) as [e|].
      * destruct IH as (n & -> & Hn & Hz & Hm). exists (S n). simpl.
        repeat split; try lia; auto.
        intros [|m] Hlt; simpl; [lia|]. apply Hm. lia.
      * intros [|n]; simpl; [lia|]. apply IH.
Qed.

Lemma closes_at_unique (body : str) (n n' : nat) :
  closes_at body n -> closes_at body n' -> n = n'.
Proof.
  intros (Hn & Hz & Hm) (Hn' & Hz' & Hm').
  destruct (Nat.lt_trichotomy n n') as [H|[H|H]]; [|assumption|].
  - exfalso. apply (Hm' n); [lia|assumption].
  - exfalso. apply (Hm n'); [lia|assumption].
Qed.

(** The loop started at an opening brace. *)
Lemma scan_open_brace (rest : str) (p : nat) :
  match scan ("{"%char :: rest) p 0 false false with
  | Some e => exists n, e = p + n /\ closes_at ("{"%char :: rest) n
  | None => never_closes ("{"%char :: rest)
  end.
Proof.
  change (scan ("{"%char :: rest) p 0 false false)
    with (scan_st rest (S p) (mk_scan 1 false false)).
  pose proof (scan_st_correct rest (S p) (mk_scan 1 false false)) as H.
  simpl in H. specialize (H ltac:(lia)).
  destruct (scan_st rest (S p) (mk_scan 1 false false)) as [e|].
  - destruct H as (n & -> & Hn & Hz & Hm). exists (S n).
    split; [lia|]. repeat split; simpl; try lia; auto.
    intros [|m] Hlt; [lia|]. simpl. apply Hm. lia.
  - intros [|n] Hn; [lia|]. simpl. apply H.
Qed.

(** The extractor in terms of the marker and of the depth. *)
Lemma extract_libdoc_json_cases (html : str) :
  match re_search_libdoc html 0 with
  | None => extract_libdoc_json html = Err CouldNotFindLibdoc
  | Some (a, b) =>
      nth_error html (b - 1) = Some "{"%char
      /\ ((exists n, closes_at (skipn (b - 1) html) n
             /\ extract_libdoc_json html = Ok (slice (b - 1) (b - 1 + n) html))
          \/ (never_closes (skipn (b - 1) html)
              /\ extract_libdoc_json html = Err CouldNotFindEnd))
  end.
Proof.
  unfold extract_libdoc_json.
  destruct (re_search_libdoc html 0) as [[a b]|] eqn:E; [|reflexivity].
  apply re_search_libdoc_some in E as (rest & _ & Hab & Hr).
  rewrite Nat.sub_0_r in Hr. split.
  - rewrite <- (firstn_skipn (b - 1) html) at 1.
    rewrite nth_error_app2; rewrite length_firstn; [|lia].
    replace (b - 1 - Nat.min (b - 1) (length html)) with 0 by lia.
    now rewrite Hr.
  - rewrite Hr. pose proof (scan_open_brace rest (b - 1)) as H.
    destruct (scan ("{"%char :: rest) (b - 1) 0 false false) as [e|].
    + left. destruct H as (n & -> & Hn). now exists n.
    + right. now split.
Qed.

(** C1. For every text with a marker (the leftmost match of
    [libdoc\s*=\s*\{]; every text that contains [libdoc = {] has one), the
    scan that starts at the marker's opening brace returns the verbatim
    substring from that brace up to and including the character at which
    the depth, stepped as the specification words it, first returns to 0.
    In particular, when the marker is followed by the object with a brace
    inside a string literal, the whole object is returned. *)
Theorem C1_extractor_returns_balanced_object :
  (forall pre post, exists a b,
      re_search_libdoc (pre ++ lit "libdoc = {" ++ post) 0 = Some (a, b))
  /\ (forall html a b n,
        re_search_libdoc html 0 = Some (a, b) ->
        closes_at (skipn (b - 1) html) n ->
        nth_error html (b - 1) = Some "{"%char
        /\ extract_libdoc_json html = Ok (slice (b - 1) (b - 1 + n) html))
  /\ (forall post,
        extract_libdoc_json (jlit "libdoc = {'a':'}{','b':1}" ++ post)
        = Ok (jlit "{'a':'}{','b':1}")).
Proof.
  split; [|split].
  - intros pre post. apply re_search_libdoc_complete.
  - intros html a b n E Hn.
    pose proof (extract_libdoc_json_cases html) as H. rewrite E in H.
    destruct H as [Hb [(n' & Hn' & Hx)|(Hnever & _)]].
    + now rewrite (closes_at_unique _ _ _ Hn Hn').
    + exfalso. destruct Hn as (Hle & Hz & _). now apply (Hnever n).
  - intros post. reflexivity.
Qed.

(** The theorem at a script element that holds the object of the example. *)
Lemma C1_extractor_witness :
  let html := jlit "<script>libdoc = {'a':'}{','b':1};</script>" in
  re_search_libdoc html 0 = Some (8, 18)
  /\ closes_at (skipn 17 html) 16
  /\ extract_libdoc_json html = Ok (jlit "{'a':'}{','b':1}").
Proof.
  assert (E : re_search_libdoc
                (jlit "<script>libdoc = {'a':'}{','b':1};</script>") 0
              = Some (8, 18)) by reflexivity.
  assert (Hn : closes_at
                 (skipn (18 - 1)
                    (jlit "<script>libdoc = {'a':'}{','b':1};</script>")) 16).
  { split; [simpl; lia|]. split; [reflexivity|].
    intros m Hm.
    do 16 (destruct m as [|m]; [first [lia | vm_compute; intros HH; discriminate HH]|]).
    lia. }
  split; [exact E|]. split; [exact Hn|].
  exact (proj2 (proj1 (proj2 C1_extractor_returns_balanced_object) _ 8 18 16 E Hn)).
Defined.

Lemma closes_not_never (body : str) (n : nat) :
  closes_at body n -> never_closes body -> False.
Proof. intros (Hle & Hz & _) Hnever. now apply (Hnever n). Qed.

Lemma skip_spaces_spec (s : str) :
  exists ws, s = ws ++ snd (skip_spaces s) /\ whitespace ws
             /\ length ws = fst (skip_spaces s)
             /\ match snd (skip_spaces s) with
                | [] => True
                | c :: _ => isspace c = false
                end.
Proof.
  induction s as [|c s (ws & H1 & H2 & H3 & H4)]; cbn [skip_spaces].
  - exists []. repeat split. constructor.
  - destruct (isspace c) eqn:E.
    + destruct (skip_spaces s) as [n r]. cbn [fst snd] in *.
      exists (c :: ws). repeat split.
      * cbn [app]. now rewrite <- H1.
      * now constructor.
      * cbn [length]. now rewrite H3.
      * exact H4.
    + exists []. cbn [fst snd]. repeat split; [constructor|exact E].
Qed.

Lemma skip_spaces_app (ws rest : str) (c : ascii) :
  whitespace ws -> isspace c = false ->
  skip_spaces (ws ++ c :: rest) = (length ws, c :: rest).
Proof.
  intros Hws Hc. induction Hws as [|d ws Hd Hws IH]; cbn [app skip_spaces length].
  - now rewrite Hc.
  - now rewrite Hd, IH.
Qed.

Lemma whitespace_unique (ws ws' r r' : str) (c c' : ascii) :
  whitespace ws -> whitespace ws' -> isspace c = false -> isspace c' = false ->
  ws ++ c :: r = ws' ++ c' :: r' -> ws = ws' /\ c = c' /\ r = r'.
Proof.
  intros Hws. revert ws'.
  induction Hws as [|d ws Hd Hws IH]; intros ws' Hws' Hc Hc' E.
  - destruct Hws' as [|d' ws' Hd' Hws']; cbn [app] in E.
    + injection E as -> ->. auto.
    + injection E as -> _. congruence.
  - destruct Hws' as [|d' ws' Hd' Hws']; cbn [app] in E.
    + injection E as <- _. congruence.
    + injection E as -> E. destruct (IH ws' Hws' Hc Hc' E) as (-> & -> & ->).
      auto.
Qed.

(** The pattern matches at the head of [s] exactly when [s] starts with
    the marker, and the length of the match is that of the marker. *)
Lemma match_libdoc_spec (s : str) (n : nat) :
  match_libdoc s = Some n
  <-> exists ws1 ws2 post,
        marker_at s [] ws1 ws2 post
        /\ n = 6 + length ws1 + 1 + length ws2 + 1.
Proof.
  unfold match_libdoc, marker_at. split.
  - destruct (strip_prefix (lit "libdoc") s) as [r1|] eqn:E1; [|discriminate].
    apply strip_prefix_some in E1.
    destruct (skip_spaces_spec r1) as (ws1 & H1 & Hw1 & L1 & _).
    destruct (skip_spaces r1) as [n1 r2]. cbn [fst snd] in *.
    destruct r2 as [|c r3]; [discriminate|].
    destruct (c =? "=")%char eqn:Ec;
      [|destruct c as [[] [] [] [] [] [] [] []]; discriminate].
    apply Ascii.eqb_eq in Ec. subst c.
    destruct (skip_spaces_spec r3) as (ws2 & H3 & Hw2 & L3 & _).
    destruct (skip_spaces r3) as [n2 r4]. cbn [fst snd] in *.
    destruct r4 as [|c r5]; [discriminate|].
    destruct (c =? "{")%char eqn:Ec;
      [|destruct c as [[] [] [] [] [] [] [] []]; discriminate].
    apply Ascii.eqb_eq in Ec. subst c.
    intros [= <-]. exists ws1, ws2, r5. split; [|lia].
    split; [|split; assumption].
    cbn [app]. rewrite E1, H1, H3. reflexivity.
  - intros (ws1 & ws2 & post & (Hs & Hw1 & Hw2) & ->). cbn [app] in Hs.
    rewrite Hs.
    change (lit "libdoc" ++ ws1 ++ "="%char :: ws2 ++ "{"%char :: post)
      with (lit "libdoc" ++ (ws1 ++ "="%char :: ws2 ++ "{"%char :: post)).
    rewrite strip_prefix_app.
    rewrite (skip_spaces_app ws1 _ "="%char Hw1 eq_refl).
    rewrite (skip_spaces_app ws2 _ "{"%char Hw2 eq_refl).
    reflexivity.
Qed.

Lemma marker_at_shift (html pre ws1 ws2 post : str) :
  marker_at html pre ws1 ws2 post
  <-> exists rest, html = pre ++ rest /\ marker_at rest [] ws1 ws2 post.
Proof.
  unfold marker_at. split.
  - intros (-> & H1 & H2). eexists. split; [reflexivity|].
    split; [reflexivity|auto].
  - intros (rest & -> & -> & H1 & H2). auto.
Qed.

(** The search returns the leftmost place at which the pattern matches. *)
Lemma re_search_libdoc_leftmost (s : str) :
  forall pos,
    match re_search_libdoc s pos with
    | None => forall pre rest, s = pre ++ rest -> match_libdoc rest = None
    | Some (a, b) =>
        exists pre rest n,
          s = pre ++ rest /\ match_libdoc rest = Some n
          /\ a = pos + length pre /\ b = a + n
          /\ forall pre' rest',
               s = pre' ++ rest' -> length pre' < length pre ->
               match_libdoc rest' = None
    end.
Proof.
  induction s as [|c s IH]; intros pos; cbn [re_search_libdoc].
  - change (match_libdoc []) with (@None nat).
    intros pre rest H. symmetry in H. apply app_eq_nil in H as [_ ->].
    reflexivity.
  - destruct (match_libdoc (c :: s)) as [n|] eqn:E.
    + exists [], (c :: s), n. cbn [app length].
      repeat split; [exact E|lia|]. intros pre' rest' _ H. inversion H.
    + specialize (IH (S pos)).
      destruct (re_search_libdoc s (S pos)) as [[a b]|].
      * destruct IH as (pre & rest & n & -> & Hm & -> & -> & Hleft).
        exists (c :: pre), rest, n. cbn [app length].
        repeat split; [exact Hm|lia|].
        intros pre' rest' Hs Hlen. destruct pre' as [|d pre'].
        -- cbn [app] in Hs. now subst rest'.
        -- cbn [app] in Hs. injection Hs as <- Hs. cbn [length] in Hlen.
           apply (Hleft pre' rest' Hs). lia.
      * intros pre rest Hs. destruct pre as [|d pre].
        -- cbn [app] in Hs. now subst rest.
        -- cbn [app] in Hs. injection Hs as <- Hs. now apply (IH pre rest).
Qed.

Lemma re_search_libdoc_none (html : str) :
  re_search_libdoc html 0 = None <-> ~ has_marker html.
Proof.
  pose proof (re_search_libdoc_leftmost html 0) as H. split.
  - intros E. rewrite E in H. intros (pre & ws1 & ws2 & post & Hm).
    apply marker_at_shift in Hm as (rest & Hs & Hm).
    assert (Hsome : match_libdoc rest
                    = Some (6 + length ws1 + 1 + length ws2 + 1)).
    { apply match_libdoc_spec. eauto. }
    rewrite (H pre rest Hs) in Hsome. discriminate.
  - intros Hno. destruct (re_search_libdoc html 0) as [[a b]|]; [|reflexivity].
    destruct H as (pre & rest & n & Hs & Hm & _).
    apply match_libdoc_spec in Hm as (ws1 & ws2 & post & Hm & _).
    exfalso. apply Hno. exists pre, ws1, ws2, post.
    apply marker_at_shift. eauto.
Qed.

Lemma re_search_libdoc_first (html : str) (a b : nat) :
  re_search_libdoc html 0 = Some (a, b) ->
  exists pre ws1 ws2 post,
    first_marker_at html pre ws1 ws2 post
    /\ a = length pre
    /\ skipn (b - 1) html = "{"%char :: post.
Proof.
  intros E. pose proof (re_search_libdoc_leftmost html 0) as H.
  rewrite E in H. destruct H as (pre & rest & n & Hs & Hm & -> & -> & Hleft).
  apply match_libdoc_spec in Hm as (ws1 & ws2 & post & Hm & ->).
  exists pre, ws1, ws2, post. split; [split|split; [reflexivity|]].
  - apply marker_at_shift. eauto.
  - intros pre' ws1' ws2' post' Hm'.
    apply marker_at_shift in Hm' as (rest' & Hs' & Hm').
    destruct (Nat.le_gt_cases (length pre) (length pre')) as [Hle|Hgt];
      [exact Hle|].
    assert (Hsome : match_libdoc rest'
                    = Some (6 + length ws1' + 1 + length ws2' + 1)).
    { apply match_libdoc_spec. eauto. }
    rewrite (Hleft pre' rest' Hs' Hgt) in Hsome. discriminate.
  - destruct Hm as (Hr & _ & _). cbn [app] in Hr. subst html rest.
    replace (lit "libdoc" ++ ws1 ++ "="%char :: ws2 ++ "{"%char :: post)
      with ((lit "libdoc" ++ ws1 ++ "="%char :: ws2) ++ "{"%char :: post)
      by (rewrite <- !app_assoc; reflexivity).
    rewrite app_assoc. apply skipn_length_app.
    rewrite !length_app. cbn [length]. change (length (lit "libdoc")) with 6.
    lia.
Qed.

Lemma app_inj_length {A : Type} (a a' b b' : list A) :
  length a = length a' -> a ++ b = a' ++ b' -> a = a' /\ b = b'.
Proof.
  revert a'. induction a as [|x a IH]; intros [|x' a'] Hl H;
    try discriminate Hl; cbn [app] in *; [auto|].
  injection H as -> H. injection Hl as Hl.
  destruct (IH a' Hl H) as [-> ->]. auto.
Qed.

(** The first marker of a text is unique. *)
Lemma first_marker_unique (html pre ws1 ws2 post pre' ws1' ws2' post' : str) :
  first_marker_at html pre ws1 ws2 post ->
  first_marker_at html pre' ws1' ws2' post' ->
  pre = pre' /\ ws1 = ws1' /\ ws2 = ws2' /\ post = post'.
Proof.
  intros [(H & Hw1 & Hw2) Hl] [(H' & Hw1' & Hw2') Hl'].
  assert (Hlen : length pre = length pre').
  { apply Nat.le_antisymm.
    - apply (Hl pre' ws1' ws2' post'). repeat split; assumption.
    - apply (Hl' pre ws1 ws2 post). repeat split; assumption. }
  rewrite H in H'.
  assert (Hpre : pre = pre' /\ lit "libdoc" ++ ws1 ++ "="%char :: ws2 ++ "{"%char :: post
                 = lit "libdoc" ++ ws1' ++ "="%char :: ws2' ++ "{"%char :: post').
  { now apply app_inj_length. }
  destruct Hpre as [-> Hr]. apply app_inv_head in Hr.
  apply whitespace_unique in Hr as (-> & _ & Hr); try assumption;
    try reflexivity.
  apply whitespace_unique in Hr as (-> & _ & ->); try assumption;
    try reflexivity.
  auto.
Qed.

(** The ways the function ends, by the first marker of the text. *)
Lemma parse_library_text_cases
  (json_loads : str -> loads_result) (library_name html : str) :
  (~ has_marker html
   /\ parse_library_text json_loads library_name html = Err CouldNotFindLibdoc)
  \/ exists pre ws1 ws2 post,
       first_marker_at html pre ws1 ws2 post
       /\ ((never_closes ("{"%char :: post)
            /\ parse_library_text json_loads library_name html
               = Err CouldNotFindEnd)
           \/ exists n,
                closes_at ("{"%char :: post) n
                /\ extract_libdoc_json html = Ok (firstn n ("{"%char :: post))
                /\ parse_library_text json_loads library_name html
                   = match json_loads (firstn n ("{"%char :: post)) with
                     | JSONDecodeError => Err JSONParsingError
                     | LoadsRaises => Err ParsingError
                     | Loaded libdoc_data =>
                         match normalize_keywords library_name libdoc_data with
                         | None => Err ParsingError
                         | Some keywords => Ok keywords
                         end
                     end).
Proof.
  unfold parse_library_text.
  pose proof (extract_libdoc_json_cases html) as H.
  destruct (re_search_libdoc html 0) as [[a b]|] eqn:E.
  - right. apply re_search_libdoc_first in E
      as (pre & ws1 & ws2 & post & Hfirst & _ & Hskip).
    exists pre, ws1, ws2, post. split; [exact Hfirst|].
    rewrite Hskip in H. destruct H as [_ [(n & Hn & Hx)|(Hnever & Hx)]].
    + right. exists n. unfold slice in Hx.
      replace (b - 1 + n - (b - 1)) with n in Hx by lia.
      rewrite Hskip in Hx. rewrite Hx. auto.
    + left. rewrite Hx. auto.
  - left. rewrite H. split; [|reflexivity]. now apply re_search_libdoc_none.
Qed.

(** C8. The function ends in a success or in one of four failures.  The
    failure is "Could not find libdoc in HTML" exactly when the
    marker occurs nowhere; "Could not find end of libdoc JSON" exactly
    when the depth never returns to 0 after the first marker; the distinct
    "JSON parsing error" exactly when a balanced substring is extracted
    and [json.loads] rejects it with a JSONDecodeError; and the generic
    "Parsing error" exactly when a balanced substring is extracted and
    [json.loads] raises another exception or the normalizer fails on the
    decoded value.  The marker is found with any whitespace around the
    equals sign. *)
Theorem C8_extractor_failure_outcomes
  (json_loads : str -> loads_result) (library_name html : str) :
  let r := parse_library_text json_loads library_name html in
  let extracted libdoc_json :=
    exists pre ws1 ws2 post n,
      first_marker_at html pre ws1 ws2 post
      /\ closes_at ("{"%char :: post) n
      /\ libdoc_json = firstn n ("{"%char :: post) in
  (r = Err CouldNotFindLibdoc <-> ~ has_marker html)
  /\ (r = Err CouldNotFindEnd <->
      exists pre ws1 ws2 post,
        first_marker_at html pre ws1 ws2 post
        /\ never_closes ("{"%char :: post))
  /\ (r = Err JSONParsingError <->
      exists libdoc_json,
        extracted libdoc_json /\ json_loads libdoc_json = JSONDecodeError)
  /\ (r = Err ParsingError <->
      exists libdoc_json,
        extracted libdoc_json
        /\ (json_loads libdoc_json = LoadsRaises
            \/ exists libdoc_data,
                 json_loads libdoc_json = Loaded libdoc_data
                 /\ normalize_keywords library_name libdoc_data = None))
  /\ (forall keywords,
        r = Ok keywords <->
        exists libdoc_json libdoc_data,
          extracted libdoc_json
          /\ json_loads libdoc_json = Loaded libdoc_data
          /\ normalize_keywords library_name libdoc_data = Some keywords)
  /\ parse_library_text json_loads library_name
       (lit "<script>var doc = {};</script>")
     = Err CouldNotFindLibdoc
  /\ parse_library_text json_loads library_name
       (lit "var libdoc" ++ [ascii_of_nat 9] ++ lit "="
          ++ [ascii_of_nat 10; " "%char] ++ jlit "{'a': '}'; {}")
     = Err CouldNotFindEnd.
Proof.
  cbv zeta.
  assert (Hsame : forall pre ws1 ws2 post pre' ws1' ws2' post' n n',
             first_marker_at html pre ws1 ws2 post ->
             first_marker_at html pre' ws1' ws2' post' ->
             closes_at ("{"%char :: post) n ->
             closes_at ("{"%char :: post') n' ->
             firstn n' ("{"%char :: post') = firstn n ("{"%char :: post)).
  { intros pre ws1 ws2 post pre' ws1' ws2' post' n n' H H' Hn Hn'.
    destruct (first_marker_unique _ _ _ _ _ _ _ _ _ H H') as (_ & _ & _ & <-).
    now rewrite (closes_at_unique _ _ _ Hn Hn'). }
  split; [|split; [|split; [|split; [|split; [|split; reflexivity]]]]].
  - destruct (parse_library_text_cases json_loads library_name html)
      as [[Hno ->]|(pre & ws1 & ws2 & post & Hf & H)].
    + tauto.
    + assert (Hhas : has_marker html).
      { exists pre, ws1, ws2, post. apply Hf. }
      destruct H as [[_ ->]|(n & _ & _ & ->)].
      * split; [discriminate|tauto].
      * split; [|tauto].
        destruct (json_loads _) as [data| |]; try discriminate.
        destruct (normalize_keywords library_name data); discriminate.
  - destruct (parse_library_text_cases json_loads library_name html)
      as [[Hno ->]|(pre & ws1 & ws2 & post & Hf & H)].
    + split; [discriminate|]. intros (pre & ws1 & ws2 & post & Hf & _).
      exfalso. apply Hno. exists pre, ws1, ws2, post. apply Hf.
    + destruct H as [[Hnever ->]|(n & Hn & _ & ->)].
      * split; [|reflexivity]. intros _. exists pre, ws1, ws2, post. auto.
      * split.
        -- destruct (json_loads _) as [data| |]; try discriminate.
           destruct (normalize_keywords library_name data); discriminate.
        -- intros (pre' & ws1' & ws2' & post' & Hf' & Hnever).
           destruct (first_marker_unique _ _ _ _ _ _ _ _ _ Hf Hf')
             as (_ & _ & _ & <-).
           exfalso. eapply closes_not_never; eauto.
  - destruct (parse_library_text_cases json_loads library_name html)
      as [[Hno ->]|(pre & ws1 & ws2 & post & Hf & H)].
    + split; [discriminate|].
      intros (js & (pre & ws1 & ws2 & post & n & Hf & _) & _).
      exfalso. apply Hno. exists pre, ws1, ws2, post. apply Hf.
    + destruct H as [[Hnever ->]|(n & Hn & _ & ->)].
      * split; [discriminate|].
        intros (js & (pre' & ws1' & ws2' & post' & n & Hf' & Hn & _) & _).
        destruct (first_marker_unique _ _ _ _ _ _ _ _ _ Hf Hf')
          as (_ & _ & _ & <-).
        exfalso. eapply closes_not_never; eauto.
      * split.
        -- intros Hr. exists (firstn n ("{"%char :: post)). split.
           ++ exists pre, ws1, ws2, post, n. auto.
           ++ destruct (json_loads _) as [data| |]; try discriminate;
                [|reflexivity].
              destruct (normalize_keywords library_name data); discriminate.
        -- intros (js & (pre' & ws1' & ws2' & post' & n' & Hf' & Hn' & ->) & Hj).
           rewrite (Hsame _ _ _ _ _ _ _ _ _ _ Hf Hf' Hn Hn') in Hj.
           now rewrite Hj.
  - destruct (parse_library_text_cases json_loads library_name html)
      as [[Hno ->]|(pre & ws1 & ws2 & post & Hf & H)].
    + split; [discriminate|].
      intros (js & (pre & ws1 & ws2 & post & n & Hf & _) & _).
      exfalso. apply Hno. exists pre, ws1, ws2, post. apply Hf.
    + destruct H as [[Hnever ->]|(n & Hn & _ & ->)].
      * split; [discriminate|].
        intros (js & (pre' & ws1' & ws2' & post' & n & Hf' & Hn & _) & _).
        destruct (first_marker_unique _ _ _ _ _ _ _ _ _ Hf Hf')
          as (_ & _ & _ & <-).
        exfalso. eapply closes_not_never; eauto.
      * split.
        -- intros Hr. exists (firstn n ("{"%char :: post)). split.
           ++ exists pre, ws1, ws2, post, n. auto.
           ++ destruct (json_loads _) as [data| |]; try discriminate;
                [|now left].
              right. exists data. split; [reflexivity|].
              destruct (normalize_keywords library_name data);
                [discriminate|reflexivity].
        -- intros (js & (pre' & ws1' & ws2' & post' & n' & Hf' & Hn' & ->)
                   & Hj).
           rewrite (Hsame _ _ _ _ _ _ _ _ _ _ Hf Hf' Hn Hn') in Hj.
           destruct Hj as [Hj|(data & Hj & Hnorm)]; rewrite Hj;
             [reflexivity|now rewrite Hnorm].
  - intros keywords.
    destruct (parse_library_text_cases json_loads library_name html)
      as [[Hno ->]|(pre & ws1 & ws2 & post & Hf & H)].
    + split; [discriminate|].
      intros (js & data & (pre & ws1 & ws2 & post & n & Hf & _) & _).
      exfalso. apply Hno. exists pre, ws1, ws2, post. apply Hf.
    + destruct H as [[Hnever ->]|(n & Hn & _ & ->)].
      * split; [discriminate|].
        intros (js & data & (pre' & ws1' & ws2' & post' & n & Hf' & Hn & _)
                & _).
        destruct (first_marker_unique _ _ _ _ _ _ _ _ _ Hf Hf')
          as (_ & _ & _ & <-).
        exfalso. eapply closes_not_never; eauto.
      * split.
        -- intros Hr. exists (firstn n ("{"%char :: post)).
           destruct (json_loads _) as [data| |] eqn:Ej; try discriminate.
           exists data. split; [exists pre, ws1, ws2, post, n; auto|].
           split; [reflexivity|].
           destruct (normalize_keywords library_name data);
             [congruence|discriminate].
        -- intros (js & data
                   & (pre' & ws1' & ws2' & post' & n' & Hf' & Hn' & ->)
                   & Hj & Hnorm).
           rewrite (Hsame _ _ _ _ _ _ _ _ _ _ Hf Hf' Hn Hn') in Hj.
           now rewrite Hj, Hnorm.
Qed.

(** C8, the claim as it was written: a balanced substring that does not
    parse as JSON does not always give the "JSON parsing error".  On an
    object that opens 100000 arrays the decoder raises a RecursionError,
    which [except Exception] reports as the generic "Parsing error".  The
    same fourth failure ends the parse of an object that is valid JSON
    but whose keywords cannot be iterated. *)
Lemma C8_unparsable_object_gives_generic_error :
  extract_libdoc_json deep_html = Ok deep_object
  /\ (forall value, raising_loads deep_object <> Loaded value)
  /\ parse_library_text raising_loads (lit "BuiltIn") deep_html
     = Err ParsingError
  /\ parse_library_text raising_loads (lit "BuiltIn") deep_html
     <> Err JSONParsingError
  /\ parse_library_text (fun _ => Loaded (JDict [(lit "keywords", JInt 5)]))
       (lit "BuiltIn") (jlit "<script>libdoc = {'keywords': 5};</script>")
     = Err ParsingError.
Proof.
  assert (Hx : extract_libdoc_json deep_html = Ok deep_object).
  { assert (H : match extract_libdoc_json deep_html with
                | Ok s => str_eqb s deep_object
                | Err _ => false
                end = true) by (vm_compute; reflexivity).
    destruct (extract_libdoc_json deep_html) as [s|e]; [|discriminate H].
    apply str_eqb_eq in H. now subst s. }
  assert (Hp : parse_library_text raising_loads (lit "BuiltIn") deep_html
               = Err ParsingError).
  { unfold parse_library_text. rewrite Hx. reflexivity. }
  split; [exact Hx|]. split; [discriminate|]. split; [exact Hp|].
  split; [rewrite Hp; discriminate|]. reflexivity.
Qed.

Example extract_unclosed_brace :
  extract_libdoc_json (jlit "libdoc = {'a': {'b': '}'}") = Err CouldNotFindEnd.
Proof. reflexivity. Qed.

(** ** The section parser *)

Example parse_two_headings :
  parse_events
    [Data (lit "intro"); StartTag (lit "h1") [(lit "id", Some (lit "top"))];
     Data (lit " Title "); EndTag (lit "h1"); StartTag (lit "p") [];
     Data (lit "one "); EndTag (lit "p"); Data (lit "  "); Data (lit "two");
     StartTag (lit "h3") []; Data (lit "Sub"); EndTag (lit "h3")]
  = [ mk_section (Some (lit "top")) 1 (lit "Title") (lit "one two");
      mk_section (Some []) 3 (lit "Sub") [] ].
Proof. reflexivity. Qed.

Lemma run_app (a b : list event) (st : DocumentationParser) :
  run (a ++ b) st = run b (run a st).
Proof. apply fold_left_app. Qed.

Lemma heading_rank_range (tag : str) (rank : Z) :
  heading_rank tag = Some rank -> (1 <= rank <= 4)%Z.
Proof.
  unfold heading_rank.
  repeat (match goal with |- context [if ?b then _ else _] => destruct b end);
    intros [= <-]; lia.
Qed.

(** Before the first heading nothing is recorded. *)
Lemma run_before_first_heading (pre : list event) :
  Forall (fun e => is_heading_start e = false) pre -> run pre init = init.
Proof.
  induction 1 as [|e pre He _ IH]; [reflexivity|].
  unfold run in *. simpl. rewrite <- IH at 2. f_equal.
  destruct e as [tag attrs|tag|data|]; simpl; try reflexivity.
  - unfold is_heading_start, heading_start in He. unfold handle_starttag.
    destruct (heading_rank tag); [discriminate|reflexivity].
  - unfold handle_endtag. destruct (heading_rank tag); reflexivity.
Qed.

(** What one event does to the sections saved so far. *)
Lemma save_section_dispatch (st : DocumentationParser) (e : event) :
  match heading_start e with
  | Some (i, rank) =>
      save_section (dispatch st e)
      = save_section st ++ [mk_section i rank [] []]
  | None =>
      sections (dispatch st e) = sections st
      /\ map (fun s => (sec_id s, sec_level s)) (save_section (dispatch st e))
         = map (fun s => (sec_id s, sec_level s)) (save_section st)
  end.
Proof.
  destruct e as [tag attrs|tag|data|]; simpl; auto.
  - unfold handle_starttag. destruct (heading_rank tag); auto.
  - unfold handle_endtag. destruct (heading_rank tag); auto.
  - unfold handle_data, save_section.
    destruct (current_section st) as [cs|] eqn:E; [|rewrite E; auto].
    destruct (in_section st); simpl.
    + split; [reflexivity|]. now rewrite !map_app.
    + destruct (strip data); simpl; rewrite ?E; auto.
      split; [reflexivity|]. now rewrite !map_app.
Qed.

Lemma save_section_run (evs : list event) :
  forall st,
    map (fun s => (sec_id s, sec_level s)) (save_section (run evs st))
    = map (fun s => (sec_id s, sec_level s)) (save_section st) ++ headings evs.
Proof.
  induction evs as [|e evs IH]; intros st.
  - simpl. now rewrite app_nil_r.
  - change (run (e :: evs) st) with (run evs (dispatch st e)). rewrite IH.
    pose proof (save_section_dispatch st e) as H. simpl.
    destruct (heading_start e) as [[i rank]|].
    + rewrite H, map_app, <- app_assoc. reflexivity.
    + destruct H as [_ ->]. reflexivity.
Qed.

Lemma sections_prefix (evs : list event) :
  forall st, exists more, save_section (run evs st) = sections st ++ more.
Proof.
  induction evs as [|e evs IH]; intros st.
  - unfold save_section. simpl. destruct (current_section st); eauto.
    exists []. now rewrite app_nil_r.
  - change (run (e :: evs) st) with (run evs (dispatch st e)).
    destruct (IH (dispatch st e)) as [more ->].
    pose proof (save_section_dispatch st e) as H.
    destruct (heading_start e) as [[i rank]|] eqn:E.
    + destruct e as [tag attrs| | |]; try discriminate. simpl in *.
      unfold handle_starttag in *. destruct (heading_rank tag); [|discriminate].
      simpl. unfold save_section. destruct (current_section st).
      * rewrite <- app_assoc. eauto.
      * eauto.
    + destruct H as [-> _]. eauto.
Qed.

Lemma last_cons_default {A : Type} (a d : A) (l : list A) :
  last (a :: l) d = last l a.
Proof.
  revert a d; induction l as [|b l IH]; intros a d; [reflexivity|].
  change (last (a :: b :: l) d) with (last (b :: l) d).
  now rewrite !IH.
Qed.

(** Inside a heading every fragment overwrites the title. *)
Lemma run_inside_heading (inside : list event) :
  forall st cs,
    current_section st = Some cs -> in_section st = true ->
    Forall (fun e => is_heading_start e = false /\ is_heading_end e = false)
           inside ->
    run inside st
    = mk_parser (sections st)
        (Some (mk_section (sec_id cs) (sec_level cs)
                 (last (map strip (fragments inside)) (sec_title cs))
                 (sec_content cs)))
        (current_content st) true (section_level st).
Proof.
  induction inside as [|e inside IH]; intros st cs Hc Hi Hall.
  - destruct st, cs; simpl in *; subst; reflexivity.
  - inversion Hall as [|? ? [Hs He] Hall']; subst.
    change (run (e :: inside) st) with (run inside (dispatch st e)).
    destruct e as [tag attrs|tag|data|]; cbn [dispatch fragments map].
    + unfold is_heading_start, heading_start in Hs. unfold handle_starttag.
      destruct (heading_rank tag); [discriminate|]. now apply IH.
    + unfold is_heading_end in He. unfold handle_endtag.
      destruct (heading_rank tag); [discriminate|]. now apply IH.
    + unfold handle_data. rewrite Hc, Hi.
      rewrite last_cons_default.
      erewrite IH; [|reflexivity|reflexivity|assumption]. reflexivity.
    + now apply IH.
Qed.

Lemma text_parts_data (data : str) (evs : list event) :
  text_parts (Data data :: evs)
  = match strip data with [] => [] | _ :: _ => [strip data] end
    ++ text_parts evs.
Proof. unfold text_parts. simpl. destruct (strip data); reflexivity. Qed.

(** After the heading is closed the fragments go to the content. *)
Lemma run_after_heading (post : list event) :
  forall st cs,
    current_section st = Some cs -> in_section st = false ->
    Forall (fun e => is_heading_start e = false) post ->
    run post st
    = mk_parser (sections st) (Some cs)
        (current_content st ++ text_parts post) false (section_level st).
Proof.
  induction post as [|e post IH]; intros st cs Hc Hi Hall.
  - destruct st; simpl in *; subst. unfold text_parts. simpl.
    now rewrite app_nil_r.
  - inversion Hall as [|? ? Hs Hall']; subst.
    change (run (e :: post) st) with (run post (dispatch st e)).
    destruct e as [tag attrs|tag|data|]; simpl.
    + unfold is_heading_start, heading_start in Hs. unfold handle_starttag.
      destruct (heading_rank tag); [discriminate|]. now apply IH.
    + unfold handle_endtag.
      destruct (heading_rank tag); [|now apply IH].
      rewrite (IH _ cs); [reflexivity|exact Hc|reflexivity|assumption].
    + unfold handle_data. rewrite Hc, Hi, text_parts_data.
      destruct (strip data) as [|c t] eqn:E; [now apply IH|].
      rewrite (IH _ cs); [|reflexivity|reflexivity|assumption].
      simpl. now rewrite <- app_assoc.
    + now apply IH.
Qed.

(** The title of a heading that is closed stays as it is, whatever follows. *)
Lemma closed_title_kept (evs : list event) :
  forall st cs,
    current_section st = Some cs -> in_section st = false ->
    exists more,
      map sec_title (save_section (run evs st))
      = map sec_title (sections st) ++ sec_title cs :: more.
Proof.
  induction evs as [|e evs IH]; intros st cs Hc Hi.
  - exists []. unfold save_section. simpl. rewrite Hc, map_app. reflexivity.
  - change (run (e :: evs) st) with (run evs (dispatch st e)).
    destruct e as [tag attrs|tag|data|]; simpl.
    + unfold handle_starttag. destruct (heading_rank tag) as [rank|].
      * match goal with |- context [run evs ?s] =>
          destruct (sections_prefix evs s) as [more ->] end.
        simpl. unfold save_section. rewrite Hc, !map_app. simpl.
        rewrite <- app_assoc. simpl. eauto.
      * now apply IH.
    + unfold handle_endtag. destruct (heading_rank tag); [|now apply IH].
      match goal with |- context [run evs ?s] =>
        destruct (IH s cs) as [more ->]; auto end. eauto.
    + unfold handle_data. rewrite Hc, Hi.
      destruct (strip data) as [|c t]; [now apply IH|].
      match goal with |- context [run evs ?s] =>
        destruct (IH s cs) as [more ->]; auto end. eauto.
    + now apply IH.
Qed.

Lemma headings_length (evs : list event) :
  length (headings evs) = length (filter is_heading_start evs).
Proof.
  induction evs as [|e evs IH]; [reflexivity|]. simpl.
  unfold is_heading_start. destruct (heading_start e); simpl; now rewrite IH.
Qed.

Lemma headings_ranks (evs : list event) :
  Forall (fun h => (1 <= snd h <= 4)%Z) (headings evs).
Proof.
  induction evs as [|e evs IH]; simpl; [constructor|].
  destruct e as [tag attrs| | |]; simpl; auto.
  destruct (heading_rank tag) as [rank|] eqn:E; auto.
  constructor; [|assumption]. simpl. now apply heading_rank_range in E.
Qed.

(** A whole heading element and what follows it up to the next heading:
    the state when the element opens, with the sections saved so far. *)
Lemma run_heading_element (st : DocumentationParser) (tag tag' : str)
  (attrs : list (str * option str)) (rank : Z) (inside post : list event) :
  heading_rank tag = Some rank ->
  is_heading_end (EndTag tag') = true ->
  Forall (fun e => is_heading_start e = false /\ is_heading_end e = false)
         inside ->
  run (StartTag tag attrs :: inside ++ [EndTag tag']) st
  = mk_parser (save_section st)
      (Some (mk_section (attrs_get_id attrs) rank (last_fragment inside) []))
      [] false rank.
Proof.
  intros Hr He Hin.
  change (run (StartTag tag attrs :: inside ++ [EndTag tag']) st)
    with (run (inside ++ [EndTag tag']) (handle_starttag st tag attrs)).
  rewrite run_app. unfold handle_starttag. rewrite Hr.
  match goal with |- context [run inside ?s] =>
    rewrite (run_inside_heading inside s
               (mk_section (attrs_get_id attrs) rank [] [])
               eq_refl eq_refl Hin) end.
  unfold is_heading_end in He. unfold run. simpl. unfold handle_endtag.
  destruct (heading_rank tag'); [reflexivity|discriminate].
Qed.

(** C10. The text before the first heading is attributed to no section:
    the events before the first heading start tag produce no section, and
    the sections of the document are those of the document without them. *)
Theorem C10_text_before_first_heading_discarded (pre rest : list event) :
  Forall (fun e => is_heading_start e = false) pre ->
  parse_events pre = [] /\ parse_events (pre ++ rest) = parse_events rest.
Proof.
  intros Hpre. unfold parse_events. fold (run pre init).
  fold (run (pre ++ rest) init). rewrite run_app.
  rewrite (run_before_first_heading pre Hpre). split; reflexivity.
Qed.

(** The theorem at a document that starts with a paragraph. *)
Lemma C10_text_before_first_heading_witness :
  Forall (fun e => is_heading_start e = false)
    [Data (lit "preface"); StartTag (lit "p") []; Data (lit "more");
     EndTag (lit "p")]
  /\ parse_events
       ([Data (lit "preface"); StartTag (lit "p") []; Data (lit "more");
         EndTag (lit "p")]
        ++ [StartTag (lit "h1") []; Data (lit "Title"); EndTag (lit "h1");
            Data (lit "body")])
     = [mk_section (Some []) 1 (lit "Title") (lit "body")].
Proof.
  assert (H : Forall (fun e => is_heading_start e = false)
                [Data (lit "preface"); StartTag (lit "p") [];
                 Data (lit "more"); EndTag (lit "p")])
    by (repeat constructor).
  split; [exact H|].
  rewrite (proj2 (C10_text_before_first_heading_discarded _
                    [StartTag (lit "h1") []; Data (lit "Title");
                     EndTag (lit "h1"); Data (lit "body")] H)).
  reflexivity.
Defined.

(** C7, at the user guide [<h1>T</h1>R&D]: the section of the heading is
    indexed with an empty content, the text after the heading is lost.
    Had the callback for that text come, as it does when the parser is
    closed, the text would be the content of the section. *)
Theorem C7_withheld_trailing_text_is_lost :
  _parse_documentation (lit "/cache") feed_unfinished_guide
    (mk_cache (fun p => if str_eqb p (DOCS_FILE (lit "/cache"))
                        then Some unfinished_guide else None) None None)
  = (Some true,
     mk_cache (fun p => if str_eqb p (DOCS_FILE (lit "/cache"))
                        then Some unfinished_guide else None)
       (Some [mk_section (Some []) 1 (lit "T") []]) None)
  /\ parse_events (unfinished_guide_callbacks ++ [Data (lit "R&D")])
     = [mk_section (Some []) 1 (lit "T") (lit "R&D")].
Proof. split; reflexivity. Qed.

(** C2, as stated, fails: the title of the heading with three fragments is
    the last of them, not the first one that is not empty. *)
Lemma C2_title_is_not_first_fragment :
  first_nonempty_fragment heading_with_inline_markup = lit "Foo"
  /\ map sec_title
       (parse_events (StartTag (lit "h2") [] :: heading_with_inline_markup
                        ++ [EndTag (lit "h2")]))
     = [lit "baz"]
  /\ map sec_title
       (parse_events (StartTag (lit "h2") [] :: heading_with_inline_markup
                        ++ [EndTag (lit "h2")]))
     <> [first_nonempty_fragment heading_with_inline_markup].
Proof. repeat split. discriminate. Qed.

(** C2, amended. For a heading element of rank 1-4 whose inner events hold
    no heading tag, the title of its section is the last text fragment
    between the start tag and the end tag, trimmed (the empty string when
    there is none): every fragment overwrites the title, so the earlier
    ones are dropped.  Nothing that follows the end tag changes it. *)
Theorem C2_heading_title_is_last_fragment
  (pre inside post : list event) (tag tag' : str)
  (attrs : list (str * option str)) (rank : Z) :
  heading_rank tag = Some rank ->
  is_heading_end (EndTag tag') = true ->
  Forall (fun e => is_heading_start e = false /\ is_heading_end e = false)
         inside ->
  nth_error
    (map sec_title
       (parse_events (pre ++ StartTag tag attrs :: inside
                          ++ EndTag tag' :: post)))
    (length (parse_events pre))
  = Some (last_fragment inside).
Proof.
  intros Hr He Hin. unfold parse_events, get_sections.
  fold (run pre init).
  fold (run (pre ++ StartTag tag attrs :: inside ++ EndTag tag' :: post) init).
  replace (pre ++ StartTag tag attrs :: inside ++ EndTag tag' :: post)
    with (pre ++ (StartTag tag attrs :: inside ++ [EndTag tag']) ++ post)
    by (simpl; now rewrite <- app_assoc).
  rewrite !run_app.
  rewrite (run_heading_element _ tag tag' attrs rank inside post Hr He Hin).
  match goal with |- context [run post ?s] =>
    destruct (closed_title_kept post s _ eq_refl eq_refl) as [more ->] end.
  simpl. rewrite nth_error_app2; rewrite length_map; [|lia].
  now rewrite Nat.sub_diag.
Qed.

(** The theorem at the heading with inline markup. *)
Lemma C2_heading_title_witness :
  nth_error
    (map sec_title
       (parse_events ([Data (lit "x")] ++ StartTag (lit "h2") []
                        :: heading_with_inline_markup
                        ++ EndTag (lit "h2") :: [Data (lit "body")])))
    0
  = Some (lit "baz").
Proof.
  exact (C2_heading_title_is_last_fragment [Data (lit "x")]
           heading_with_inline_markup [Data (lit "body")] (lit "h2") (lit "h2")
           [] 2%Z eq_refl eq_refl
           ltac:(repeat constructor)).
Defined.

(** ** The search engine *)

Lemma startswith_true (s p : str) :
  startswith s p = true <-> exists r, s = p ++ r.
Proof.
  unfold startswith. split.
  - destruct (strip_prefix p s) as [r|] eqn:E; [|discriminate].
    intros _. exists r. now apply strip_prefix_some.
  - intros [r ->]. now rewrite strip_prefix_app.
Qed.

Lemma count_from_occurs (sub s : str) :
  forall skip, 0 < count_from sub s skip -> occurs_in sub s.
Proof.
  induction s as [|c s IH]; intros skip; simpl; [lia|].
  destruct skip as [|k].
  - destruct (startswith (c :: s) sub) eqn:E.
    + intros _. apply startswith_true in E as [r E].
      exists [], r. exact E.
    + intros H. apply IH in H as (pre & post & ->). now exists (c :: pre), post.
  - intros H. apply IH in H as (pre & post & ->). now exists (c :: pre), post.
Qed.

Lemma occurs_count_from (sub pre post : str) :
  sub <> [] -> 0 < count_from sub (pre ++ sub ++ post) 0.
Proof.
  intros Hsub. induction pre as [|c pre IH].
  - destruct sub as [|c sub]; [contradiction|].
    cbn [app count_from].
    replace (startswith (c :: sub ++ post) (c :: sub)) with true; [lia|].
    symmetry. apply startswith_true. now exists post.
  - cbn [app count_from].
    destruct (startswith (c :: pre ++ sub ++ post) sub); [lia|exact IH].
Qed.

(** [s.count(sub)] is positive exactly when [sub] occurs in [s]. *)
Lemma count_positive (s sub : str) : 0 < count s sub <-> occurs_in sub s.
Proof.
  unfold count. destruct sub as [|c sub].
  - split; [|lia]. intros _. now exists [], s.
  - split.
    + apply count_from_occurs.
    + intros (pre & post & ->). now apply occurs_count_from.
Qed.

(** A section that matches, with the counts of the query. *)
Lemma score_some (query_lower : str) (s : section) (hit : search_hit) :
  score query_lower s = Some hit ->
  (occurs_in query_lower (lower (sec_title s))
   \/ occurs_in query_lower (lower (sec_content s)))
  /\ hit_title hit = sec_title s /\ hit_id hit = sec_id s
  /\ hit_level hit = sec_level s
  /\ relevance hit
     = 10 * count (lower (sec_title s)) query_lower
       + count (lower (sec_content s)) query_lower.
Proof.
  unfold score.
  destruct ((0 <? count (lower (sec_title s)) query_lower)
            || (0 <? count (lower (sec_content s)) query_lower)) eqn:E;
    [|discriminate].
  intros [= <-]. simpl. repeat split; try lia.
  apply orb_true_iff in E as [E|E]; apply Nat.ltb_lt, count_positive in E; auto.
Qed.

Lemma score_none (query_lower : str) (s : section) :
  score query_lower s = None ->
  ~ occurs_in query_lower (lower (sec_title s))
  /\ ~ occurs_in query_lower (lower (sec_content s)).
Proof.
  unfold score.
  destruct ((0 <? count (lower (sec_title s)) query_lower)
            || (0 <? count (lower (sec_content s)) query_lower)) eqn:E;
    [discriminate|].
  intros _. apply orb_false_iff in E as [E1 E2].
  apply Nat.ltb_ge in E1, E2.
  split; intros H; apply count_positive in H; lia.
Qed.

Lemma in_matches (query_lower : str) (sections : list section)
  (hit : search_hit) :
  In hit (matches query_lower sections) <->
  exists s, In s sections /\ score query_lower s = Some hit.
Proof.
  induction sections as [|s sections IH]; simpl.
  - split; [tauto|]. intros (s & [] & _).
  - destruct (score query_lower s) as [h|] eqn:E; simpl; rewrite IH; split.
    + intros [<-|(s' & Hin & Hs)]; eauto.
    + intros (s' & [<-|Hin] & Hs); [left; congruence|eauto].
    + intros (s' & Hin & Hs); eauto.
    + intros (s' & [<-|Hin] & Hs); [congruence|eauto].
Qed.

Lemma matches_length (query_lower : str) (sections : list section) :
  length (matches query_lower sections)
  = length (filter (fun s => match score query_lower s with
                             | Some _ => true | None => false end) sections).
Proof.
  induction sections as [|s sections IH]; simpl; [reflexivity|].
  destruct (score query_lower s); simpl; now rewrite IH.
Qed.

Lemma insert_hit_perm (x : search_hit) (l : list search_hit) :
  Permutation (insert_hit x l) (x :: l).
Proof.
  induction l as [|y l IH]; simpl; [reflexivity|].
  destruct (relevance y <=? relevance x); [reflexivity|].
  rewrite IH. apply perm_swap.
Qed.

Lemma sort_by_relevance_perm (l : list search_hit) :
  Permutation (sort_by_relevance l) l.
Proof.
  induction l as [|x l IH]; simpl; [reflexivity|].
  rewrite insert_hit_perm. now constructor.
Qed.





Lemma slice_to_prefix {A : Type} (n : Z) (l : list A) :
  exists rest, l = slice_to n l ++ rest.
Proof.
  unfold slice_to. destruct (0 <=? n)%Z; eexists; symmetry; apply firstn_skipn.
Qed.

Lemma score_empty_query (s : section) : exists hit, score [] s = Some hit.
Proof.
  unfold score, count. replace (0 <? length (lower (sec_title s)) + 1) with true.
  - simpl. eauto.
  - symmetry. apply Nat.ltb_lt. lia.
Qed.

Lemma matches_empty_query_length (sections : list section) :
  length (matches [] sections) = length sections.
Proof.
  induction sections as [|s sections IH]; [reflexivity|].
  cbn [matches]. destruct (score_empty_query s) as [hit ->]. simpl. now rewrite IH.
Qed.


Lemma lower_char_small_letter (c : ascii) :
  lower_char c = small_letter_of capital_letters small_letters c.
Proof. destruct c as [[] [] [] [] [] [] [] []]; vm_compute; reflexivity. Qed.

Lemma lower_case_folded (s : str) : lower s = case_folded s.
Proof.
  unfold lower, case_folded. apply map_ext. exact lower_char_small_letter.
Qed.

(** C9. A section is among the matches of a query, which [total_matches]
    counts, exactly when the case-folded query occurs as a substring of
    its case-folded title or of its case-folded content.  The results
    that are returned are the matches in the order of their relevance,
    cut at [max_results].  For the empty query every section is a match,
    and all of them are returned when [max_results] is not smaller than
    their number.  Capitals in the query and in the text are folded; a
    query that occurs nowhere finds nothing. *)
Theorem C9_search_matches_iff_substring
  (sections : list section) (max_results : Z) :
  (forall query,
     let resp := search_rf_documentation sections query max_results in
     let found := sort_by_relevance (matches (lower query) sections) in
     results resp = slice_to max_results found
     /\ total_matches resp = length found
     /\ (forall s, In s sections ->
           ((exists hit, score (lower query) s = Some hit /\ In hit found)
            <-> query_occurs query s))
     /\ (forall hit, In hit found ->
           exists s, In s sections /\ score (lower query) s = Some hit))
  /\ (let resp := search_rf_documentation sections [] max_results in
      total_matches resp = length sections
      /\ (forall s, In s sections ->
            exists hit, score [] s = Some hit
                        /\ In hit (sort_by_relevance (matches [] sections)))
      /\ ((Z.of_nat (length sections) <= max_results)%Z ->
          results resp = sort_by_relevance (matches [] sections)))
  /\ map hit_title
       (results (search_rf_documentation
                   [ mk_section None 1 (lit "Run Keyword") (lit "x");
                     mk_section None 2 (lit "Log") (lit "Logs a MESSAGE.");
                     mk_section None 2 (lit "Sleep") (lit "pauses") ]
                   (lit "rUN keY") 10))
     = [lit "Run Keyword"]
  /\ map hit_title
       (results (search_rf_documentation
                   [ mk_section None 1 (lit "Run Keyword") (lit "x");
                     mk_section None 2 (lit "Log") (lit "Logs a MESSAGE.");
                     mk_section None 2 (lit "Sleep") (lit "pauses") ]
                   (lit "Message") 10))
     = [lit "Log"]
  /\ results (search_rf_documentation
                [ mk_section None 1 (lit "Run Keyword") (lit "x");
                  mk_section None 2 (lit "Log") (lit "Logs a MESSAGE.");
                  mk_section None 2 (lit "Sleep") (lit "pauses") ]
                (lit "runs") 10)
     = [].
Proof.
  assert (Hin : forall q hit,
             In hit (sort_by_relevance (matches q sections))
             <-> In hit (matches q sections)).
  { intros q hit. split; apply Permutation_in;
      [|symmetry]; apply sort_by_relevance_perm. }
  split; [|split; [|split; [|split]]]; try reflexivity.
  - intros query. cbv zeta. unfold search_rf_documentation.
    cbn [results total_matches].
    split; [reflexivity|]. split; [reflexivity|]. split.
    + intros s Hs. unfold query_occurs. rewrite <- !lower_case_folded. split.
      * intros (hit & Hsc & _). now apply score_some in Hsc.
      * intros Hocc. destruct (score (lower query) s) as [hit|] eqn:E.
        -- exists hit. split; [reflexivity|]. apply Hin, in_matches. eauto.
        -- apply score_none in E. tauto.
    + intros hit Hh. now apply Hin, in_matches in Hh.
  - cbv zeta. unfold search_rf_documentation. cbn [results total_matches lower map].
    repeat split.
    + rewrite (Permutation_length (sort_by_relevance_perm _)).
      apply matches_empty_query_length.
    + intros s Hs. destruct (score_empty_query s) as [hit E]. exists hit.
      split; [exact E|]. apply Hin, in_matches. eauto.
    + intros Hmax. unfold slice_to.
      destruct (0 <=? max_results)%Z eqn:E; [|apply Z.leb_gt in E; lia].
      apply firstn_all2.
      rewrite (Permutation_length (sort_by_relevance_perm _)),
        matches_empty_query_length. lia.
Qed.

(** C9, the claim as it was written: for the empty query not every
    section is returned.  Of two sections that both match, a search for
    one result returns the first and leaves the second out, while
    [total_matches] counts both. *)
Lemma C9_capped_results_leave_matches_out :
  total_matches (search_rf_documentation two_sections [] 1) = 2
  /\ map hit_title (results (search_rf_documentation two_sections [] 1))
     = [lit "a"]
  /\ ~ (forall s, In s two_sections ->
          In (sec_title s)
             (map hit_title
                (results (search_rf_documentation two_sections [] 1)))).
Proof.
  split; [reflexivity|]. split; [reflexivity|].
  intros H. specialize (H (mk_section None 1 (lit "b") [])).
  cbn in H. destruct H as [H|[]]; [right; now left|discriminate H].
Qed.

(** ** The keyword lookup *)

Lemma replace_char_map (old new : ascii) (s : str) :
  replace_char old [new] s = map (fun c => if (c =? old)%char then new else c) s.
Proof.
  induction s as [|c s IH]; [reflexivity|]. simpl.
  destruct (c =? old)%char; simpl; now rewrite IH.
Qed.

(** The normal form, character by character. *)
Lemma normalize_name_chars (s : str) :
  normalize_name s
  = map (fun c => if ((c =? "_") || (c =? "-"))%char then " "%char
                  else lower_char c) s.
Proof.
  unfold normalize_name, lower.
  change (lit " ") with [" "%char]. rewrite !replace_char_map, !map_map.
  apply map_ext. intros c.
  destruct c as [[] [] [] [] [] [] [] []]; reflexivity.
Qed.

Lemma find_in_library_none (lib_name qn : str) (keywords : dict KeywordRecord) :
  find_in_library lib_name keywords qn = None <-> no_match qn keywords.
Proof.
  unfold no_match. induction keywords as [|[k v] keywords IH]; simpl.
  - split; [constructor|reflexivity].
  - destruct (str_eqb (normalize_name k) qn) eqn:E.
    + apply str_eqb_eq in E. split; [discriminate|].
      intros H. inversion H; subst. simpl in *. contradiction.
    + apply str_eqb_neq in E. rewrite IH. split.
      * now constructor.
      * intros H. now inversion H.
Qed.

Lemma find_in_library_first (lib_name qn k : str) (v : KeywordRecord)
  (pre post : dict KeywordRecord) :
  no_match qn pre -> normalize_name k = qn ->
  find_in_library lib_name (pre ++ (k, v) :: post) qn
  = Some (found_response lib_name k v).
Proof.
  intros Hpre Hk. induction Hpre as [|[k' v'] pre Hk' _ IH]; simpl.
  - apply str_eqb_eq in Hk. now rewrite Hk.
  - simpl in Hk'. apply str_eqb_neq in Hk'. now rewrite Hk'.
Qed.

Lemma find_in_library_some (lib_name qn : str) (keywords : dict KeywordRecord)
  (r : lookup_response) :
  find_in_library lib_name keywords qn = Some r ->
  exists pre k v post,
    keywords = pre ++ (k, v) :: post /\ no_match qn pre
    /\ normalize_name k = qn /\ r = found_response lib_name k v.
Proof.
  induction keywords as [|[k v] keywords IH]; simpl; [discriminate|].
  destruct (str_eqb (normalize_name k) qn) eqn:E.
  - apply str_eqb_eq in E. intros [= <-].
    exists [], k, v, keywords. repeat split; auto. constructor.
  - apply str_eqb_neq in E. intros H.
    destruct (IH H) as (pre & k' & v' & post & -> & Hpre & Hk & ->).
    exists ((k, v) :: pre), k', v', post. repeat split; auto.
    now constructor.
Qed.

Lemma find_in_libraries_none (qn : str) (libs : dict (dict KeywordRecord)) :
  find_in_libraries libs qn = None
  <-> Forall (fun lk => no_match qn (snd lk)) libs.
Proof.
  induction libs as [|[lib kws] libs IH]; simpl.
  - split; [constructor|reflexivity].
  - destruct (find_in_library lib kws qn) eqn:E.
    + split; [discriminate|]. intros H. inversion H; subst. simpl in *.
      apply (find_in_library_none lib) in H2. congruence.
    + apply find_in_library_none in E. rewrite IH. split.
      * now constructor.
      * intros H. now inversion H.
Qed.

Lemma find_in_libraries_first (qn lib k : str) (v : KeywordRecord)
  (pre_libs post_libs : dict (dict KeywordRecord))
  (pre post : dict KeywordRecord) :
  Forall (fun lk => no_match qn (snd lk)) pre_libs ->
  no_match qn pre -> normalize_name k = qn ->
  find_in_libraries (pre_libs ++ (lib, pre ++ (k, v) :: post) :: post_libs) qn
  = Some (found_response lib k v).
Proof.
  intros Hlibs Hpre Hk.
  induction Hlibs as [|[lib' kws'] pre_libs Hk' _ IH]; simpl.
  - now rewrite find_in_library_first.
  - simpl in Hk'. apply (find_in_library_none lib') in Hk'. now rewrite Hk'.
Qed.

Lemma find_in_libraries_some (qn : str) (libs : dict (dict KeywordRecord))
  (r : lookup_response) :
  find_in_libraries libs qn = Some r ->
  exists pre_libs lib pre k v post post_libs,
    libs = pre_libs ++ (lib, pre ++ (k, v) :: post) :: post_libs
    /\ Forall (fun lk => no_match qn (snd lk)) pre_libs
    /\ no_match qn pre /\ normalize_name k = qn
    /\ r = found_response lib k v.
Proof.
  induction libs as [|[lib kws] libs IH]; simpl; [discriminate|].
  destruct (find_in_library lib kws qn) as [r'|] eqn:E.
  - intros [= <-].
    apply find_in_library_some in E as (pre & k & v & post & -> & Hp & Hk & ->).
    exists [], lib, pre, k, v, post, libs. repeat split; auto.
  - apply find_in_library_none in E. intros H.
    destruct (IH H)
      as (pre_libs & lib' & pre & k & v & post & post_libs
          & -> & Hl & Hp & Hk & ->).
    exists ((lib, kws) :: pre_libs), lib', pre, k, v, post, post_libs.
    repeat split; auto.
Qed.

(** C4. The lookup compares the normal forms of the queried name and of
    every stored key (lower case, with underscores and hyphens turned into
    spaces) for equality.  It answers with the first key whose normal form
    equals that of the query, libraries in their order and keys in their
    order within a library, and answers "not found" exactly when no key
    has that normal form, whatever the keys contain.  The queries
    [get_length], [Get-Length] and [get length] resolve to the stored
    keyword [Get Length]. *)
Theorem C4_keyword_lookup_first_exact_match
  (all_libraries : dict (dict KeywordRecord)) (keyword_name : str) :
  let qn := normalize_name keyword_name in
  let answer := get_keyword_documentation all_libraries keyword_name None in
  qn = map (fun c => if ((c =? "_") || (c =? "-"))%char then " "%char
                     else lower_char c) keyword_name
  /\ (forall pre_libs lib pre k v post post_libs,
        all_libraries
        = pre_libs ++ (lib, pre ++ (k, v) :: post) :: post_libs ->
        Forall (fun lk => no_match qn (snd lk)) pre_libs ->
        no_match qn pre ->
        normalize_name k = qn ->
        answer = found_response lib k v)
  /\ (forall k lib arguments documentation url,
        answer = KeywordFound k lib arguments documentation url ->
        normalize_name k = qn
        /\ exists pre_libs pre v post post_libs,
             all_libraries
             = pre_libs ++ (lib, pre ++ (k, v) :: post) :: post_libs
             /\ Forall (fun lk => no_match qn (snd lk)) pre_libs
             /\ no_match qn pre
             /\ arguments = kw_args v /\ documentation = kw_doc v)
  /\ (answer = KeywordNotFound keyword_name
      <-> Forall (fun lk => no_match qn (snd lk)) all_libraries)
  /\ (forall q, In q [lit "get_length"; lit "Get-Length"; lit "get length"] ->
        get_keyword_documentation example_index q None
        = found_response (lit "BuiltIn") (lit "Get Length")
            (example_record (lit "Get Length") (lit "BuiltIn")))
  /\ (forall q, In q [lit "length"; lit "get"; lit "Get Length Of"] ->
        get_keyword_documentation example_index q None = KeywordNotFound q).
Proof.
  cbv zeta. unfold get_keyword_documentation.
  split; [apply normalize_name_chars|].
  split; [|split; [|split; [|split]]].
  - intros pre_libs lib pre k v post post_libs -> Hl Hp Hk.
    now rewrite find_in_libraries_first.
  - intros k lib a d u.
    destruct (find_in_libraries all_libraries (normalize_name keyword_name))
      as [r|] eqn:E; [|discriminate].
    apply find_in_libraries_some in E
      as (pre_libs & lib' & pre & k' & v & post & post_libs
          & -> & Hl & Hp & Hk & ->).
    unfold found_response. intros [= <- <- <- <- <-].
    split; [exact Hk|]. exists pre_libs, pre, v, post, post_libs. auto.
  - rewrite <- find_in_libraries_none.
    destruct (find_in_libraries all_libraries (normalize_name keyword_name))
      as [r|] eqn:E; [|tauto].
    apply find_in_libraries_some in E
      as (pre_libs & lib' & pre & k' & v & post & post_libs
          & -> & Hl & Hp & Hk & ->).
    split; discriminate.
  - intros q [<-|[<-|[<-|[]]]]; reflexivity.
  - intros q [<-|[<-|[<-|[]]]]; reflexivity.
Qed.

(** ** The keyword normalizer *)

Example sub_code_foo_bar :
  sub_code 0 (sub_tags 0 (lit "``Foo Bar`` should be <b>x</b> <> ```a`` `` ``"))
  = lit "Foo Bar should be x <> `a  ".
Proof. reflexivity. Qed.

Lemma dict_get_set_same {A : Type} (k : str) (v : A) (d : dict A) :
  dict_get k (dict_set k v d) = Some v.
Proof.
  induction d as [|[k' v'] d IH]; simpl.
  - now rewrite str_eqb_refl.
  - destruct (str_eqb k' k) eqn:E; simpl; now rewrite E.
Qed.

Lemma dict_get_set_other {A : Type} (k k' : str) (v : A) (d : dict A) :
  k' <> k -> dict_get k (dict_set k' v d) = dict_get k d.
Proof.
  intros Hk. induction d as [|[k0 v0] d IH]; simpl.
  - apply str_eqb_neq in Hk. now rewrite Hk.
  - destruct (str_eqb k0 k') eqn:E; simpl.
    + apply str_eqb_eq in E. subst k0.
      apply str_eqb_neq in Hk. now rewrite Hk.
    + now rewrite IH.
Qed.

Lemma as_strings_map (l : list str) : as_strings (map JStr l) = Some l.
Proof. induction l as [|s l IH]; simpl; [reflexivity|]. now rewrite IH. Qed.

Lemma args_parts_shaped (args : list json) :
  forallb arg_shaped args = true ->
  args_parts args = Some (map JStr (flat_map repr_of args)).
Proof.
  induction args as [|arg args IH]; [reflexivity|].
  cbn [forallb]. intros H. apply andb_true_iff in H as [Ha Hs].
  cbn [args_parts flat_map]. rewrite (IH Hs).
  destruct arg as [| | | | |l|a]; try discriminate.
  unfold json_get, repr_of, field. unfold arg_shaped in Ha.
  destruct (dict_get (lit "repr") a) as [[| | | |[|c s]| |]|];
    try discriminate; reflexivity.
Qed.

Lemma add_keyword_shaped (library_name : str) (keywords : dict KeywordRecord)
  (kw_data : json) :
  entry_shaped kw_data = true ->
  add_keyword library_name keywords kw_data
  = Some (match name_of kw_data with
          | [] => keywords
          | _ :: _ =>
              dict_set (name_of kw_data) (record_of library_name kw_data)
                keywords
          end).
Proof.
  destruct kw_data as [| | | | |l|d]; try discriminate.
  unfold entry_shaped, add_keyword, record_of, name_of, reprs_of, shortdoc_of,
    args_str, field, json_get.
  destruct (dict_get (lit "name") d) as [[| | | |[|c s]| |]|];
    try discriminate; try reflexivity.
  intros H. apply andb_true_iff in H as [Ha Hd]. cbn [truthy negb].
  destruct (dict_get (lit "args") d) as [[| | | | |args|]|];
    try discriminate.
  - cbn [json_iter]. rewrite (args_parts_shaped args Ha), as_strings_map.
    cbn [option_map].
    destruct (dict_get (lit "shortdoc") d) as [[| | | |doc| |]|];
      try discriminate; reflexivity.
  - cbn [json_iter args_parts as_strings option_map].
    destruct (dict_get (lit "shortdoc") d) as [[| | | |doc| |]|];
      try discriminate; reflexivity.
Qed.

Lemma add_keywords_shaped (library_name : str) (kws : list json) :
  forall keywords,
    forallb entry_shaped kws = true ->
    add_keywords library_name keywords kws
    = Some (fold_left (add_entry library_name) kws keywords).
Proof.
  induction kws as [|kw kws IH]; intros keywords H; [reflexivity|].
  cbn [forallb] in H. apply andb_true_iff in H as [Hk Hs].
  cbn [add_keywords fold_left]. rewrite (add_keyword_shaped _ _ _ Hk).
  now rewrite IH.
Qed.

Lemma add_entry_other (library_name name : str) (keywords : dict KeywordRecord)
  (kw_data : json) :
  name_of kw_data <> name ->
  dict_get name (add_entry library_name keywords kw_data)
  = dict_get name keywords.
Proof.
  intros H. unfold add_entry. destruct (name_of kw_data) eqn:E; [reflexivity|].
  now apply dict_get_set_other.
Qed.

Lemma fold_add_entry_other (library_name name : str) (post : list json) :
  forall keywords,
    Forall (fun kw => name_of kw <> name) post ->
    dict_get name (fold_left (add_entry library_name) post keywords)
    = dict_get name keywords.
Proof.
  induction post as [|kw post IH]; intros keywords H; [reflexivity|].
  inversion H; subst. cbn [fold_left]. rewrite IH by assumption.
  now apply add_entry_other.
Qed.

Lemma fold_add_entry_origin (library_name name : str) (kws : list json)
  (r : KeywordRecord) :
  forall keywords,
    dict_get name (fold_left (add_entry library_name) kws keywords) = Some r ->
    dict_get name keywords = Some r
    \/ (name <> [] /\ exists kw, In kw kws /\ name_of kw = name).
Proof.
  induction kws as [|kw kws IH]; intros keywords H; [now left|].
  cbn [fold_left] in H. apply IH in H as [H|(Hn & kw' & Hin & Hk)].
  - destruct (str_eqb (name_of kw) name) eqn:E.
    + apply str_eqb_eq in E. unfold add_entry in H.
      destruct (name_of kw) as [|c s] eqn:En; [now left|].
      right. split; [congruence|]. exists kw. split; [now left|congruence].
    + apply str_eqb_neq in E. rewrite add_entry_other in H by assumption.
      now left.
  - right. split; [assumption|]. exists kw'. split; [now right|assumption].
Qed.

(** The two substitutions on text in which the patterns stand apart. *)
Lemma tag_rest_tag (t b : str) :
  t <> [] -> ~ In ">"%char t ->
  tag_rest (t ++ ">"%char :: b) = Some (length t + 1).
Proof.
  induction t as [|c t IH]; [contradiction|]. intros _ Hin.
  assert (Hc : (c =? ">")%char = false).
  { apply Ascii.eqb_neq. intros ->. apply Hin. now left. }
  cbn [app tag_rest]. rewrite Hc. destruct t as [|d t].
  - simpl. reflexivity.
  - assert (Hd : (d =? ">")%char = false).
    { apply Ascii.eqb_neq. intros ->. apply Hin. right. now left. }
    cbn [app]. rewrite Hd. cbn [app] in IH. rewrite IH; [reflexivity|discriminate|].
    intros H. apply Hin. now right.
Qed.

Lemma sub_tags_skip (a b : str) : sub_tags (length a) (a ++ b) = sub_tags 0 b.
Proof. induction a as [|c a IH]; [reflexivity|exact IH]. Qed.

Lemma sub_tags_plain (a b : str) :
  ~ In "<"%char a -> sub_tags 0 (a ++ b) = a ++ sub_tags 0 b.
Proof.
  induction a as [|c a IH]; [reflexivity|]. intros Hin.
  assert (Hc : (c =? "<")%char = false).
  { apply Ascii.eqb_neq. intros ->. apply Hin. now left. }
  cbn [app sub_tags]. rewrite Hc, IH; [reflexivity|].
  intros H. apply Hin. now right.
Qed.

Lemma sub_tags_tag (a t b : str) :
  ~ In "<"%char a -> t <> [] -> ~ In ">"%char t ->
  sub_tags 0 (a ++ "<"%char :: t ++ ">"%char :: b) = a ++ sub_tags 0 b.
Proof.
  intros Ha Ht Hin. rewrite sub_tags_plain by assumption. f_equal.
  cbn [sub_tags]. rewrite Ascii.eqb_refl, tag_rest_tag by assumption.
  replace (t ++ ">"%char :: b) with ((t ++ [">"%char]) ++ b)
    by now rewrite <- app_assoc.
  replace (length t + 1) with (length (t ++ [">"%char]))
    by (rewrite length_app; reflexivity).
  apply sub_tags_skip.
Qed.

Lemma code_run_run (t r : str) :
  ~ In "`"%char t -> code_run (t ++ "`"%char :: r) = (t, "`"%char :: r).
Proof.
  induction t as [|c t IH]; [reflexivity|]. intros Hin.
  assert (Hc : (c =? "`")%char = false).
  { apply Ascii.eqb_neq. intros ->. apply Hin. now left. }
  cbn [app code_run]. rewrite Hc, IH; [reflexivity|].
  intros H. apply Hin. now right.
Qed.

Lemma sub_code_skip (a b : str) : sub_code (length a) (a ++ b) = sub_code 0 b.
Proof. induction a as [|c a IH]; [reflexivity|exact IH]. Qed.

Lemma sub_code_plain (a b : str) :
  ~ In "`"%char a -> sub_code 0 (a ++ b) = a ++ sub_code 0 b.
Proof.
  induction a as [|c a IH]; [reflexivity|]. intros Hin.
  assert (Hc : c <> "`"%char) by (intros ->; apply Hin; now left).
  cbn [app sub_code].
  replace (match_code (c :: a ++ b)) with (@None str).
  - rewrite IH; [reflexivity|]. intros H. apply Hin. now right.
  - unfold match_code. destruct c as [[] [] [] [] [] [] [] []];
      try reflexivity. contradiction.
Qed.

Lemma sub_code_cons (c : ascii) (s : str) :
  sub_code 0 (c :: s)
  = match match_code (c :: s) with
    | Some inner => inner ++ sub_code (length inner + 3) s
    | None => c :: sub_code 0 s
    end.
Proof. reflexivity. Qed.

Lemma sub_code_span (a t b : str) :
  ~ In "`"%char a -> t <> [] -> ~ In "`"%char t ->
  sub_code 0 (a ++ lit "``" ++ t ++ lit "``" ++ b) = a ++ t ++ sub_code 0 b.
Proof.
  intros Ha Ht Hin. rewrite sub_code_plain by assumption. f_equal.
  change (lit "``" ++ t ++ lit "``" ++ b)
    with ("`"%char :: "`"%char :: t ++ "`"%char :: "`"%char :: b).
  rewrite sub_code_cons. unfold match_code.
  rewrite code_run_run by assumption.
  destruct t as [|c t]; [contradiction|].
  assert (H : sub_code (length (c :: t) + 3)
                ("`"%char :: (c :: t) ++ "`"%char :: "`"%char :: b)
              = sub_code 0 b).
  { replace ("`"%char :: (c :: t) ++ "`"%char :: "`"%char :: b)
      with (("`"%char :: (c :: t) ++ [ "`"%char; "`"%char ]) ++ b)
      by (simpl; now rewrite <- app_assoc).
    replace (length (c :: t) + 3)
      with (length ("`"%char :: (c :: t) ++ [ "`"%char; "`"%char ]))
      by (simpl; rewrite length_app; simpl; lia).
    apply sub_code_skip. }
  rewrite H. reflexivity.
Qed.

Lemma replace_space (s : str) :
  replace_char " " (lit "%20") s
  = flat_map (fun c => if (c =? " ")%char then lit "%20" else [c]) s.
Proof.
  induction s as [|c s IH]; [reflexivity|]. cbn [replace_char flat_map].
  destruct (c =? " ")%char; rewrite IH; reflexivity.
Qed.

(** C6. On a libdoc object whose keyword entries have the expected shape,
    the normalizer succeeds; every record it returns is stored under a name
    that is not empty and that an entry carries, so an entry without a
    name or with an empty one yields nothing; the record stored under a
    name is built from the last entry with that name: its args are the
    non-empty repr fields joined with ", ", its doc is the shortdoc with
    the tags deleted first and the double-backtick spans unwrapped then,
    and its id is the name with every space replaced by [%20].  The
    shortdoc of the example becomes [Foo Bar should be]. *)
Theorem C6_keyword_normalizer
  (library_name : str) (d : dict json) (kws : list json) :
  dict_get (lit "keywords") d = Some (JList kws) ->
  forallb entry_shaped kws = true ->
  exists keywords,
    normalize_keywords library_name (JDict d) = Some keywords
    /\ (forall name r,
          dict_get name keywords = Some r ->
          name <> [] /\ exists kw, In kw kws /\ name_of kw = name)
    /\ (forall pre kw post,
          kws = pre ++ kw :: post ->
          name_of kw <> [] ->
          Forall (fun kw' => name_of kw' <> name_of kw) post ->
          exists r,
            dict_get (name_of kw) keywords = Some r
            /\ kw_name r = name_of kw
            /\ kw_id r
               = flat_map (fun c => if (c =? " ")%char then lit "%20" else [c])
                   (name_of kw)
            /\ kw_args r = join (lit ", ") (reprs_of kw)
            /\ kw_doc r = sub_code 0 (sub_tags 0 (shortdoc_of kw))
            /\ kw_library r = library_name)
    /\ (forall a t b,
          ~ In "<"%char a -> t <> [] -> ~ In ">"%char t ->
          sub_tags 0 (a ++ "<"%char :: t ++ ">"%char :: b) = a ++ sub_tags 0 b)
    /\ (forall a, ~ In "<"%char a -> sub_tags 0 a = a)
    /\ (forall a t b,
          ~ In "`"%char a -> t <> [] -> ~ In "`"%char t ->
          sub_code 0 (a ++ lit "``" ++ t ++ lit "``" ++ b)
          = a ++ t ++ sub_code 0 b)
    /\ (forall a, ~ In "`"%char a -> sub_code 0 a = a)
    /\ sub_code 0 (sub_tags 0 (lit "``Foo Bar`` should be"))
       = lit "Foo Bar should be".
Proof.
  intros Hd Hs. exists (fold_left (add_entry library_name) kws []).
  split.
  { unfold normalize_keywords, json_get. rewrite Hd. cbn [json_iter].
    now apply add_keywords_shaped. }
  split.
  { intros name r H. apply fold_add_entry_origin in H as [H|H];
      [discriminate|exact H]. }
  split.
  { intros pre kw post -> Hn Hpost. rewrite fold_left_app. cbn [fold_left].
    rewrite fold_add_entry_other by assumption.
    unfold add_entry at 1. destruct (name_of kw) as [|c s] eqn:E;
      [contradiction|].
    rewrite dict_get_set_same. eexists. split; [reflexivity|].
    unfold record_of. cbn [kw_name kw_id kw_args kw_doc kw_library].
    rewrite E, replace_space. auto. }
  split; [apply sub_tags_tag|].
  split.
  { intros a Ha. rewrite <- (app_nil_r a) at 1.
    rewrite sub_tags_plain by assumption. apply app_nil_r. }
  split; [apply sub_code_span|].
  split; [|reflexivity].
  intros a Ha. rewrite <- (app_nil_r a) at 1.
  rewrite sub_code_plain by assumption. apply app_nil_r.
Qed.

(** The theorem at the libdoc object of the example. *)
Lemma C6_keyword_normalizer_witness :
  normalize_keywords (lit "BuiltIn") (JDict example_libdoc)
  = Some [ (lit "Should Be",
            mk_keyword (lit "Should Be") (lit "Should%20Be")
              (lit "first, second=None") (lit "Foo Bar should be x")
              (lit "BuiltIn") (JStr []) (JInt 7)) ].
Proof.
  destruct (C6_keyword_normalizer (lit "BuiltIn") example_libdoc _
              eq_refl eq_refl) as (keywords & H & _).
  reflexivity.
Defined.

(** ** The refresh cycle *)

Lemma dict_set_fresh {A : Type} (k : str) (v : A) (d : dict A) :
  dict_get k d = None -> dict_set k v d = d ++ [(k, v)].
Proof.
  induction d as [|[k' v'] d IH]; simpl; [reflexivity|].
  destruct (str_eqb k' k); [discriminate|]. intros H. now rewrite IH.
Qed.

Lemma dict_get_app_other {A : Type} (k k' : str) (v : A) (d : dict A) :
  k' <> k -> dict_get k (d ++ [(k', v)]) = dict_get k d.
Proof.
  intros Hk. induction d as [|[k0 v0] d IH]; simpl.
  - apply str_eqb_neq in Hk. now rewrite Hk.
  - destruct (str_eqb k0 k); [reflexivity|exact IH].
Qed.

Section RefreshProperties.

Variable CACHE_DIR : str.
Variable urlopen : str -> option str.
Variable feed : str -> option (list event).
Variable json_loads : str -> loads_result.
Variable force_refresh : bool.

Local Abbreviation outcome :=
  (library_outcome CACHE_DIR urlopen json_loads force_refresh).
Local Abbreviation outcomes_of :=
  (outcomes CACHE_DIR urlopen json_loads force_refresh).

Lemma library_file_inj (a b : str) :
  library_file CACHE_DIR a = library_file CACHE_DIR b -> a = b.
Proof.
  unfold library_file. intros H. apply app_inv_head in H.
  change (lit "/" ++ ?x) with ("/"%char :: x) in H. injection H as H.
  now apply app_inv_tail in H.
Qed.

(** One turn of the loop. *)
Lemma process_library_step (st : loop_state) (library_name : str) :
  let o := outcome (html_files (l_cache st)) library_name in
  let st' := process_library CACHE_DIR urlopen json_loads force_refresh st
               library_name in
  l_libraries st' = opt_set library_name (status_of o) (l_libraries st)
  /\ l_all_keywords st'
     = opt_set library_name (keywords_of o) (l_all_keywords st)
  /\ l_total_keywords st'
     = l_total_keywords st
       + match keywords_of o with Some k => length k | None => 0 end
  /\ (forall other, other <> library_name ->
        html_files (l_cache st') (library_file CACHE_DIR other)
        = html_files (l_cache st) (library_file CACHE_DIR other))
  /\ docs_index (l_cache st') = docs_index (l_cache st)
  /\ keywords_snapshot (l_cache st') = keywords_snapshot (l_cache st).
Proof.
  cbv zeta.
  unfold process_library, library_outcome, library_text, _download_file,
    _parse_library_keywords.
  assert (Hw : forall files content other, other <> library_name ->
             write_file files (library_file CACHE_DIR library_name) content
               (library_file CACHE_DIR other)
             = files (library_file CACHE_DIR other)).
  { intros files content other Ho. unfold write_file.
    destruct (str_eqb (library_file CACHE_DIR other)
                (library_file CACHE_DIR library_name)) eqn:E; [|reflexivity].
    apply str_eqb_eq, library_file_inj in E. contradiction. }
  assert (Hsame : forall files path content,
             write_file files path content path = Some content).
  { intros. unfold write_file. now rewrite str_eqb_refl. }
  destruct (html_files (l_cache st) (library_file CACHE_DIR library_name))
    as [cached|] eqn:Ec;
    destruct force_refresh; cbn [orb];
    try destruct (urlopen (RF_BASE_LIB_URL ++ lit "/" ++ library_name
                             ++ lit ".html")) as [content|] eqn:Eu;
    cbn [html_files l_cache]; rewrite ?Hsame, ?Ec; cbn [option_map];
    try match goal with
        | |- context [parse_library_text ?j ?l ?h] =>
            destruct (parse_library_text j l h) as [kws|e]
        end;
    cbn [status_of keywords_of opt_set l_libraries l_all_keywords
           l_total_keywords l_cache html_files docs_index keywords_snapshot];
    repeat split; auto; lia.
Qed.

Lemma library_outcome_ext (files files' : str -> option str) (lib : str) :
  files' (library_file CACHE_DIR lib) = files (library_file CACHE_DIR lib) ->
  outcome files' lib = outcome files lib.
Proof. unfold library_outcome, library_text. now intros ->. Qed.

Lemma opt_set_fresh {A : Type} (k : str) (o : option A) (d : dict A) :
  dict_get k d = None -> opt_set k o d = d ++ opt_list k o.
Proof.
  destruct o; simpl; intros H; [now apply dict_set_fresh|].
  now rewrite app_nil_r.
Qed.

Lemma dict_get_app_opt {A : Type} (k k' : str) (o : option A) (d : dict A) :
  k' <> k -> dict_get k (d ++ opt_list k' o) = dict_get k d.
Proof.
  destruct o; simpl; intros H; [now apply dict_get_app_other|].
  now rewrite app_nil_r.
Qed.

(** The loop: every library contributes by its own outcome. *)
Lemma process_libraries (libs : list str) :
  forall st,
    NoDup libs ->
    (forall lib, In lib libs ->
       dict_get lib (l_libraries st) = None
       /\ dict_get lib (l_all_keywords st) = None) ->
    let os := outcomes_of (html_files (l_cache st)) libs in
    let st' := fold_left
                 (process_library CACHE_DIR urlopen json_loads force_refresh)
                 libs st in
    l_libraries st'
    = l_libraries st
      ++ flat_map (fun lo => opt_list (fst lo) (status_of (snd lo))) os
    /\ l_all_keywords st'
       = l_all_keywords st
         ++ flat_map (fun lo => opt_list (fst lo) (keywords_of (snd lo))) os
    /\ l_total_keywords st'
       = l_total_keywords st + list_sum (map (fun lo => counted (snd lo)) os)
    /\ docs_index (l_cache st') = docs_index (l_cache st)
    /\ keywords_snapshot (l_cache st') = keywords_snapshot (l_cache st).
Proof.
  induction libs as [|lib libs IH]; intros st Hnd Hfresh; cbv zeta.
  - simpl. rewrite !app_nil_r. repeat split; lia.
  - inversion Hnd as [|? ? Hnotin Hnd']; subst.
    destruct (process_library_step st lib)
      as (Hl & Ha & Ht & Hf & Hd & Hk).
    destruct (Hfresh lib (or_introl eq_refl)) as [Hfl Hfa].
    rewrite (opt_set_fresh _ _ _ Hfl) in Hl.
    rewrite (opt_set_fresh _ _ _ Hfa) in Ha.
    cbn [fold_left].
    set (st1 := process_library CACHE_DIR urlopen json_loads force_refresh
                  st lib) in *.
    assert (Hneq : forall other, In other libs -> lib <> other).
    { intros other Hin ->. contradiction. }
    assert (Hos : outcomes_of (html_files (l_cache st1)) libs
                  = outcomes_of (html_files (l_cache st)) libs).
    { unfold outcomes. apply map_ext_in. intros other Hin. f_equal.
      apply library_outcome_ext, Hf. intros ->. now apply (Hneq lib). }
    destruct (IH st1 Hnd') as (Il & Ia & It & Id & Ik).
    { intros other Hin. rewrite Hl, Ha.
      rewrite !dict_get_app_opt by now apply Hneq.
      apply Hfresh. now right. }
    cbv zeta in Il, Ia, It. rewrite Hos in Il, Ia, It.
    rewrite Il, Ia, It, Id, Ik, Hl, Ha, Ht, Hd, Hk.
    unfold outcomes. cbn [map flat_map list_sum fst snd].
    rewrite <- !app_assoc. repeat split; try reflexivity.
    rewrite <- Nat.add_assoc. f_equal. f_equal.
    now destruct (outcome (html_files (l_cache st)) lib) as [[k|e]|].
Qed.

Lemma dict_get_outcomes {A : Type}
  (f : option (result (dict KeywordRecord)) -> option A)
  (files : str -> option str) (libs : list str) (lib : str) :
  dict_get lib (flat_map (fun lo => opt_list (fst lo) (f (snd lo)))
                  (outcomes_of files libs))
  = if existsb (str_eqb lib) libs then f (outcome files lib) else None.
Proof.
  induction libs as [|l libs IH]; [reflexivity|].
  unfold outcomes in *. cbn [map flat_map fst snd existsb].
  destruct (str_eqb lib l) eqn:E; cbn [orb].
  - apply str_eqb_eq in E. subst l.
    destruct (f (outcome files lib)) as [a|] eqn:Ef; cbn [opt_list app].
    + cbn [dict_get]. now rewrite str_eqb_refl.
    + rewrite IH. now destruct (existsb (str_eqb lib) libs).
  - destruct (f (outcome files l)) as [a|]; cbn [opt_list app];
      [|exact IH].
    cbn [dict_get]. replace (str_eqb l lib) with false; [exact IH|].
    symmetry. apply str_eqb_neq. apply str_eqb_neq in E. congruence.
Qed.

Lemma docs_file_is_library_file :
  DOCS_FILE CACHE_DIR = library_file CACHE_DIR (lit "RobotFrameworkUserGuide").
Proof. reflexivity. Qed.

(** The files a library is read from are those of the cache the cycle
    starts with: the user guide is kept under another name. *)
Lemma outcomes_after_user_guide (files : str -> option str) (content : str)
  (libs : list str) :
  ~ In (lit "RobotFrameworkUserGuide") libs ->
  outcomes_of (write_file files (DOCS_FILE CACHE_DIR) content) libs
  = outcomes_of files libs.
Proof.
  intros Hnot. unfold outcomes. apply map_ext_in. intros lib Hin. f_equal.
  apply library_outcome_ext. unfold write_file.
  destruct (str_eqb (library_file CACHE_DIR lib) (DOCS_FILE CACHE_DIR)) eqn:E;
    [|reflexivity].
  apply str_eqb_eq in E. rewrite docs_file_is_library_file in E.
  apply library_file_inj in E. subst lib. contradiction.
Qed.

(** What the cycle returns and leaves behind, from the outcomes of the
    libraries. *)
Lemma fetch_libraries_spec (libs : list str) (c : cache) :
  NoDup libs -> ~ In (lit "RobotFrameworkUserGuide") libs ->
  let r := fst (fetch_libraries CACHE_DIR urlopen feed json_loads libs
                  force_refresh c) in
  let c' := snd (fetch_libraries CACHE_DIR urlopen feed json_loads libs
                   force_refresh c) in
  let os := outcomes_of (html_files c) libs in
  let all := flat_map (fun lo => opt_list (fst lo) (keywords_of (snd lo))) os in
  let total := list_sum (map (fun lo => counted (snd lo)) os) in
  libraries r = flat_map (fun lo => opt_list (fst lo) (status_of (snd lo))) os
  /\ success r = user_guide r
  /\ user_guide r
     = (if force_refresh
           || match html_files c (DOCS_FILE CACHE_DIR) with
              | Some _ => false | None => true end
        then match urlopen RF_DOCS_URL with Some _ => true | None => false end
        else true)
  /\ match all with
     | [] => keywords_index r = None
             /\ keywords_snapshot c' = keywords_snapshot c
     | _ :: _ =>
         keywords_index r = Some (length all, total)
         /\ keywords_snapshot c' = Some (mk_index (length all) total all)
     end.
Proof.
  intros Hnd Hnot. cbv zeta. unfold fetch_libraries.
  assert (Hloop : forall c1 downloaded,
             keywords_snapshot c1 = keywords_snapshot c ->
             outcomes_of (html_files c1) libs = outcomes_of (html_files c) libs ->
             let st := fold_left
                         (process_library CACHE_DIR urlopen json_loads
                            force_refresh) libs
                         (mk_loop c1 downloaded [] [] 0) in
             l_libraries st
             = flat_map (fun lo => opt_list (fst lo) (status_of (snd lo)))
                 (outcomes_of (html_files c) libs)
             /\ l_all_keywords st
                = flat_map (fun lo => opt_list (fst lo) (keywords_of (snd lo)))
                    (outcomes_of (html_files c) libs)
             /\ l_total_keywords st
                = list_sum (map (fun lo => counted (snd lo))
                              (outcomes_of (html_files c) libs))
             /\ keywords_snapshot (l_cache st) = keywords_snapshot c).
  { intros c1 downloaded Hk Hos. cbv zeta.
    destruct (process_libraries libs (mk_loop c1 downloaded [] [] 0) Hnd)
      as (Hl & Ha & Ht & _ & Hs).
    { intros lib _. split; reflexivity. }
    cbn [l_libraries l_all_keywords l_total_keywords l_cache app] in *.
    rewrite Hos in *. rewrite Hl, Ha, Ht, Hs. auto. }
  assert (Hsame : forall files path content,
             write_file files path content path = Some content).
  { intros. unfold write_file. now rewrite str_eqb_refl. }
  unfold _download_file, _parse_documentation.
  destruct (force_refresh
            || match html_files c (DOCS_FILE CACHE_DIR) with
               | Some _ => false | None => true end) eqn:Ec;
    [destruct (urlopen RF_DOCS_URL) as [content|] eqn:Eu|];
    cbn [html_files docs_index keywords_snapshot];
    rewrite ?Hsame;
    try (destruct (html_files c (DOCS_FILE CACHE_DIR)) as [cached|] eqn:Ed);
    cbn [html_files docs_index keywords_snapshot];
    try match goal with
        | |- context [feed ?text] => destruct (feed text)
        end;
    cbn [html_files docs_index keywords_snapshot];
    match goal with
    | |- context [fold_left _ libs (mk_loop ?c1 ?d [] [] 0)] =>
        destruct (Hloop c1 d) as (Hl & Ha & Ht & Hs);
          [reflexivity
          |cbn [html_files];
           first [reflexivity | now apply outcomes_after_user_guide]
          |]
    end;
    cbv zeta in Hl, Ha, Ht, Hs; rewrite Ha, ?Ht;
    destruct (flat_map (fun lo => opt_list (fst lo) (keywords_of (snd lo)))
                (outcomes_of (html_files c) libs));
    cbn [fst snd libraries success user_guide keywords_index
           keywords_snapshot];
    rewrite ?Hl, ?Hs, ?Ht; auto.
Qed.

Lemma keywords_none_all (files : str -> option str) (libs : list str) :
  flat_map (fun lo => opt_list (fst lo) (keywords_of (snd lo)))
    (outcomes_of files libs) = []
  <-> forall lib, In lib libs -> keywords_of (outcome files lib) = None.
Proof.
  induction libs as [|l libs IH]; [split; [intros _ lib []|reflexivity]|].
  unfold outcomes in *. cbn [map flat_map fst snd]. split.
  - intros H. apply app_eq_nil in H as [Hl Hr].
    intros lib [<-|Hin]; [|now apply IH].
    now destruct (keywords_of (outcome files l)).
  - intros H. rewrite (H l (or_introl eq_refl)). cbn [opt_list app].
    apply IH. intros lib Hin. apply H. now right.
Qed.

Lemma existsb_str_eqb (lib : str) (libs : list str) :
  In lib libs -> existsb (str_eqb lib) libs = true.
Proof.
  intros H. apply existsb_exists. exists lib. split; [exact H|].
  apply str_eqb_refl.
Qed.

End RefreshProperties.

Lemma standard_libraries_distinct :
  NoDup STANDARD_LIBRARIES
  /\ ~ In (lit "RobotFrameworkUserGuide") STANDARD_LIBRARIES.
Proof.
  split.
  - unfold STANDARD_LIBRARIES.
    repeat (constructor;
            [cbn [In]; intros H;
             repeat (destruct H as [H|H]; [vm_compute in H; discriminate H|]);
             exact H|]).
    constructor.
  - unfold STANDARD_LIBRARIES. cbn [In]. intros H.
    repeat (destruct H as [H|H]; [vm_compute in H; discriminate H|]).
    exact H.
Qed.

(** C5, as stated, fails: the library whose download fails and that has
    no cached file is not marked [success: false]; it has no entry in the
    per-library map at all, while the libraries after it are processed. *)
Lemma C5_failed_download_has_no_entry :
  example_urlopen (RF_BASE_LIB_URL ++ lit "/BuiltIn.html") = None
  /\ dict_get (lit "BuiltIn") (libraries (fst example_refresh)) = None
  /\ dict_get (lit "BuiltIn") (libraries (fst example_refresh))
     <> Some (mk_status false 0)
  /\ dict_get (lit "Collections") (libraries (fst example_refresh))
     = Some (mk_status true 0)
  /\ success (fst example_refresh) = true.
Proof. vm_compute. repeat split. discriminate. Qed.

(** C5, amended. In a refresh every standard library is processed by its
    own outcome, whatever happens to the others.  A library has an entry
    in the per-library map exactly when a file is there to parse after its
    download step (downloaded now, or cached): [success: false] when the
    parse fails, [success: true] with its number of keywords when it
    succeeds; a library whose download fails and that has no cached file
    has no entry.  When some library is parsed, the snapshot that is
    written holds the parsed libraries only and its [total_keywords] is
    the sum of their keyword counts; when none is, no snapshot is written.
    The overall [success] is that of the user guide: downloaded now, or
    cached when no download is asked for. *)
Theorem C5_refresh_isolates_library_failures
  (CACHE_DIR : str) (urlopen : str -> option str)
  (feed : str -> option (list event))
  (json_loads : str -> loads_result) (force_refresh : bool) (c : cache) :
  let r := fst (fetch_rf_documentation CACHE_DIR urlopen feed json_loads
                  force_refresh c) in
  let c' := snd (fetch_rf_documentation CACHE_DIR urlopen feed json_loads
                   force_refresh c) in
  let outcome :=
    library_outcome CACHE_DIR urlopen json_loads force_refresh (html_files c) in
  let total := list_sum (map (fun lib => counted (outcome lib))
                           STANDARD_LIBRARIES) in
  (forall lib, In lib STANDARD_LIBRARIES ->
     dict_get lib (libraries r)
     = match outcome lib with
       | None => None
       | Some (Ok keywords) => Some (mk_status true (length keywords))
       | Some (Err _) => Some (mk_status false 0)
       end)
  /\ ((exists lib keywords,
         In lib STANDARD_LIBRARIES /\ outcome lib = Some (Ok keywords)) ->
      exists idx,
        keywords_snapshot c' = Some idx
        /\ ki_total_keywords idx = total
        /\ keywords_index r = Some (ki_total_libraries idx, total)
        /\ forall lib, In lib STANDARD_LIBRARIES ->
             dict_get lib (ki_libraries idx)
             = match outcome lib with
               | Some (Ok keywords) => Some keywords
               | _ => None
               end)
  /\ ((forall lib, In lib STANDARD_LIBRARIES ->
         forall keywords, outcome lib <> Some (Ok keywords)) ->
      keywords_index r = None /\ keywords_snapshot c' = keywords_snapshot c)
  /\ success r
     = (if force_refresh
           || match html_files c (DOCS_FILE CACHE_DIR) with
              | Some _ => false | None => true end
        then match urlopen RF_DOCS_URL with Some _ => true | None => false end
        else true).
Proof.
  cbv zeta. unfold fetch_rf_documentation.
  destruct standard_libraries_distinct as [Hnd Hnot].
  pose proof (fetch_libraries_spec CACHE_DIR urlopen feed json_loads
                force_refresh STANDARD_LIBRARIES c Hnd Hnot) as H.
  cbv zeta in H. destruct H as (Hl & Hs & Hu & Hk).
  set (os := outcomes CACHE_DIR urlopen json_loads force_refresh
               (html_files c) STANDARD_LIBRARIES) in *.
  assert (Htotal :
            list_sum (map (fun lo => counted (snd lo)) os)
            = list_sum
                (map (fun lib =>
                        counted (library_outcome CACHE_DIR urlopen json_loads
                                   force_refresh (html_files c) lib))
                   STANDARD_LIBRARIES)).
  { unfold os, outcomes. now rewrite map_map. }
  split; [|split; [|split]].
  - intros lib Hin. rewrite Hl. unfold os.
    rewrite (dict_get_outcomes CACHE_DIR urlopen json_loads force_refresh
               status_of).
    now rewrite (existsb_str_eqb lib _ Hin).
  - intros (lib & keywords & Hin & Ho).
    destruct (flat_map (fun lo => opt_list (fst lo) (keywords_of (snd lo))) os)
      as [|x all] eqn:Ea.
    + exfalso.
      pose proof (proj1 (keywords_none_all CACHE_DIR urlopen json_loads
                           force_refresh (html_files c) STANDARD_LIBRARIES)
                    Ea lib Hin) as Hn.
      rewrite Ho in Hn. discriminate.
    + destruct Hk as [Hki Hks]. rewrite Hks, Hki, Htotal.
      eexists. split; [reflexivity|]. cbn [ki_total_keywords ki_total_libraries
                                             ki_libraries].
      repeat split. intros lib' Hin'. rewrite <- Ea. unfold os.
      rewrite (dict_get_outcomes CACHE_DIR urlopen json_loads force_refresh
                 keywords_of).
      rewrite (existsb_str_eqb lib' _ Hin').
      now destruct (library_outcome CACHE_DIR urlopen json_loads force_refresh
                      (html_files c) lib') as [[k|e]|].
  - intros Hnone.
    assert (Ea : flat_map
                   (fun lo => opt_list (fst lo) (keywords_of (snd lo))) os = []).
    { apply keywords_none_all. intros lib Hin.
      specialize (Hnone lib Hin).
      destruct (library_outcome CACHE_DIR urlopen json_loads force_refresh
                  (html_files c) lib) as [[k|e]|]; try reflexivity.
      now contradiction (Hnone k). }
    rewrite Ea in Hk. exact Hk.
  - now rewrite Hs, Hu.
Qed.

(** * Further properties *)

(** ** The extractor: the shape of what is extracted *)

Lemma scan_step_closing (st : scan_state) (c : ascii) :
  (1 <= depth st)%Z -> depth (scan_step st c) = 0%Z ->
  c = "}"%char /\ scan_step st c = mk_scan 0 false false.
Proof.
  destruct st as [d ins esc]. unfold scan_step. simpl. intros Hd.
  destruct esc; simpl; [lia|].
  destruct (c =? "\")%char; simpl; [lia|].
  destruct (c =? dquote)%char; simpl; [lia|].
  destruct ins; simpl; [lia|].
  destruct (c =? "{")%char; simpl; [lia|].
  destruct (c =? "}")%char eqn:E; simpl; [|lia].
  apply Ascii.eqb_eq in E. intros ->. auto.
Qed.

Lemma scan_step_depth (st : scan_state) (c : ascii) :
  (depth st - 1 <= depth (scan_step st c) <= depth st + 1)%Z.
Proof.
  destruct st as [d ins esc]. unfold scan_step. simpl.
  repeat (match goal with |- context [if ?b then _ else _] => destruct b end;
          simpl; try lia).
Qed.

(** While the depth does not return to 0 it stays positive. *)
Lemma scan_from_positive (l : str) :
  forall st, (1 <= depth st)%Z ->
  (forall m, m <= length l -> depth (scan_from st (firstn m l)) <> 0%Z) ->
  (1 <= depth (scan_from st l))%Z.
Proof.
  induction l as [|c l IH]; intros st Hd Hm; [exact Hd|].
  change (scan_from st (c :: l)) with (scan_from (scan_step st c) l).
  apply IH.
  - pose proof (Hm 1 ltac:(simpl; lia)) as H1. simpl in H1.
    pose proof (scan_step_depth st c). lia.
  - intros m Hle. apply (Hm (S m)). simpl. lia.
Qed.

Lemma scan_from_app (st : scan_state) (a b : str) :
  scan_from st (a ++ b) = scan_from (scan_from st a) b.
Proof. apply fold_left_app. Qed.

(** X1. What the extractor returns is shaped like an object: it starts
    with the opening brace, ends with a closing brace that stands outside
    every string literal, its braces outside string literals balance, and
    it is a piece of the input. *)
Theorem X1_extracted_text_is_a_balanced_object (html libdoc_json : str) :
  extract_libdoc_json html = Ok libdoc_json ->
  (exists inner, libdoc_json = "{"%char :: inner ++ ["}"%char])
  /\ scan_from scan_start libdoc_json = mk_scan 0 false false
  /\ exists pre post, html = pre ++ libdoc_json ++ post.
Proof.
  intros Hx. pose proof (extract_libdoc_json_cases html) as H.
  destruct (re_search_libdoc html 0) as [[a b]|] eqn:E;
    [|rewrite H in Hx; discriminate].
  destruct H as [_ [(n & Hn & Hs)|(_ & Hs)]];
    [|rewrite Hs in Hx; discriminate].
  rewrite Hs in Hx. injection Hx as <-. unfold slice.
  replace (b - 1 + n - (b - 1)) with n by lia.
  apply re_search_libdoc_some in E as (rest & _ & _ & Hr).
  rewrite Nat.sub_0_r in Hr. rewrite Hr in *.
  destruct Hn as ([Hn1 Hn2] & Hz & Hm).
  destruct n as [|n]; [lia|].
  simpl in Hz. cbn [firstn].
  destruct (exists_last (l := firstn n rest)) as (inner & c & Hl).
  { destruct n as [|n]; [simpl in Hz; discriminate|].
    destruct rest; [simpl in Hn2; lia|discriminate]. }
  assert (Hpos : (1 <= depth (scan_from (mk_scan 1 false false) inner))%Z).
  { apply scan_from_positive; [simpl; lia|].
    intros m Hle.
    assert (Hlen : length (firstn n rest) = length inner + 1)
      by (rewrite Hl, length_app; reflexivity).
    rewrite length_firstn in Hlen.
    specialize (Hm (S m) ltac:(lia)). simpl in Hm.
    replace (firstn m inner) with (firstn m rest); [exact Hm|].
    replace (firstn m rest) with (firstn m (firstn n rest))
      by (rewrite firstn_firstn; f_equal; lia).
    rewrite Hl, firstn_app.
    replace (m - length inner) with 0 by lia. simpl. apply app_nil_r. }
  change (scan_from (scan_step scan_start "{") (firstn n rest))
    with (scan_from (mk_scan 1 false false) (firstn n rest)) in Hz.
  rewrite Hl, scan_from_app in Hz. simpl in Hz.
  apply scan_step_closing in Hz as [-> Hfin]; [|exact Hpos].
  split; [|split].
  - exists inner. now rewrite Hl.
  - rewrite Hl.
    change (scan_from scan_start ("{"%char :: inner ++ ["}"%char]))
      with (scan_from (mk_scan 1 false false) (inner ++ ["}"%char])).
    rewrite scan_from_app. exact Hfin.
  - exists (firstn (b - 1) html), (skipn n rest).
    rewrite <- (firstn_skipn (b - 1) html) at 1. f_equal. rewrite Hr.
    change (("{"%char :: firstn n rest) ++ skipn n rest)
      with ("{"%char :: firstn n rest ++ skipn n rest).
    now rewrite firstn_skipn.
Qed.

Lemma X1_extracted_text_witness :
  extract_libdoc_json (jlit "x libdoc={'k':'\'}'} y") = Ok (jlit "{'k':'\'}'}")
  /\ scan_from scan_start (jlit "{'k':'\'}'}") = mk_scan 0 false false.
Proof.
  split; [reflexivity|].
  exact (proj1 (proj2 (X1_extracted_text_is_a_balanced_object
                         (jlit "x libdoc={'k':'\'}'} y") _ eq_refl))).
Defined.

(** ** Trimming *)

Lemma lstrip_idempotent (s : str) : lstrip (lstrip s) = lstrip s.
Proof.
  induction s as [|c s IH]; [reflexivity|]. simpl.
  destruct (isspace c) eqn:E; [exact IH|]. simpl. now rewrite E.
Qed.

Lemma lstrip_app_nonspace (u v : str) (c : ascii) :
  isspace c = false -> lstrip (u ++ c :: v) = lstrip u ++ c :: v.
Proof.
  intros Hc. induction u as [|d u IH]; simpl.
  - now rewrite Hc.
  - destruct (isspace d); [exact IH|reflexivity].
Qed.

Lemma rstrip_idempotent (s : str) : rstrip (rstrip s) = rstrip s.
Proof. unfold rstrip. now rewrite rev_involutive, lstrip_idempotent. Qed.

Lemma lstrip_rstrip (t : str) : lstrip t = t -> lstrip (rstrip t) = rstrip t.
Proof.
  destruct t as [|c t]; [reflexivity|]. simpl.
  destruct (isspace c) eqn:E.
  - intros H. exfalso.
    assert (Hlen : length (lstrip t) <= length t).
    { clear. induction t as [|d t IH]; simpl; [lia|].
      destruct (isspace d); simpl; lia. }
    rewrite H in Hlen. simpl in Hlen. lia.
  - intros _. unfold rstrip. simpl rev.
    rewrite (lstrip_app_nonspace (rev t) [] c E), rev_app_distr. simpl.
    now rewrite E.
Qed.

(** [strip] is idempotent. *)
Lemma strip_idempotent (s : str) : strip (strip s) = strip s.
Proof.
  unfold strip. rewrite (lstrip_rstrip (lstrip s) (lstrip_idempotent s)).
  apply rstrip_idempotent.
Qed.

(** ** The section parser: what it keeps and what it ignores *)

Lemma forall_trimmed_snoc (P : section -> Prop) (l : list section) (s : section) :
  Forall P l -> P s -> Forall P (l ++ [s]).
Proof. intros Hl Hs. apply Forall_app. split; [exact Hl|now constructor]. Qed.

(** X3. Every section the parser returns has a trimmed title and a trimmed
    content: neither starts nor ends with whitespace. *)
Theorem X3_sections_are_trimmed (evs : list event) :
  Forall (fun s => strip (sec_title s) = sec_title s
                   /\ strip (sec_content s) = sec_content s)
    (parse_events evs).
Proof.
  set (P := fun s => strip (sec_title s) = sec_title s
                     /\ strip (sec_content s) = sec_content s).
  assert (Hsave : forall st,
             Forall P (sections st) ->
             (forall cs, current_section st = Some cs ->
                strip (sec_title cs) = sec_title cs) ->
             Forall P (save_section st)).
  { intros st Hs Hc. unfold save_section.
    destruct (current_section st) as [cs|]; [|exact Hs].
    apply forall_trimmed_snoc; [exact Hs|]. split; simpl.
    - now apply Hc.
    - apply strip_idempotent. }
  assert (Hrun : forall l st,
             Forall P (sections st) ->
             (forall cs, current_section st = Some cs ->
                strip (sec_title cs) = sec_title cs) ->
             Forall P (save_section (run l st))).
  { induction l as [|e l IH]; intros st Hs Hc; [now apply Hsave|].
    change (run (e :: l) st) with (run l (dispatch st e)).
    destruct e as [tag attrs|tag|data|]; simpl.
    - unfold handle_starttag. destruct (heading_rank tag); [|now apply IH].
      apply IH; simpl; [now apply Hsave|]. now intros cs [= <-].
    - unfold handle_endtag. destruct (heading_rank tag); now apply IH.
    - unfold handle_data. destruct (current_section st) as [cs|] eqn:E;
        [|apply IH; [exact Hs|now rewrite E]].
      destruct (in_section st).
      + apply IH; simpl; [exact Hs|]. intros cs' [= <-]. simpl.
        apply strip_idempotent.
      + destruct (strip data);
          (apply IH; simpl; [exact Hs|]; intros cs' Hcs'; apply Hc; congruence).
    - now apply IH. }
  apply (Hrun evs init); simpl; [constructor|discriminate].
Qed.

(** X30. Whatever callbacks the tokenizer delivers: N heading start tags
    of rank 1-4 yield exactly N sections, in the order of the callbacks,
    each with the identifier and the rank of its heading; the text
    delivered after the last heading element goes to the content of the
    last section and makes no section of its own; callbacks without a
    heading start tag yield no section. *)
Theorem X30_one_section_per_heading_tag :
  (forall evs,
      map (fun s => (sec_id s, sec_level s)) (parse_events evs) = headings evs)
  /\ (forall evs,
        length (parse_events evs) = length (filter is_heading_start evs))
  /\ (forall evs,
        Forall (fun s => (1 <= sec_level s <= 4)%Z) (parse_events evs))
  /\ (forall pre tag attrs rank inside tag' post,
        heading_rank tag = Some rank ->
        is_heading_end (EndTag tag') = true ->
        Forall (fun e => is_heading_start e = false
                         /\ is_heading_end e = false) inside ->
        Forall (fun e => is_heading_start e = false) post ->
        parse_events (pre ++ StartTag tag attrs :: inside
                          ++ EndTag tag' :: post)
        = parse_events pre
          ++ [mk_section (attrs_get_id attrs) rank (last_fragment inside)
                (strip (join (lit " ") (text_parts post)))])
  /\ (forall evs, headings evs = [] -> parse_events evs = []).
Proof.
  assert (H1 : forall evs,
             map (fun s => (sec_id s, sec_level s)) (parse_events evs)
             = headings evs).
  { intros evs. unfold parse_events, get_sections.
    fold (run evs init). now rewrite save_section_run. }
  repeat split.
  - exact H1.
  - intros evs. rewrite <- headings_length, <- H1. now rewrite length_map.
  - intros evs. pose proof (headings_ranks evs) as H. rewrite <- H1 in H.
    rewrite Forall_map in H. exact H.
  - intros pre tag attrs rank inside tag' post Hr He Hin Hpost.
    unfold parse_events, get_sections.
    fold (run pre init).
    fold (run (pre ++ StartTag tag attrs :: inside ++ EndTag tag' :: post) init).
    replace (pre ++ StartTag tag attrs :: inside ++ EndTag tag' :: post)
      with (pre ++ (StartTag tag attrs :: inside ++ [EndTag tag']) ++ post)
      by (simpl; now rewrite <- app_assoc).
    rewrite !run_app.
    rewrite (run_heading_element _ tag tag' attrs rank inside post Hr He Hin).
    erewrite run_after_heading; [|reflexivity|reflexivity|assumption].
    reflexivity.
  - intros evs H. specialize (H1 evs). rewrite H in H1.
    now apply map_eq_nil in H1.
Qed.

(** The theorem at a document of two headings with text after the last. *)
Lemma X30_trailing_content_witness :
  parse_events
    ([StartTag (lit "h1") [(lit "id", Some (lit "a"))]; Data (lit "One");
      EndTag (lit "h1"); Data (lit "first")]
     ++ StartTag (lit "h3") [(lit "id", Some (lit "b"))]
     :: [Data (lit " Two ")]
     ++ EndTag (lit "h3")
     :: [StartTag (lit "p") []; Data (lit " tail  "); EndTag (lit "p");
         Data (lit "  "); Data (lit "end")])
  = [ mk_section (Some (lit "a")) 1 (lit "One") (lit "first");
      mk_section (Some (lit "b")) 3 (lit "Two") (lit "tail end") ].
Proof.
  rewrite (proj1 (proj2 (proj2 (proj2 X30_one_section_per_heading_tag)))
             _ (lit "h3") _ 3%Z [Data (lit " Two ")] (lit "h3") _
             eq_refl eq_refl).
  - reflexivity.
  - repeat constructor.
  - repeat constructor.
Defined.

(** X4. A heading whose end tag does not come before the next heading
    starts or the callbacks end: every text fragment that is delivered in
    between overwrites its title, and its section is saved with the last
    of them as title and with an empty content. *)
Theorem X4_unclosed_heading_has_no_content
  (pre inside rest : list event) (tag : str) (attrs : list (str * option str))
  (rank : Z) :
  heading_rank tag = Some rank ->
  Forall (fun e => is_heading_start e = false /\ is_heading_end e = false)
         inside ->
  rest = [] \/ (exists e rest', rest = e :: rest' /\ is_heading_start e = true) ->
  exists later,
    parse_events (pre ++ StartTag tag attrs :: inside ++ rest)
    = parse_events pre
      ++ mk_section (attrs_get_id attrs) rank (last_fragment inside) []
      :: later
    /\ (rest = [] -> later = []).
Proof.
  intros Hr Hin Hrest. unfold parse_events, get_sections.
  fold (run pre init).
  fold (run (pre ++ StartTag tag attrs :: inside ++ rest) init).
  rewrite run_app.
  change (run (StartTag tag attrs :: inside ++ rest) (run pre init))
    with (run (inside ++ rest) (handle_starttag (run pre init) tag attrs)).
  rewrite run_app. unfold handle_starttag at 1. rewrite Hr.
  match goal with |- context [run inside ?s] =>
    rewrite (run_inside_heading inside s
               (mk_section (attrs_get_id attrs) rank [] [])
               eq_refl eq_refl Hin) end.
  cbn [sections current_content section_level sec_id sec_level sec_title
       sec_content].
  fold (last_fragment inside).
  destruct Hrest as [->|(e & rest' & -> & He)].
  - exists []. split; [reflexivity|reflexivity].
  - destruct e as [tag2 attrs2| | |]; try discriminate He.
    unfold is_heading_start, heading_start in He.
    destruct (heading_rank tag2) as [rank2|] eqn:Hr2; [|discriminate He].
    match goal with |- context [run (StartTag tag2 attrs2 :: rest') ?s] =>
      change (run (StartTag tag2 attrs2 :: rest') s)
        with (run rest' (handle_starttag s tag2 attrs2)) end.
    unfold handle_starttag. rewrite Hr2.
    match goal with |- context [run rest' ?s] =>
      destruct (sections_prefix rest' s) as [more ->] end.
    cbn [sections save_section current_section current_content join strip
         lstrip rstrip rev app].
    exists more. split; [|discriminate].
    rewrite <- app_assoc. reflexivity.
Qed.

Lemma X4_unclosed_heading_witness :
  exists later,
    parse_events
      ([] ++ StartTag (lit "h2") []
          :: [Data (lit "Title"); StartTag (lit "p") []; Data (lit "body text")]
          ++ [StartTag (lit "h3") []; Data (lit "Next"); EndTag (lit "h3")])
    = parse_events []
      ++ mk_section (Some []) 2 (lit "body text") [] :: later
    /\ ([StartTag (lit "h3") []; Data (lit "Next"); EndTag (lit "h3")] = [] ->
        later = []).
Proof.
  exact (X4_unclosed_heading_has_no_content []
           [Data (lit "Title"); StartTag (lit "p") []; Data (lit "body text")]
           [StartTag (lit "h3") []; Data (lit "Next"); EndTag (lit "h3")]
           (lit "h2") [] 2%Z eq_refl ltac:(repeat constructor)
           (or_intror (ex_intro _ _ (ex_intro _ _ (conj eq_refl eq_refl))))).
Defined.

(** ** The keyword normalizer: what every result satisfies *)

Lemma replace_space_no_space (s : str) :
  ~ In " "%char (replace_char " " (lit "%20") s).
Proof.
  induction s as [|c s IH]; [intros []|]. cbn [replace_char].
  destruct (c =? " ")%char eqn:E.
  - intros H. apply in_app_or in H as [H|H]; [|contradiction].
    simpl in H. repeat (destruct H as [H|H]; [discriminate H|]). exact H.
  - apply Ascii.eqb_neq in E. intros [H|H]; [congruence|contradiction].
Qed.

Lemma dict_get_none_keys {A : Type} (k : str) (d : dict A) :
  dict_get k d = None <-> ~ In k (map fst d).
Proof.
  induction d as [|[k' v] d IH]; simpl; [tauto|].
  destruct (str_eqb k' k) eqn:E.
  - apply str_eqb_eq in E. split; [discriminate|]. intros H. exfalso. auto.
  - apply str_eqb_neq in E. rewrite IH. tauto.
Qed.

Lemma dict_set_keys {A : Type} (k : str) (v : A) (d : dict A) :
  map fst (dict_set k v d)
  = match dict_get k d with
    | Some _ => map fst d
    | None => map fst d ++ [k]
    end.
Proof.
  induction d as [|[k' v'] d IH]; simpl; [reflexivity|].
  destruct (str_eqb k' k) eqn:E; simpl; [reflexivity|].
  rewrite IH. now destruct (dict_get k d).
Qed.

Lemma dict_set_nodup {A : Type} (k : str) (v : A) (d : dict A) :
  NoDup (map fst d) -> NoDup (map fst (dict_set k v d)).
Proof.
  intros H. rewrite dict_set_keys. destruct (dict_get k d) eqn:E; [exact H|].
  apply dict_get_none_keys in E.
  apply NoDup_app; [exact H|repeat constructor; intros []|].
  intros x Hx [<-|[]]. contradiction.
Qed.

Lemma dict_set_forall {A : Type} (P : str * A -> Prop) (k : str) (v : A)
  (d : dict A) :
  Forall P d -> P (k, v) -> Forall P (dict_set k v d).
Proof.
  intros Hd Hk. induction Hd as [|[k' v'] d Hx Hd IH]; simpl.
  - now constructor.
  - destruct (str_eqb k' k) eqn:E.
    + apply str_eqb_eq in E. subst k'. now constructor.
    + now constructor.
Qed.

(** What one entry does to the keywords, whatever its shape. *)
Lemma add_keyword_cases (library_name : str) (keywords keywords' : dict KeywordRecord)
  (kw_data : json) :
  add_keyword library_name keywords kw_data = Some keywords' ->
  keywords' = keywords
  \/ exists name r,
       keywords' = dict_set name r keywords /\ name <> []
       /\ kw_name r = name /\ kw_library r = library_name
       /\ kw_id r = replace_char " " (lit "%20") name.
Proof.
  unfold add_keyword.
  destruct (json_get kw_data (lit "name") (JStr [])) as [name|];
    [|discriminate].
  destruct (truthy name) eqn:Et; cbn [negb]; [|intros [= <-]; now left].
  destruct (args_str kw_data) as [args|]; [|discriminate].
  destruct (json_get kw_data (lit "shortdoc") (JStr [])) as [[| | | |doc| |]|];
    try discriminate.
  destruct name as [| | | |name| |]; try discriminate.
  destruct (json_get kw_data (lit "source") (JStr [])) as [source|];
    [|discriminate].
  destruct (json_get kw_data (lit "lineno") (JStr [])) as [lineno|];
    [|discriminate].
  intros [= <-]. right. eexists _, _. split; [reflexivity|].
  repeat split. destruct name; [discriminate|discriminate].
Qed.

(** X6. Whenever a library is parsed, the keywords it returns have
    distinct names, none of them empty; each record is stored under its own
    name, carries the library it was parsed for, and has an id without any
    space.  This holds for every decoded JSON value, whatever its shape. *)
Theorem X6_parsed_keywords_invariant
  (json_loads : str -> loads_result) (library_name html : str)
  (keywords : dict KeywordRecord) :
  parse_library_text json_loads library_name html = Ok keywords ->
  NoDup (map fst keywords)
  /\ Forall (fun kr => fst kr <> []
                       /\ kw_name (snd kr) = fst kr
                       /\ kw_library (snd kr) = library_name
                       /\ ~ In " "%char (kw_id (snd kr))) keywords.
Proof.
  set (P := fun kr : str * KeywordRecord =>
              fst kr <> [] /\ kw_name (snd kr) = fst kr
              /\ kw_library (snd kr) = library_name
              /\ ~ In " "%char (kw_id (snd kr))).
  assert (Hloop : forall kws acc acc',
             add_keywords library_name acc kws = Some acc' ->
             NoDup (map fst acc) /\ Forall P acc ->
             NoDup (map fst acc') /\ Forall P acc').
  { induction kws as [|kw kws IH]; intros acc acc' H Hacc.
    - simpl in H. now injection H as <-.
    - cbn [add_keywords] in H.
      destruct (add_keyword library_name acc kw) as [acc1|] eqn:E;
        [|discriminate].
      apply (IH acc1 acc' H).
      apply add_keyword_cases in E
        as [->|(name & r & -> & Hn & Hr & Hl & Hi)]; [exact Hacc|].
      destruct Hacc as [Hnd Hall]. split.
      + now apply dict_set_nodup.
      + apply dict_set_forall; [exact Hall|].
        unfold P. simpl. rewrite Hi. repeat split; auto.
        apply replace_space_no_space. }
  unfold parse_library_text.
  destruct (extract_libdoc_json html) as [js|e]; [|discriminate].
  destruct (json_loads js) as [data| |]; [|discriminate|discriminate].
  unfold normalize_keywords.
  destruct (json_get data (lit "keywords") (JList [])) as [kws|];
    [|discriminate].
  destruct (json_iter kws) as [items|]; [|discriminate].
  destruct (add_keywords library_name [] items) as [acc'|] eqn:E;
    [|discriminate].
  intros [= <-]. apply (Hloop items [] acc' E). split; constructor.
Qed.

Lemma X6_parsed_keywords_witness :
  NoDup
    (map fst
       [ (lit "Should Be",
          mk_keyword (lit "Should Be") (lit "Should%20Be")
            (lit "first, second=None") (lit "Foo Bar should be x")
            (lit "BuiltIn") (JStr []) (JInt 7)) ]).
Proof.
  exact (proj1 (X6_parsed_keywords_invariant
                  (fun _ => Loaded (JDict example_libdoc))
                  (lit "BuiltIn") (lit "libdoc = {}") _ eq_refl)).
Defined.

(** ** The keyword normalizer: the removal of tags is complete *)

Lemma tag_rest_no_close (s : str) : ~ In ">"%char s -> tag_rest s = None.
Proof.
  induction s as [|c s IH]; [reflexivity|]. intros Hin. cbn [tag_rest].
  destruct (c =? ">")%char; [reflexivity|].
  destruct s as [|d s]; [reflexivity|].
  assert (Hd : (d =? ">")%char = false).
  { apply Ascii.eqb_neq. intros ->. apply Hin. right. now left. }
  rewrite Hd, IH; [reflexivity|]. intros H. apply Hin. now right.
Qed.

Lemma tag_rest_none (s : str) :
  tag_rest s = None ->
  s = [] \/ (exists r, s = ">"%char :: r) \/ ~ In ">"%char s.
Proof.
  induction s as [|c s IH]; [now left|]. cbn [tag_rest].
  destruct (c =? ">")%char eqn:Ec.
  - apply Ascii.eqb_eq in Ec. subst c. intros _. right. left. now exists s.
  - apply Ascii.eqb_neq in Ec. destruct s as [|d s].
    + intros _. right. right. intros [H|[]]. congruence.
    + destruct (d =? ">")%char eqn:Ed; [discriminate|].
      destruct (tag_rest (d :: s)) eqn:Et; [discriminate|]. intros _.
      destruct (IH eq_refl) as [H|[(r & H)|H]]; [discriminate| |].
      * injection H as -> _. rewrite Ascii.eqb_refl in Ed. discriminate.
      * right. right. intros [Hc|Hc]; [congruence|contradiction].
Qed.

Lemma sub_tags_in (s : str) :
  forall skip c, In c (sub_tags skip s) -> In c s.
Proof.
  induction s as [|d s IH]; intros skip c; [intros []|]. cbn [sub_tags].
  destruct skip as [|k]; [|intros H; right; eapply IH; eauto].
  destruct (d =? "<")%char.
  - destruct (tag_rest s).
    + intros H. right. eapply IH; eauto.
    + intros [H|H]; [now left|right; eapply IH; eauto].
  - intros [H|H]; [now left|right; eapply IH; eauto].
Qed.

Lemma tag_rest_sub_tags (s : str) :
  tag_rest s = None -> tag_rest (sub_tags 0 s) = None.
Proof.
  intros H. apply tag_rest_none in H as [->|[(r & ->)|H]].
  - reflexivity.
  - reflexivity.
  - apply tag_rest_no_close. intros Hin. apply H.
    eapply sub_tags_in; eauto.
Qed.

(** X7. The removal of tags is complete: in its result no tag is left to
    remove, so removing tags again changes nothing. *)
Theorem X7_tag_removal_is_idempotent (s : str) :
  sub_tags 0 (sub_tags 0 s) = sub_tags 0 s.
Proof.
  assert (H : forall s skip, sub_tags 0 (sub_tags skip s) = sub_tags skip s).
  { clear s. induction s as [|c s IH]; intros skip; [reflexivity|].
    cbn [sub_tags]. destruct skip as [|k]; [|apply IH].
    destruct (c =? "<")%char eqn:Ec.
    - destruct (tag_rest s) as [n|] eqn:Et; [apply IH|].
      cbn [sub_tags]. rewrite Ec, (tag_rest_sub_tags s Et). now rewrite IH.
    - cbn [sub_tags]. rewrite Ec. now rewrite IH. }
  apply H.
Qed.

(** ** The search engine: bounds *)

Lemma slice_to_length {A : Type} (n : Z) (l : list A) :
  length (slice_to n l)
  = if (0 <=? n)%Z then Nat.min (Z.to_nat n) (length l)
    else length l - Z.to_nat (- n).
Proof.
  unfold slice_to. destruct (0 <=? n)%Z; rewrite length_firstn; lia.
Qed.

Lemma matches_length_le (query_lower : str) (sections : list section) :
  length (matches query_lower sections) <= length sections.
Proof.
  induction sections as [|s sections IH]; simpl; [lia|].
  destruct (score query_lower s); simpl; lia.
Qed.

(** X9. The number of results: [total_matches] never exceeds the number of
    sections; a cap that is not negative returns the first [max_results]
    matches, or all of them when there are fewer; a negative cap does not
    return nothing, it drops that many matches from the end of the ranked
    list. *)
Theorem X9_search_result_count
  (sections : list section) (query : str) (max_results : Z) :
  let resp := search_rf_documentation sections query max_results in
  total_matches resp <= length sections
  /\ length (results resp)
     = (if (0 <=? max_results)%Z
        then Nat.min (Z.to_nat max_results) (total_matches resp)
        else total_matches resp - Z.to_nat (- max_results))
  /\ exists dropped,
       sort_by_relevance (matches (lower query) sections)
       = results resp ++ dropped.
Proof.
  cbv zeta. unfold search_rf_documentation. cbn [results total_matches].
  split; [|split].
  - rewrite (Permutation_length (sort_by_relevance_perm _)).
    apply matches_length_le.
  - apply slice_to_length.
  - apply slice_to_prefix.
Qed.

(** X10. Every result has a relevance of at least 1, and its preview is
    the first 300 characters of the content of its section followed by
    three dots, also when the content is shorter: at most 303 characters. *)
Theorem X10_search_hit_fields
  (sections : list section) (query : str) (max_results : Z)
  (hit : search_hit) :
  In hit (results (search_rf_documentation sections query max_results)) ->
  1 <= relevance hit
  /\ length (content_preview hit) <= 303
  /\ exists s, In s sections
       /\ content_preview hit = firstn 300 (sec_content s) ++ lit "..."
       /\ url hit = RF_DOCS_URL ++ lit "#" ++ format_id (sec_id s).
Proof.
  unfold search_rf_documentation. cbn [results]. intros Hin.
  assert (Hf : In hit (matches (lower query) sections)).
  { destruct (slice_to_prefix max_results
                (sort_by_relevance (matches (lower query) sections)))
      as [rest Hr].
    apply (Permutation_in (l := sort_by_relevance
                                  (matches (lower query) sections)));
      [apply sort_by_relevance_perm|].
    rewrite Hr. apply in_or_app. now left. }
  apply in_matches in Hf as (s & Hs & Hsc). unfold score in Hsc.
  destruct ((0 <? count (lower (sec_title s)) (lower query))
            || (0 <? count (lower (sec_content s)) (lower query))) eqn:E;
    [|discriminate].
  match type of Hsc with Some ?h = _ => set (h0 := h) in * end.
  injection Hsc as <-. subst h0. cbn [relevance content_preview url].
  split; [|split].
  - apply orb_true_iff in E as [E|E]; apply Nat.ltb_lt in E; lia.
  - rewrite length_app, length_firstn.
    change (length (lit "...")) with 3. lia.
  - exists s. auto.
Qed.

Lemma X10_search_hit_witness :
  In run_keyword_hit
    (results (search_rf_documentation run_keyword_sections (lit "run") 10))
  /\ 1 <= relevance run_keyword_hit
  /\ length (content_preview run_keyword_hit) <= 303.
Proof.
  assert (H : In run_keyword_hit
                (results (search_rf_documentation run_keyword_sections
                            (lit "run") 10))) by (left; reflexivity).
  split; [exact H|].
  destruct (X10_search_hit_fields run_keyword_sections (lit "run") 10
              run_keyword_hit H) as (H1 & H2 & _).
  split; [exact H1|exact H2].
Defined.

(** ** The keyword lookup restricted to a library *)

(** X13. A lookup restricted to a library: when the library is not in the
    index the answer is "library not found" with the names of the indexed
    libraries; otherwise only the keywords of that library are searched: a
    keyword that is found belongs to it, and a name that no key of that
    library matches is not found even when another library has it.  An
    empty library name restricts nothing. *)
Theorem X13_lookup_in_one_library
  (all_libraries : dict (dict KeywordRecord)) (keyword_name : str)
  (c : ascii) (n : str) :
  let library_name := c :: n in
  let answer :=
    get_keyword_documentation all_libraries keyword_name (Some library_name) in
  (dict_get library_name all_libraries = None ->
   answer = LibraryNotFound (map fst all_libraries))
  /\ (forall keywords,
        dict_get library_name all_libraries = Some keywords ->
        (no_match (normalize_name keyword_name) keywords ->
         answer = KeywordNotFound keyword_name)
        /\ (forall k lib arguments documentation url,
              answer = KeywordFound k lib arguments documentation url ->
              lib = library_name
              /\ normalize_name k = normalize_name keyword_name
              /\ exists v, In (k, v) keywords))
  /\ get_keyword_documentation all_libraries keyword_name (Some [])
     = get_keyword_documentation all_libraries keyword_name None.
Proof.
  cbv zeta. unfold get_keyword_documentation. split; [|split].
  - now intros ->.
  - intros keywords ->. cbn [find_in_libraries]. split.
    + intros Hno. apply (find_in_library_none (c :: n)) in Hno.
      now rewrite Hno.
    + intros k lib a d u.
      destruct (find_in_library (c :: n) keywords
                  (normalize_name keyword_name)) as [r|] eqn:E;
        [|discriminate].
      apply find_in_library_some in E
        as (pre & k' & v & post & -> & _ & Hk & ->).
      unfold found_response. intros [= <- <- <- <- <-].
      repeat split; auto. exists v. apply in_or_app. right. now left.
  - reflexivity.
Qed.

(** ** The refresh cycle: the cache it leaves *)

Lemma flat_map_ext_on {A B : Type} (f g : A -> list B) (l : list A) :
  (forall a, In a l -> f a = g a) -> flat_map f l = flat_map g l.
Proof.
  induction l as [|a l IH]; intros H; [reflexivity|]. simpl.
  rewrite (H a (or_introl eq_refl)), IH; [reflexivity|].
  intros b Hb. apply H. now right.
Qed.

Section RefreshCache.

Variable CACHE_DIR : str.
Variable urlopen : str -> option str.
Variable feed : str -> option (list event).
Variable json_loads : str -> loads_result.
Variable force_refresh : bool.

Local Abbreviation after := (file_after urlopen force_refresh).
Local Abbreviation fetched := (downloaded_now urlopen force_refresh).
Local Abbreviation step :=
  (process_library CACHE_DIR urlopen json_loads force_refresh).

Lemma library_text_file_after (files : str -> option str) (lib : str) :
  library_text CACHE_DIR urlopen force_refresh files lib
  = after files (library_file CACHE_DIR lib) (library_url lib).
Proof. reflexivity. Qed.

Lemma file_after_ext (files files' : str -> option str) (path url : str) :
  files' path = files path ->
  after files' path url = after files path url
  /\ fetched files' path url = fetched files path url.
Proof. unfold file_after, downloaded_now. now intros ->. Qed.

(** One turn of the loop: the files and the list of downloads. *)
Lemma process_library_files (st : loop_state) (lib : str) :
  let files := html_files (l_cache st) in
  let path := library_file CACHE_DIR lib in
  html_files (l_cache (step st lib)) path = after files path (library_url lib)
  /\ (forall p, p <> path -> html_files (l_cache (step st lib)) p = files p)
  /\ l_files_downloaded (step st lib)
     = l_files_downloaded st
       ++ (if fetched files path (library_url lib)
           then [lib ++ lit ".html"] else []).
Proof.
  cbv zeta.
  unfold process_library, file_after, downloaded_now, _download_file,
    _parse_library_keywords, library_url.
  assert (Hsame : forall files path content,
             write_file files path content path = Some content).
  { intros. unfold write_file. now rewrite str_eqb_refl. }
  assert (Hother : forall files path content p, p <> path ->
             write_file files path content p = files p).
  { intros files path content p Hp. unfold write_file.
    apply str_eqb_neq in Hp. now rewrite Hp. }
  destruct (html_files (l_cache st) (library_file CACHE_DIR lib))
    as [cached|] eqn:Ec;
    destruct force_refresh; cbn [orb andb];
    try destruct (urlopen (RF_BASE_LIB_URL ++ lit "/" ++ lib ++ lit ".html"))
      as [content|] eqn:Eu;
    cbn [html_files l_cache]; rewrite ?Hsame, ?Ec; cbn [option_map];
    try match goal with
        | |- context [parse_library_text ?j ?l ?h] =>
            destruct (parse_library_text j l h) as [kws|e]
        end;
    cbn [l_files_downloaded l_cache html_files];
    rewrite ?Hsame, ?app_nil_r; repeat split; auto.
Qed.

(** The loop: the files and the list of downloads. *)
Lemma process_libraries_files (libs : list str) :
  forall st,
    NoDup libs ->
    let files := html_files (l_cache st) in
    let st' := fold_left step libs st in
    (forall lib, In lib libs ->
       html_files (l_cache st') (library_file CACHE_DIR lib)
       = after files (library_file CACHE_DIR lib) (library_url lib))
    /\ (forall p, (forall lib, In lib libs -> p <> library_file CACHE_DIR lib) ->
          html_files (l_cache st') p = files p)
    /\ l_files_downloaded st'
       = l_files_downloaded st
         ++ flat_map (fun lib =>
                        if fetched files (library_file CACHE_DIR lib)
                             (library_url lib)
                        then [lib ++ lit ".html"] else []) libs.
Proof.
  induction libs as [|lib libs IH]; intros st Hnd; cbv zeta.
  - simpl. rewrite app_nil_r. repeat split; auto. intros lib [].
  - inversion Hnd as [|? ? Hnotin Hnd']; subst. cbn [fold_left].
    destruct (process_library_files st lib) as (Hp & Ho & Hd).
    destruct (IH (step st lib) Hnd') as (Ia & Ib & Id).
    assert (Hneq : forall other, In other libs ->
               library_file CACHE_DIR other <> library_file CACHE_DIR lib).
    { intros other Hin E.
      apply (library_file_inj CACHE_DIR) in E. subst. contradiction. }
    split; [|split].
    + intros l [<-|Hin].
      * rewrite Ib; [exact Hp|]. intros other Hin E.
        now apply (Hneq other Hin).
      * rewrite (Ia l Hin).
        apply file_after_ext, Ho. now apply Hneq.
    + intros p Hp'. rewrite Ib.
      * apply Ho. apply Hp'. now left.
      * intros l Hin. apply Hp'. now right.
    + rewrite Id, Hd, <- app_assoc. f_equal. cbn [flat_map]. f_equal.
      apply flat_map_ext_on. intros l Hin.
      destruct (file_after_ext (html_files (l_cache st))
                  (html_files (l_cache (step st lib)))
                  (library_file CACHE_DIR l) (library_url l)) as [_ ->];
        [|reflexivity].
      apply Ho. now apply Hneq.
Qed.

(** The whole cycle: the files, the section index and the list of
    downloads it leaves. *)
Lemma fetch_libraries_files (libs : list str) (c : cache) :
  NoDup libs -> ~ In (lit "RobotFrameworkUserGuide") libs ->
  let r := fst (fetch_libraries CACHE_DIR urlopen feed json_loads libs
                  force_refresh c) in
  let c' := snd (fetch_libraries CACHE_DIR urlopen feed json_loads libs
                   force_refresh c) in
  let files := html_files c in
  let docs := after files (DOCS_FILE CACHE_DIR) RF_DOCS_URL in
  html_files c' (DOCS_FILE CACHE_DIR) = docs
  /\ (forall lib, In lib libs ->
        html_files c' (library_file CACHE_DIR lib)
        = after files (library_file CACHE_DIR lib) (library_url lib))
  /\ (forall p, p <> DOCS_FILE CACHE_DIR ->
        (forall lib, In lib libs -> p <> library_file CACHE_DIR lib) ->
        html_files c' p = files p)
  /\ docs_index c'
     = match docs with
       | Some text =>
           match feed text with
           | Some callbacks => Some (parse_events callbacks)
           | None => docs_index c
           end
       | None => docs_index c
       end
  /\ indexing r
     = match docs with
       | Some text =>
           Some (match feed text with Some _ => true | None => false end)
       | None => None
       end
  /\ files_downloaded r
     = (if fetched files (DOCS_FILE CACHE_DIR) RF_DOCS_URL
        then [lit "RobotFrameworkUserGuide.html"] else [])
       ++ flat_map (fun lib =>
                      if fetched files (library_file CACHE_DIR lib)
                           (library_url lib)
                      then [lib ++ lit ".html"] else []) libs.
Proof.
  intros Hnd Hnot. cbv zeta.
  assert (Hdocs : forall lib, In lib libs ->
             library_file CACHE_DIR lib <> DOCS_FILE CACHE_DIR).
  { intros lib Hin E. rewrite docs_file_is_library_file in E.
    apply library_file_inj in E. subst lib. contradiction. }
  assert (Hloop : forall c1 downloaded,
             (forall p, p <> DOCS_FILE CACHE_DIR ->
                html_files c1 p = html_files c p) ->
             let st := fold_left step libs (mk_loop c1 downloaded [] [] 0) in
             html_files (l_cache st) (DOCS_FILE CACHE_DIR)
             = html_files c1 (DOCS_FILE CACHE_DIR)
             /\ (forall lib, In lib libs ->
                   html_files (l_cache st) (library_file CACHE_DIR lib)
                   = after (html_files c) (library_file CACHE_DIR lib)
                       (library_url lib))
             /\ (forall p, p <> DOCS_FILE CACHE_DIR ->
                   (forall lib, In lib libs ->
                      p <> library_file CACHE_DIR lib) ->
                   html_files (l_cache st) p = html_files c p)
             /\ docs_index (l_cache st) = docs_index c1
             /\ l_files_downloaded st
                = downloaded
                  ++ flat_map (fun lib =>
                                 if fetched (html_files c)
                                      (library_file CACHE_DIR lib)
                                      (library_url lib)
                                 then [lib ++ lit ".html"] else []) libs).
  { intros c1 downloaded Hc1. cbv zeta.
    destruct (process_libraries_files libs (mk_loop c1 downloaded [] [] 0) Hnd)
      as (Ha & Hb & Hd).
    destruct (process_libraries CACHE_DIR urlopen json_loads force_refresh
                libs (mk_loop c1 downloaded [] [] 0) Hnd)
      as (_ & _ & _ & Hi & _).
    { intros lib _. split; reflexivity. }
    cbn [l_cache l_files_downloaded] in *.
    split; [|split; [|split; [|split]]].
    - apply Hb. intros lib Hin E. symmetry in E. now apply (Hdocs lib Hin).
    - intros lib Hin. rewrite (Ha lib Hin).
      apply file_after_ext, Hc1. now apply Hdocs.
    - intros p Hp Hl. rewrite (Hb p Hl). now apply Hc1.
    - exact Hi.
    - rewrite Hd. f_equal. apply flat_map_ext_on. intros lib Hin.
      destruct (file_after_ext (html_files c) (html_files c1)
                  (library_file CACHE_DIR lib) (library_url lib)) as [_ ->];
        [|reflexivity].
      apply Hc1. now apply Hdocs. }
  assert (Hsame : forall files path content,
             write_file files path content path = Some content).
  { intros. unfold write_file. now rewrite str_eqb_refl. }
  assert (Hother : forall files path content p, p <> path ->
             write_file files path content p = files p).
  { intros files path content p Hp. unfold write_file.
    apply str_eqb_neq in Hp. now rewrite Hp. }
  unfold fetch_libraries, file_after, downloaded_now, _download_file,
    _parse_documentation.
  destruct (force_refresh
            || match html_files c (DOCS_FILE CACHE_DIR) with
               | Some _ => false | None => true end) eqn:Ec;
    cbn [andb];
    [destruct (urlopen RF_DOCS_URL) as [content|] eqn:Eu|];
    cbn [html_files docs_index keywords_snapshot];
    rewrite ?Hsame;
    try (destruct (html_files c (DOCS_FILE CACHE_DIR)) as [cached|] eqn:Ed);
    cbn [html_files docs_index keywords_snapshot];
    try match goal with
        | |- context [feed ?text] => destruct (feed text)
        end;
    cbn [html_files docs_index keywords_snapshot];
    match goal with
    | |- context [fold_left _ libs (mk_loop ?c1 ?d [] [] 0)] =>
        destruct (Hloop c1 d) as (H1 & H2 & H3 & H4 & H5);
          [cbn [html_files]; intros p Hp;
           first [reflexivity | now apply Hother]
          |]
    end;
    cbv zeta in H1, H2, H3, H4, H5;
    cbn [html_files docs_index] in H1, H4;
    rewrite ?Hsame, ?Ed in H1;
    match goal with
    | |- context [l_all_keywords ?st] => destruct (l_all_keywords st)
    end;
    cbn [fst snd html_files docs_index indexing files_downloaded];
    rewrite ?H1, ?H4, ?H5; repeat split; auto.
Qed.

End RefreshCache.

Lemma standard_library_path (CACHE_DIR p : str) :
  (exists lib, In lib STANDARD_LIBRARIES /\ p = library_file CACHE_DIR lib)
  \/ (forall lib, In lib STANDARD_LIBRARIES -> p <> library_file CACHE_DIR lib).
Proof.
  destruct (existsb (fun lib => str_eqb p (library_file CACHE_DIR lib))
              STANDARD_LIBRARIES) eqn:E.
  - left. apply existsb_exists in E as (lib & Hin & Hp).
    exists lib. split; [exact Hin|]. now apply str_eqb_eq.
  - right. intros lib Hin Hp.
    assert (H : existsb (fun lib => str_eqb p (library_file CACHE_DIR lib))
                  STANDARD_LIBRARIES = true).
    { apply existsb_exists. exists lib. split; [exact Hin|].
      now apply str_eqb_eq. }
    congruence.
Qed.

(** X16. A refresh that is not forced never replaces a cached HTML file:
    whatever file is in the cache before is there, unchanged, afterwards. *)
Theorem X16_unforced_refresh_keeps_cached_files
  (CACHE_DIR : str) (urlopen : str -> option str)
  (feed : str -> option (list event))
  (json_loads : str -> loads_result) (c : cache) (p content : str) :
  html_files c p = Some content ->
  html_files
    (snd (fetch_rf_documentation CACHE_DIR urlopen feed json_loads false c)) p
  = Some content.
Proof.
  intros Hp. unfold fetch_rf_documentation.
  destruct standard_libraries_distinct as [Hnd Hnot].
  destruct (fetch_libraries_files CACHE_DIR urlopen feed json_loads false
              STANDARD_LIBRARIES c Hnd Hnot) as (Hd & Hl & Ho & _).
  destruct (str_eqb p (DOCS_FILE CACHE_DIR)) eqn:E.
  - apply str_eqb_eq in E. subst p. rewrite Hd.
    unfold file_after. now rewrite Hp.
  - apply str_eqb_neq in E.
    destruct (standard_library_path CACHE_DIR p) as [(lib & Hin & ->)|Hno].
    + rewrite (Hl lib Hin). unfold file_after. now rewrite Hp.
    + now rewrite (Ho p E Hno).
Qed.

Lemma X16_unforced_refresh_witness :
  html_files
    (snd (fetch_rf_documentation (lit "/cache") example_urlopen (fun _ => Some [])
            example_json_loads false
            (mk_cache (fun p => if str_eqb p (lit "/cache/XML_7.4.1.html")
                                then Some (lit "old") else None)
               None None)))
    (lit "/cache/XML_7.4.1.html")
  = Some (lit "old").
Proof.
  exact (X16_unforced_refresh_keeps_cached_files (lit "/cache") example_urlopen
           (fun _ => Some []) example_json_loads
           (mk_cache (fun p => if str_eqb p (lit "/cache/XML_7.4.1.html")
                               then Some (lit "old") else None)
              None None)
           (lit "/cache/XML_7.4.1.html") (lit "old") eq_refl).
Defined.

(** X18. The list of downloads of a refresh names, the user guide first and
    then the libraries in their order, exactly the documents whose download
    was asked for (the refresh is forced or the file is missing) and was
    served.  The indexing is attempted whenever the file of the user guide
    is there after the download step, downloaded or not: when the file is
    read, tokenized and the index written, the section index is rebuilt
    from the callbacks and the indexing is reported as a success; when
    that raises, the indexing is reported as failed and the section index
    stays as it was.  The libraries that follow change neither. *)
Theorem X18_refresh_downloads_and_index
  (CACHE_DIR : str) (urlopen : str -> option str)
  (feed : str -> option (list event))
  (json_loads : str -> loads_result) (force_refresh : bool) (c : cache) :
  let r := fst (fetch_rf_documentation CACHE_DIR urlopen feed json_loads
                  force_refresh c) in
  let c' := snd (fetch_rf_documentation CACHE_DIR urlopen feed json_loads
                   force_refresh c) in
  let docs := file_after urlopen force_refresh (html_files c)
                (DOCS_FILE CACHE_DIR) RF_DOCS_URL in
  files_downloaded r
  = (if downloaded_now urlopen force_refresh (html_files c)
          (DOCS_FILE CACHE_DIR) RF_DOCS_URL
     then [lit "RobotFrameworkUserGuide.html"] else [])
    ++ flat_map (fun lib =>
                   if downloaded_now urlopen force_refresh (html_files c)
                        (library_file CACHE_DIR lib) (library_url lib)
                   then [lib ++ lit ".html"] else []) STANDARD_LIBRARIES
  /\ html_files c' (DOCS_FILE CACHE_DIR) = docs
  /\ docs_index c'
     = match docs with
       | Some text =>
           match feed text with
           | Some callbacks => Some (parse_events callbacks)
           | None => docs_index c
           end
       | None => docs_index c
       end
  /\ indexing r
     = match docs with
       | Some text =>
           Some (match feed text with Some _ => true | None => false end)
       | None => None
       end.
Proof.
  cbv zeta. unfold fetch_rf_documentation.
  destruct standard_libraries_distinct as [Hnd Hnot].
  destruct (fetch_libraries_files CACHE_DIR urlopen feed json_loads
              force_refresh STANDARD_LIBRARIES c Hnd Hnot)
    as (Hd & _ & _ & Hi & Hx & Hf).
  auto.
Qed.

Lemma parse_cached_library (CACHE_DIR : str) (urlopen : str -> option str)
  (json_loads : str -> loads_result) (force : bool) (c c' : cache) (lib : str) :
  html_files c' (library_file CACHE_DIR lib)
  = file_after urlopen force (html_files c) (library_file CACHE_DIR lib)
      (library_url lib) ->
  _parse_library_keywords CACHE_DIR json_loads lib c'
  = library_outcome CACHE_DIR urlopen json_loads force (html_files c) lib.
Proof.
  intros H. unfold _parse_library_keywords, library_outcome.
  rewrite H, library_text_file_after.
  now destruct (file_after urlopen force (html_files c)
                  (library_file CACHE_DIR lib) (library_url lib)).
Qed.

(** X19. What a refresh reports for a standard library is what its cached
    file gives when it is parsed afterwards: the entry of the per-library
    map is the status of [_parse_library_keywords] on the cache the
    refresh leaves (no entry when there is no file). *)
Theorem X19_refresh_report_agrees_with_cache
  (CACHE_DIR : str) (urlopen : str -> option str)
  (feed : str -> option (list event))
  (json_loads : str -> loads_result) (force_refresh : bool) (c : cache)
  (lib : str) :
  In lib STANDARD_LIBRARIES ->
  let r := fst (fetch_rf_documentation CACHE_DIR urlopen feed json_loads
                  force_refresh c) in
  let c' := snd (fetch_rf_documentation CACHE_DIR urlopen feed json_loads
                   force_refresh c) in
  dict_get lib (libraries r)
  = match _parse_library_keywords CACHE_DIR json_loads lib c' with
    | None => None
    | Some (Ok keywords) => Some (mk_status true (length keywords))
    | Some (Err _) => Some (mk_status false 0)
    end.
Proof.
  intros Hin. cbv zeta. unfold fetch_rf_documentation.
  destruct standard_libraries_distinct as [Hnd Hnot].
  destruct (fetch_libraries_files CACHE_DIR urlopen feed json_loads
              force_refresh STANDARD_LIBRARIES c Hnd Hnot) as (_ & Hl & _).
  pose proof (fetch_libraries_spec CACHE_DIR urlopen feed json_loads
                force_refresh STANDARD_LIBRARIES c Hnd Hnot) as Hs.
  cbv zeta in Hs. destruct Hs as (Hs & _).
  rewrite Hs, (dict_get_outcomes CACHE_DIR urlopen json_loads force_refresh
                 status_of), (existsb_str_eqb lib _ Hin).
  rewrite (parse_cached_library CACHE_DIR urlopen json_loads force_refresh c
             _ lib (Hl lib Hin)).
  reflexivity.
Qed.

Lemma X19_refresh_report_witness :
  dict_get (lit "Collections") (libraries (fst example_refresh))
  = match _parse_library_keywords (lit "/tmp/rf_docs_cache")
            example_json_loads (lit "Collections") (snd example_refresh) with
    | None => None
    | Some (Ok keywords) => Some (mk_status true (length keywords))
    | Some (Err _) => Some (mk_status false 0)
    end.
Proof.
  exact (X19_refresh_report_agrees_with_cache (lit "/tmp/rf_docs_cache")
           example_urlopen (fun _ => Some []) example_json_loads false empty_cache
           (lit "Collections")
           ltac:(right; left; reflexivity)).
Defined.

(** * The keyword listings *)

Lemma str_leb_refl (a : str) : str_leb a a = true.
Proof.
  induction a as [|x a IH]; [reflexivity|]. simpl.
  now rewrite Nat.ltb_irrefl.
Qed.

Lemma str_leb_total (a b : str) : str_leb a b = false -> str_leb b a = true.
Proof.
  revert b. induction a as [|x a IH]; intros [|y b]; simpl; try discriminate.
  - reflexivity.
  - destruct (nat_of_ascii x <? nat_of_ascii y) eqn:E1; [discriminate|].
    destruct (nat_of_ascii y <? nat_of_ascii x) eqn:E2; [reflexivity|].
    apply IH.
Qed.

Lemma str_leb_trans (a b c : str) :
  str_leb a b = true -> str_leb b c = true -> str_leb a c = true.
Proof.
  revert b c. induction a as [|x a IH]; intros [|y b] [|z c]; simpl;
    try discriminate; try reflexivity.
  destruct (Nat.ltb_spec (nat_of_ascii x) (nat_of_ascii y));
    destruct (Nat.ltb_spec (nat_of_ascii y) (nat_of_ascii x));
    destruct (Nat.ltb_spec (nat_of_ascii y) (nat_of_ascii z));
    destruct (Nat.ltb_spec (nat_of_ascii z) (nat_of_ascii y));
    destruct (Nat.ltb_spec (nat_of_ascii x) (nat_of_ascii z));
    destruct (Nat.ltb_spec (nat_of_ascii z) (nat_of_ascii x));
    try discriminate; try reflexivity; try lia.
  apply IH.
Qed.

Lemma str_leb_antisym (a b : str) :
  str_leb a b = true -> str_leb b a = true -> a = b.
Proof.
  revert b. induction a as [|x a IH]; intros [|y b]; simpl;
    try discriminate; [reflexivity|].
  destruct (nat_of_ascii x <? nat_of_ascii y) eqn:E1;
    destruct (nat_of_ascii y <? nat_of_ascii x) eqn:E2;
    try discriminate.
  - apply Nat.ltb_lt in E1, E2. lia.
  - intros H1 H2. apply Nat.ltb_ge in E1, E2.
    assert (E : nat_of_ascii x = nat_of_ascii y) by lia.
    apply (f_equal ascii_of_nat) in E. rewrite !ascii_nat_embedding in E.
    subst y. f_equal. now apply IH.
Qed.

Lemma insert_item_perm {A : Type} (x : str * A) (l : list (str * A)) :
  Permutation (insert_item x l) (x :: l).
Proof.
  induction l as [|y l IH]; simpl; [reflexivity|].
  destruct (str_leb (fst x) (fst y)); [reflexivity|].
  rewrite IH. apply perm_swap.
Qed.

Lemma sorted_items_perm {A : Type} (d : dict A) :
  Permutation (sorted_items d) d.
Proof.
  induction d as [|x d IH]; simpl; [reflexivity|].
  rewrite insert_item_perm. now constructor.
Qed.

Lemma insert_item_sorted {A : Type} (x : str * A) (l : list (str * A)) :
  StronglySorted str_le (map fst l) ->
  StronglySorted str_le (map fst (insert_item x l)).
Proof.
  induction l as [|y l IH]; intros Hs; simpl.
  - constructor; constructor.
  - inversion Hs as [|? ? Hs' Hall]; subst.
    destruct (str_leb (fst x) (fst y)) eqn:E; simpl.
    + constructor; [exact Hs|]. constructor; [exact E|].
      eapply Forall_impl; [|exact Hall]. intros z Hz.
      unfold str_le in *. eapply str_leb_trans; eauto.
    + constructor; [now apply IH|].
      apply (Permutation_Forall
               (Permutation_sym
                  (Permutation_map fst (insert_item_perm x l)))).
      simpl. constructor; [|exact Hall].
      now apply str_leb_total.
Qed.

Lemma sorted_items_sorted {A : Type} (d : dict A) :
  StronglySorted str_le (map fst (sorted_items d)).
Proof.
  induction d as [|x d IH]; simpl; [constructor|].
  now apply insert_item_sorted.
Qed.

Lemma keyword_list_names (lib_name : str) (keywords : dict KeywordRecord) :
  map item_name (keyword_list lib_name keywords)
  = map fst (sorted_items keywords).
Proof. unfold keyword_list. rewrite map_map. reflexivity. Qed.

Lemma keyword_list_length (lib_name : str) (keywords : dict KeywordRecord) :
  length (keyword_list lib_name keywords) = length keywords.
Proof.
  unfold keyword_list. rewrite length_map.
  apply Permutation_length, sorted_items_perm.
Qed.

Lemma keyword_list_items (lib_name : str) (keywords : dict KeywordRecord)
  (i : keyword_item) :
  In i (keyword_list lib_name keywords) ->
  item_library i = lib_name
  /\ length (item_description i) <= 200
  /\ exists v, In (item_name i, v) keywords
       /\ item_args i = kw_args v
       /\ item_description i = firstn 200 (kw_doc v).
Proof.
  unfold keyword_list. intros H. apply in_map_iff in H as ([k v] & <- & H).
  cbn [item_library item_description item_name item_args fst snd]. split; [reflexivity|]. split; [apply firstn_le_length|].
  exists v. split; [|split; reflexivity].
  apply (Permutation_in _ (sorted_items_perm keywords) H).
Qed.

Lemma filter_keywords_names (search : str -> bool)
  (keywords : dict KeywordRecord) :
  map fst (filter_keywords search keywords) = filter search (map fst keywords).
Proof.
  induction keywords as [|[k v] l IH]; simpl; [reflexivity|].
  destruct (search k); simpl; now rewrite IH.
Qed.

Lemma filter_all {A : Type} (l : list A) : filter (fun _ => true) l = l.
Proof. induction l as [|a l IH]; simpl; [reflexivity|now rewrite IH]. Qed.

Lemma parse_library_text_keys_distinct
  (json_loads : str -> loads_result) (library_name html : str)
  (keywords : dict KeywordRecord) :
  parse_library_text json_loads library_name html = Ok keywords ->
  NoDup (map fst keywords).
Proof.
  assert (Hloop : forall kws acc acc',
             add_keywords library_name acc kws = Some acc' ->
             NoDup (map fst acc) -> NoDup (map fst acc')).
  { induction kws as [|kw kws IH]; intros acc acc' H Hacc.
    - simpl in H. now injection H as <-.
    - cbn [add_keywords] in H.
      destruct (add_keyword library_name acc kw) as [acc1|] eqn:E;
        [|discriminate].
      apply (IH acc1 acc' H).
      apply add_keyword_cases in E as [->|(name & r & -> & _)];
        [exact Hacc|].
      now apply dict_set_nodup. }
  unfold parse_library_text.
  destruct (extract_libdoc_json html) as [js|e]; [|discriminate].
  destruct (json_loads js) as [data| |]; [|discriminate|discriminate].
  unfold normalize_keywords.
  destruct (json_get data (lit "keywords") (JList [])) as [kws|];
    [|discriminate].
  destruct (json_iter kws) as [items|]; [|discriminate].
  destruct (add_keywords library_name [] items) as [acc'|] eqn:E;
    [|discriminate].
  intros [= <-]. apply (Hloop items [] acc' E). constructor.
Qed.

(** X20. A keyword listing of a library is only given for a standard
    library whose cached file parses.  It lists, sorted by name and each
    name once, exactly the parsed keywords whose name the pattern finds
    (all of them without a pattern or with an empty one); the count is the
    length of the list and every description is the first 200 characters
    of the keyword's documentation. *)
Theorem X20_library_listing
  (CACHE_DIR : str) (urlopen : str -> option str)
  (feed : str -> option (list event))
  (json_loads : str -> loads_result)
  (re_compile : str -> option (str -> bool))
  (library_name : str) (filter_pattern : option str) (c c' : cache)
  (lib : str) (total : nat) (items : list keyword_item) :
  get_library_keywords CACHE_DIR urlopen feed json_loads re_compile
    library_name filter_pattern c = (KeywordList lib total items, c') ->
  In library_name STANDARD_LIBRARIES /\ lib = library_name
  /\ total = length items
  /\ StronglySorted str_le (map item_name items)
  /\ NoDup (map item_name items)
  /\ exists keywords,
       _parse_library_keywords CACHE_DIR json_loads library_name c'
       = Some (Ok keywords)
       /\ Permutation (map item_name items)
            (filter (passes re_compile filter_pattern) (map fst keywords))
       /\ forall i, In i items ->
            item_library i = library_name
            /\ length (item_description i) <= 200
            /\ exists v, In (item_name i, v) keywords
                 /\ item_args i = kw_args v
                 /\ item_description i = firstn 200 (kw_doc v).
Proof.
  unfold get_library_keywords.
  destruct (existsb (str_eqb library_name) STANDARD_LIBRARIES) eqn:Estd;
    cbn [negb]; [|discriminate].
  assert (Hstd : In library_name STANDARD_LIBRARIES).
  { apply existsb_exists in Estd as (l & Hl & E).
    apply str_eqb_eq in E. now subst l. }
  match goal with
  | |- (let '(fetched, c0) := ?X in _) = _ -> _ =>
      destruct X as [fetched c1] end.
  destruct fetched; cbn [negb]; [|discriminate].
  destruct (_parse_library_keywords CACHE_DIR json_loads library_name c1)
    as [[keywords|e]|] eqn:Ep; try discriminate.
  assert (Hnd : NoDup (map fst keywords)).
  { unfold _parse_library_keywords in Ep.
    destruct (html_files c1 (library_file CACHE_DIR library_name));
      [|discriminate].
    injection Ep as Ep. now apply parse_library_text_keys_distinct in Ep. }
  assert (Hgen : forall kws,
             (exists f, kws = filter_keywords f keywords
                        /\ forall k, f k = passes re_compile filter_pattern k) ->
             (KeywordList library_name
                (length (keyword_list library_name kws))
                (keyword_list library_name kws), c1)
             = (KeywordList lib total items, c') ->
             In library_name STANDARD_LIBRARIES /\ lib = library_name
             /\ total = length items
             /\ StronglySorted str_le (map item_name items)
             /\ NoDup (map item_name items)
             /\ exists keywords,
                  _parse_library_keywords CACHE_DIR json_loads library_name c'
                  = Some (Ok keywords)
                  /\ Permutation (map item_name items)
                       (filter (passes re_compile filter_pattern)
                          (map fst keywords))
                  /\ forall i, In i items ->
                       item_library i = library_name
                       /\ length (item_description i) <= 200
                       /\ exists v, In (item_name i, v) keywords
                            /\ item_args i = kw_args v
                            /\ item_description i = firstn 200 (kw_doc v)).
  { intros kws (f & -> & Hf) [= <- <- <- <-].
    assert (Hnames : Permutation
                       (map item_name
                          (keyword_list library_name
                             (filter_keywords f keywords)))
                       (filter (passes re_compile filter_pattern)
                          (map fst keywords))).
    { rewrite keyword_list_names.
      rewrite (Permutation_map fst (sorted_items_perm _)).
      rewrite filter_keywords_names.
      rewrite (filter_ext _ _ Hf). reflexivity. }
    split; [exact Hstd|]. split; [reflexivity|]. split; [reflexivity|].
    split; [rewrite keyword_list_names; apply sorted_items_sorted|].
    split.
    { apply (Permutation_NoDup (Permutation_sym Hnames)).
      now apply NoDup_filter. }
    exists keywords. split; [exact Ep|]. split; [exact Hnames|].
    intros i Hi. apply keyword_list_items in Hi as (H1 & H2 & v & H3 & H4).
    split; [exact H1|]. split; [exact H2|]. exists v. split; [|exact H4].
    unfold filter_keywords in H3. now apply filter_In in H3. }
  destruct filter_pattern as [[|ch p]|].
  - apply Hgen. exists (fun _ => true). split; [|reflexivity].
    unfold filter_keywords. symmetry. apply filter_all.
  - cbn [passes] in *.
    destruct (re_compile (ch :: p)) as [search|]; [|discriminate].
    apply Hgen. exists search. split; reflexivity.
  - apply Hgen. exists (fun _ => true). split; [|reflexivity].
    unfold filter_keywords. symmetry. apply filter_all.
Qed.

Lemma X20_library_listing_witness :
  In (lit "BuiltIn") STANDARD_LIBRARIES
  /\ map item_name
       [mk_item (lit "Should Be") (lit "BuiltIn") (lit "first, second=None")
          (lit "Foo Bar should be x")]
     = [lit "Should Be"].
Proof.
  destruct (X20_library_listing (lit "/cache") (fun _ => None) (fun _ => Some [])
              (fun _ => Loaded (JDict example_libdoc)) (fun _ => None)
              (lit "BuiltIn") None
              (mk_cache (fun p => if str_eqb p (lit "/cache/BuiltIn_7.4.1.html")
                                  then Some (lit "libdoc = {}") else None)
                 None None)
              _ (lit "BuiltIn") 1
              [mk_item (lit "Should Be") (lit "BuiltIn")
                 (lit "first, second=None") (lit "Foo Bar should be x")]
              eq_refl) as (H1 & _).
  split; [exact H1|reflexivity].
Defined.

Lemma filtered_libraries_spec (search : str -> bool)
  (all_libraries : dict (dict KeywordRecord)) :
  filtered_libraries search all_libraries
  = map (fun lk => (fst lk, filter_keywords search (snd lk)))
      (filter (fun lk => existsb search (map fst (snd lk))) all_libraries).
Proof.
  induction all_libraries as [|[lib_name keywords] l IH]; [reflexivity|].
  cbn [filtered_libraries filter fst snd].
  assert (H : existsb search (map fst keywords)
              = match filter_keywords search keywords with
                | [] => false | _ :: _ => true end).
  { clear. induction keywords as [|[k v] kws IH]; [reflexivity|].
    simpl. destruct (search k); [reflexivity|exact IH]. }
  rewrite H. destruct (filter_keywords search keywords) eqn:E.
  - exact IH.
  - cbn [map fst snd]. rewrite E, IH. reflexivity.
Qed.

Lemma keyword_list_lists (re_compile : str -> option (str -> bool))
  (filter_pattern : option str) (f : str -> bool)
  (kept : dict (dict KeywordRecord)) :
  (forall k, f k = passes re_compile filter_pattern k) ->
  Forall2 (lists re_compile filter_pattern)
    (map (fun lk => (fst lk, keyword_list (fst lk) (snd lk)))
       (map (fun lk => (fst lk, filter_keywords f (snd lk))) kept))
    kept.
Proof.
  intros Hf. induction kept as [|[lib keywords] kept IH]; [constructor|].
  cbn [map fst snd]. constructor; [|exact IH].
  unfold lists. cbn [fst snd]. split; [reflexivity|].
  split; [rewrite keyword_list_names; apply sorted_items_sorted|].
  split.
  - rewrite keyword_list_names.
    rewrite (Permutation_map fst (sorted_items_perm _)).
    rewrite filter_keywords_names, (filter_ext _ _ Hf). reflexivity.
  - intros i Hi. apply keyword_list_items in Hi as (H1 & _ & v & H3 & H4).
    split; [exact H1|]. exists v. split; [|exact H4].
    unfold filter_keywords in H3. now apply filter_In in H3.
Qed.

Lemma map_filter_keywords_all (l : dict (dict KeywordRecord)) :
  map (fun lk => (fst lk, filter_keywords (fun _ => true) (snd lk))) l = l.
Proof.
  induction l as [|[lib keywords] l IH]; [reflexivity|].
  cbn [map fst snd]. unfold filter_keywords at 1. now rewrite filter_all, IH.
Qed.

(** X21. The listing of all keywords is read from the keyword snapshot.
    Its libraries are, in the order of the snapshot, those in which the
    pattern finds a keyword name (every library, also one without
    keywords, when there is no pattern or an empty one); each is listed
    sorted by name with exactly its keywords that the pattern finds;
    [total_keywords] is the sum of the lengths of the lists and
    [total_libraries] their number. *)
Theorem X21_all_keywords_listing
  (CACHE_DIR : str) (urlopen : str -> option str)
  (feed : str -> option (list event))
  (json_loads : str -> loads_result)
  (re_compile : str -> option (str -> bool))
  (filter_pattern : option str) (c c' : cache)
  (total count : nat) (listings : dict (list keyword_item)) :
  get_all_keywords CACHE_DIR urlopen feed json_loads re_compile
    filter_pattern c = (AllKeywords total count listings, c') ->
  total = length (flat_map snd listings)
  /\ count = length listings
  /\ exists index_data,
       keywords_snapshot c' = Some index_data
       /\ Forall2 (lists re_compile filter_pattern) listings
            (filter (fun lk => listed re_compile filter_pattern (snd lk))
               (ki_libraries index_data)).
Proof.
  unfold get_all_keywords.
  match goal with
  | |- (let '(fetched, c0) := ?X in _) = _ -> _ =>
      destruct X as [fetched c1] end.
  destruct fetched; cbn [negb]; [|discriminate].
  destruct (keywords_snapshot c1) as [index_data|] eqn:Es; [|discriminate].
  assert (Hgen : forall f kept,
             (forall k, f k = passes re_compile filter_pattern k) ->
             kept = filter (fun lk => listed re_compile filter_pattern (snd lk))
                      (ki_libraries index_data) ->
             let result_libraries :=
               map (fun lk => (fst lk, keyword_list (fst lk) (snd lk)))
                 (map (fun lk => (fst lk, filter_keywords f (snd lk))) kept) in
             (AllKeywords
                (list_sum (map (fun lk => length (snd lk)) result_libraries))
                (length result_libraries) result_libraries, c1)
             = (AllKeywords total count listings, c') ->
             total = length (flat_map snd listings)
             /\ count = length listings
             /\ exists index_data,
                  keywords_snapshot c' = Some index_data
                  /\ Forall2 (lists re_compile filter_pattern) listings
                       (filter
                          (fun lk => listed re_compile filter_pattern (snd lk))
                          (ki_libraries index_data))).
  { intros f kept Hf Hk. cbv zeta. intros [= <- <- <- <-].
    split.
    { generalize (map (fun lk : str * dict KeywordRecord =>
                         (fst lk, keyword_list (fst lk) (snd lk)))
                    (map (fun lk => (fst lk, filter_keywords f (snd lk))) kept)).
      intros l. induction l as [|x l IH]; [reflexivity|].
      cbn [map list_sum fold_right flat_map]. rewrite length_app.
      unfold list_sum in IH. now rewrite IH. }
    split; [reflexivity|].
    exists index_data. split; [exact Es|]. rewrite <- Hk.
    now apply keyword_list_lists. }
  assert (Hnone : forall l : dict (dict KeywordRecord),
             filter (fun _ => true) l = l) by apply filter_all.
  destruct filter_pattern as [[|ch p]|].
  - intros H. apply (Hgen (fun _ => true) (ki_libraries index_data)).
    + reflexivity.
    + cbn [listed]. now rewrite Hnone.
    + cbv zeta. now rewrite map_filter_keywords_all.
  - destruct (re_compile (ch :: p)) as [search|] eqn:Er; [|discriminate].
    intros H.
    apply (Hgen search
             (filter (fun lk => existsb search (map fst (snd lk)))
                (ki_libraries index_data))).
    + intros k. cbn [passes]. now rewrite Er.
    + apply filter_ext. intros lk. unfold listed, passes. rewrite Er.
      reflexivity.
    + cbv zeta. rewrite <- filtered_libraries_spec. exact H.
  - intros H. apply (Hgen (fun _ => true) (ki_libraries index_data)).
    + reflexivity.
    + cbn [listed]. now rewrite Hnone.
    + cbv zeta. now rewrite map_filter_keywords_all.
Qed.

Lemma X21_all_keywords_witness :
  5 = length
        (flat_map snd
           [ (lit "BuiltIn",
              [ example_item (lit "Get Count") (lit "BuiltIn");
                example_item (lit "Get Length") (lit "BuiltIn");
                example_item (lit "get_length") (lit "BuiltIn") ]);
             (lit "Collections",
              [ example_item (lit "Get Length Of List") (lit "Collections");
                example_item (lit "Get-Length") (lit "Collections") ]) ]).
Proof.
  exact (proj1 (X21_all_keywords_listing (lit "/cache") (fun _ => None)
                  (fun _ => Some []) (fun _ => JSONDecodeError) (fun _ => None) None
                  example_snapshot example_snapshot 5 2 _ eq_refl)).
Defined.

Lemma listing_of_outcomes
  (os : list (str * option (result (dict KeywordRecord)))) :
  let all := flat_map (fun lo => opt_list (fst lo) (keywords_of (snd lo))) os in
  let statuses :=
    flat_map (fun lo => opt_list (fst lo) (status_of (snd lo))) os in
  let listings :=
    map (fun lk => (fst lk, keyword_list (fst lk) (snd lk))) all in
  list_sum (map (fun lk => length (snd lk)) listings)
  = list_sum (map (fun lo => counted (snd lo)) os)
  /\ Forall2 (fun l s => fst l = fst s
                         /\ length (snd l) = ls_total_keywords (snd s))
       listings (filter (fun s => ls_success (snd s)) statuses).
Proof.
  cbv zeta. induction os as [|[lib o] os [IH1 IH2]];
    [split; [reflexivity|constructor]|].
  cbn [flat_map map fst snd].
  destruct o as [[keywords|e]|]; cbn [keywords_of status_of opt_list app counted].
  - cbn [map filter snd fst ls_success list_sum fold_right].
    split.
    + unfold list_sum in IH1. rewrite IH1. f_equal. apply keyword_list_length.
    + constructor; [|exact IH2]. split; [reflexivity|].
      cbn [ls_total_keywords]. apply keyword_list_length.
  - cbn [map filter snd fst ls_success list_sum fold_right].
    split; [exact IH1|exact IH2].
  - cbn [map list_sum fold_right]. split; [exact IH1|exact IH2].
Qed.

(** X22. After a refresh that wrote the keyword snapshot, the listing of
    all keywords is served from that snapshot without any download: its
    totals are the totals the refresh reported, and it lists, in the same
    order, the libraries the refresh reported as parsed, each with as many
    keywords as reported. *)
Theorem X22_listing_after_refresh
  (CACHE_DIR : str) (urlopen : str -> option str)
  (feed : str -> option (list event))
  (json_loads : str -> loads_result)
  (re_compile : str -> option (str -> bool))
  (force_refresh : bool) (c : cache) (total_libraries total_keywords : nat) :
  let run := fetch_rf_documentation CACHE_DIR urlopen feed json_loads
               force_refresh c in
  keywords_index (fst run) = Some (total_libraries, total_keywords) ->
  exists listings,
    get_all_keywords CACHE_DIR urlopen feed json_loads re_compile None
      (snd run)
    = (AllKeywords total_keywords total_libraries listings, snd run)
    /\ Forall2 (fun l s => fst l = fst s
                           /\ length (snd l) = ls_total_keywords (snd s))
         listings
         (filter (fun s => ls_success (snd s)) (libraries (fst run))).
Proof.
  cbv zeta. unfold fetch_rf_documentation.
  destruct standard_libraries_distinct as [Hnd Hnot].
  pose proof (fetch_libraries_spec CACHE_DIR urlopen feed json_loads
                force_refresh STANDARD_LIBRARIES c Hnd Hnot) as Hs.
  cbv zeta in Hs. destruct Hs as (Hl & _ & _ & Hk).
  remember (outcomes CACHE_DIR urlopen json_loads force_refresh
              (html_files c) STANDARD_LIBRARIES) as os eqn:Eos.
  destruct (listing_of_outcomes os) as [H1 H2]. cbv zeta in H1, H2.
  remember (flat_map (fun lo => opt_list (fst lo) (keywords_of (snd lo))) os)
    as all eqn:Eall.
  intros Hi. destruct all as [|x all'].
  - destruct Hk as [Hk _]. rewrite Hk in Hi. discriminate.
  - destruct Hk as [Hk Hsnap]. rewrite Hk in Hi. injection Hi as <- <-.
    eexists. split.
    + unfold get_all_keywords. rewrite Hsnap. cbn [negb]. rewrite Hsnap.
      cbn [ki_libraries]. rewrite H1, length_map. reflexivity.
    + rewrite Hl. exact H2.
Qed.

Lemma X22_listing_after_refresh_witness :
  keywords_index
    (fst (fetch_rf_documentation (lit "/cache") (fun _ => Some served_html)
            (fun _ => Some []) example_json_loads false empty_cache))
  = Some (9, 0)
  /\ exists listings,
       get_all_keywords (lit "/cache") (fun _ => Some served_html)
         (fun _ => Some []) example_json_loads (fun _ => None) None
         (snd (fetch_rf_documentation (lit "/cache") (fun _ => Some served_html)
            (fun _ => Some []) example_json_loads false empty_cache))
       = (AllKeywords 0 9 listings,
          snd (fetch_rf_documentation (lit "/cache") (fun _ => Some served_html)
            (fun _ => Some []) example_json_loads false empty_cache))
       /\ Forall2 (fun l s => fst l = fst s
                              /\ length (snd l) = ls_total_keywords (snd s))
            listings
            (filter (fun s => ls_success (snd s))
               (libraries
                  (fst (fetch_rf_documentation (lit "/cache") (fun _ => Some served_html)
            (fun _ => Some []) example_json_loads false empty_cache)))).
Proof.
  assert (H : keywords_index
                (fst (fetch_rf_documentation (lit "/cache") (fun _ => Some served_html)
            (fun _ => Some []) example_json_loads false empty_cache))
              = Some (9, 0))
    by (vm_compute; reflexivity).
  split; [exact H|].
  exact (X22_listing_after_refresh (lit "/cache") (fun _ => Some served_html)
           (fun _ => Some []) example_json_loads (fun _ => None) false empty_cache
           9 0 H).
Defined.

(** * The availability check *)

(** X23. With a keyword snapshot in the cache the availability check
    downloads nothing and answers from the snapshot: either no key of any
    library has the normal form of the name, and it answers "not found"
    with the name as it was asked; or it answers with the first key that
    has, in the order of the libraries and then of the keys of a library
    (no key before it has the normal form), with the library of that key
    and with a message naming both. *)
Theorem X23_availability_from_snapshot
  (CACHE_DIR : str) (urlopen : str -> option str)
  (feed : str -> option (list event))
  (json_loads : str -> loads_result) (keyword_name : str) (c : cache)
  (index_data : KeywordsIndex) :
  keywords_snapshot c = Some index_data ->
  let answer :=
    check_keyword_availability CACHE_DIR urlopen feed json_loads
      keyword_name c in
  snd answer = c
  /\ keyword_searched (fst answer) = keyword_name
  /\ ((Forall (fun lk => no_match (normalize_name keyword_name) (snd lk))
         (ki_libraries index_data)
       /\ available (fst answer) = false
       /\ av_library (fst answer) = None
       /\ keyword_actual_name (fst answer) = None
       /\ message (fst answer)
          = lit "Keyword '" ++ keyword_name
              ++ lit "' not found in any standard library for RF 7.4.1")
      \/ exists pre_libs lib pre k v post post_libs,
           ki_libraries index_data
           = pre_libs ++ (lib, pre ++ (k, v) :: post) :: post_libs
           /\ Forall (fun lk => no_match (normalize_name keyword_name) (snd lk))
                pre_libs
           /\ no_match (normalize_name keyword_name) pre
           /\ normalize_name k = normalize_name keyword_name
           /\ available (fst answer) = true
           /\ av_library (fst answer) = Some lib
           /\ keyword_actual_name (fst answer) = Some k
           /\ message (fst answer)
              = lit "Keyword '" ++ k ++ lit "' is available in " ++ lib
                  ++ lit " library").
Proof.
  intros Hs. cbv zeta.
  unfold check_keyword_availability, get_keyword_documentation_tool.
  rewrite Hs. cbn [negb]. rewrite Hs.
  unfold get_keyword_documentation.
  destruct (find_in_libraries (ki_libraries index_data)
              (normalize_name keyword_name)) as [r|] eqn:E.
  - apply find_in_libraries_some in E
      as (pre_libs & lib & pre & k & v & post & post_libs
          & Hl & Hlibs & Hpre & Hk & ->).
    cbn [fst snd keyword_searched available av_library keyword_actual_name
         message found_response response_available response_library
         response_keyword response_message format_opt].
    split; [reflexivity|]. split; [reflexivity|]. right.
    exists pre_libs, lib, pre, k, v, post, post_libs.
    split; [exact Hl|]. split; [exact Hlibs|]. split; [exact Hpre|].
    split; [exact Hk|]. repeat split.
  - apply find_in_libraries_none in E.
    cbn [fst snd keyword_searched available av_library keyword_actual_name
         message response_available response_library
         response_keyword response_message format_opt].
    split; [reflexivity|]. split; [reflexivity|]. left.
    split; [exact E|]. repeat split.
Qed.

Lemma X23_availability_witness :
  snd (check_keyword_availability (lit "/cache") (fun _ => None)
         (fun _ => Some []) (fun _ => JSONDecodeError) (lit "get-length") example_snapshot)
  = example_snapshot.
Proof.
  exact (proj1 (X23_availability_from_snapshot (lit "/cache") (fun _ => None)
                  (fun _ => Some []) (fun _ => JSONDecodeError) (lit "get-length")
                  example_snapshot (mk_index 2 5 example_index) eq_refl)).
Defined.

(** X24. When there is no keyword snapshot and the refresh that the check
    starts fails, or parses no library, the check gets an answer that only
    has an error.  It then reports the keyword as not available, but its
    message says that the keyword None is available in the None library. *)
Theorem X24_availability_without_index
  (CACHE_DIR : str) (urlopen : str -> option str)
  (feed : str -> option (list event))
  (json_loads : str -> loads_result) (keyword_name : str) (c : cache) :
  keywords_snapshot c = None ->
  let refresh :=
    fst (fetch_rf_documentation CACHE_DIR urlopen feed json_loads false c) in
  success refresh = false \/ keywords_index refresh = None ->
  fst (check_keyword_availability CACHE_DIR urlopen feed json_loads
         keyword_name c)
  = mk_availability keyword_name false None None
      (lit "Keyword 'None' is available in None library").
Proof.
  intros Hs. cbv zeta. intros Hr.
  unfold check_keyword_availability, get_keyword_documentation_tool.
  rewrite Hs.
  destruct (fetch_rf_documentation CACHE_DIR urlopen feed json_loads false c)
    as [r c'] eqn:Ef.
  cbn [fst] in Hr.
  destruct (success r) eqn:Esucc; cbn [negb]; [|reflexivity].
  destruct Hr as [Hr|Hr]; [discriminate|].
  assert (Hsnap : keywords_snapshot c' = None).
  { unfold fetch_rf_documentation in Ef.
    destruct standard_libraries_distinct as [Hnd Hnot].
    pose proof (fetch_libraries_spec CACHE_DIR urlopen feed json_loads
                  false STANDARD_LIBRARIES c Hnd Hnot) as H.
    cbv zeta in H. destruct H as (_ & _ & _ & Hk).
    rewrite Ef in Hk. cbn [fst snd] in Hk.
    destruct (flat_map _ _).
    - destruct Hk as [_ Hk]. congruence.
    - destruct Hk as [Hk _]. congruence. }
  rewrite Hsnap. reflexivity.
Qed.

Lemma X24_availability_without_index_witness :
  fst (check_keyword_availability (lit "/cache") (fun _ => None)
         (fun _ => Some []) (fun _ => JSONDecodeError) (lit "Log") empty_cache)
  = mk_availability (lit "Log") false None None
      (lit "Keyword 'None' is available in None library").
Proof.
  exact (X24_availability_without_index (lit "/cache") (fun _ => None)
           (fun _ => Some []) (fun _ => JSONDecodeError) (lit "Log") empty_cache eq_refl
           (or_introl eq_refl)).
Defined.

(** * The installed library documentation *)

Lemma dict_get_some_in {A : Type} (k : str) (v : A) (d : dict A) :
  dict_get k d = Some v -> In (k, v) d.
Proof.
  induction d as [|[k' v'] d IH]; simpl; [discriminate|].
  destruct (str_eqb k' k) eqn:E.
  - apply str_eqb_eq in E. intros [= ->]. left. now subst.
  - intros H. right. now apply IH.
Qed.

Lemma dict_set_set {A : Type} (k : str) (v w : A) (d : dict A) :
  dict_set k w (dict_set k v d) = dict_set k w d.
Proof.
  induction d as [|[k' v'] d IH]; simpl.
  - now rewrite str_eqb_refl.
  - destruct (str_eqb k' k) eqn:E; simpl; rewrite E; [reflexivity|].
    now rewrite IH.
Qed.

Lemma dict_set_in {A : Type} (k : str) (v : A) (d : dict A) (k' : str) (v' : A) :
  NoDup (map fst d) ->
  In (k', v') (dict_set k v d) ->
  (k' = k /\ v' = v) \/ (k' <> k /\ In (k', v') d).
Proof.
  induction d as [|[k0 v0] d IH]; simpl; intros Hnd H.
  - destruct H as [[= <- <-]|[]]. now left.
  - inversion Hnd as [|? ? Hn Hnd']; subst.
    destruct (str_eqb k0 k) eqn:E.
    + apply str_eqb_eq in E. subst k0. destruct H as [[= <- <-]|H].
      * now left.
      * right. split; [|now right]. intros ->. apply Hn.
        apply (in_map fst) in H. exact H.
    + apply str_eqb_neq in E. destruct H as [[= <- <-]|H].
      * right. split; [exact E|now left].
      * destruct (IH Hnd' H) as [H1|[H1 H2]]; [now left|].
        right. split; [exact H1|now right].
Qed.

Lemma dict_set_sum {A : Type} (g : A -> nat) (k : str) (v : A) (d : dict A) :
  list_sum (map (fun ke => g (snd ke)) (dict_set k v d))
  + match dict_get k d with Some e => g e | None => 0 end
  = list_sum (map (fun ke => g (snd ke)) d) + g v.
Proof.
  unfold list_sum.
  induction d as [|[k' v'] d IH]; cbn [dict_set dict_get map fold_right snd];
    [lia|].
  destruct (str_eqb k' k); cbn [map fold_right snd]; lia.
Qed.

Lemma dict_set_key_in {A : Type} (k : str) (v : A) (d : dict A) (k' : str) :
  In k' (map fst (dict_set k v d)) <-> k' = k \/ In k' (map fst d).
Proof.
  rewrite dict_set_keys. destruct (dict_get k d) eqn:E.
  - split; [now right|]. intros [->|H]; [|exact H].
    apply dict_get_some_in in E. apply (in_map fst) in E. exact E.
  - rewrite in_app_iff. simpl. split.
    + intros [H|[H|[]]]; [now right|now left].
    + intros [H|H]; [right; now left|now left].
Qed.

(** What one file does to the libraries and to the list of files. *)
Lemma add_doc_file_spec (format_1f : nat -> nat -> str)
  (libraries : dict library_entry) (all_files : list file_info) (f : doc_file) :
  add_doc_file format_1f (libraries, all_files) f
  = (dict_set (library_of f)
       (match dict_get (library_of f) libraries with
        | Some entry =>
            mk_library_entry (le_library entry)
              (le_formats entry ++ [format_entry_of format_1f f])
        | None =>
            mk_library_entry (library_of f) [format_entry_of format_1f f]
        end) libraries,
     all_files ++ [file_info_of format_1f f]).
Proof.
  unfold add_doc_file. fold (library_of f). f_equal.
  destruct (dict_get (library_of f) libraries) as [entry|] eqn:E.
  - rewrite E. reflexivity.
  - rewrite dict_get_set_same, dict_set_set. reflexivity.
Qed.

Lemma files_of_snoc (lib : str) (processed : list doc_file) (f : doc_file) :
  files_of lib (processed ++ [f])
  = files_of lib processed
    ++ (if str_eqb (library_of f) lib then [f] else []).
Proof. unfold files_of. rewrite filter_app. reflexivity. Qed.

Lemma before_underscore_none (s : str) : ~ In "_"%char (before_underscore s).
Proof.
  induction s as [|c s IH]; [intros []|]. simpl.
  destruct (c =? "_")%char eqn:E; [intros []|].
  apply Ascii.eqb_neq in E. intros [H|H]; [congruence|contradiction].
Qed.

(** X25. The listing of the installed documentation files them by the
    part of the stem before the first underscore.  Every file is listed
    once under [files] and once under its library; the libraries are
    distinct, none is empty, each holds its files in the order of the
    directory listing, and [total_files] counts the files of all of
    them. *)
Theorem X25_installed_docs_grouping
  (format_1f : nat -> nat -> str) (dir_exists : bool)
  (doc_files : list doc_file) (total_files : nat)
  (available_libraries : list str) (libraries : list library_entry)
  (files : list file_info) :
  list_installed_library_docs format_1f dir_exists doc_files
  = DocsListing total_files available_libraries libraries files ->
  total_files = length doc_files
  /\ files = map (file_info_of format_1f) doc_files
  /\ available_libraries = map le_library libraries
  /\ NoDup available_libraries
  /\ (forall lib, In lib available_libraries
        <-> exists f, In f doc_files /\ library_of f = lib)
  /\ Forall (fun entry =>
               le_formats entry <> []
               /\ ~ In "_"%char (le_library entry)
               /\ le_formats entry
                  = map (format_entry_of format_1f)
                      (files_of (le_library entry) doc_files)) libraries
  /\ total_files
     = list_sum (map (fun entry => length (le_formats entry)) libraries).
Proof.
  set (Inv := fun (processed : list doc_file)
                  (st : dict library_entry * list file_info) =>
         snd st = map (file_info_of format_1f) processed
         /\ NoDup (map fst (fst st))
         /\ (forall k e, In (k, e) (fst st) ->
               le_library e = k
               /\ (exists f, In f processed /\ library_of f = k)
               /\ le_formats e
                  = map (format_entry_of format_1f) (files_of k processed))
         /\ (forall f, In f processed -> In (library_of f) (map fst (fst st)))
         /\ list_sum (map (fun ke => length (le_formats (snd ke))) (fst st))
            = length processed).
  assert (Hstep : forall processed st f,
             Inv processed st ->
             Inv (processed ++ [f]) (add_doc_file format_1f st f)).
  { intros processed [libs all_files] f H.
    rewrite add_doc_file_spec. unfold Inv in *. cbn [fst snd] in *.
    destruct H as (H1 & H2 & H3 & H4 & H5).
    set (new := match dict_get (library_of f) libs with
                | Some entry =>
                    mk_library_entry (le_library entry)
                      (le_formats entry ++ [format_entry_of format_1f f])
                | None =>
                    mk_library_entry (library_of f)
                      [format_entry_of format_1f f]
                end).
    split; [|split; [|split; [|split]]].
    - rewrite H1, map_app. reflexivity.
    - now apply dict_set_nodup.
    - intros k e Hin.
      apply dict_set_in in Hin; [|exact H2].
      destruct Hin as [[-> ->]|[Hk Hin]].
      + rewrite files_of_snoc, str_eqb_refl, map_app. cbn [map].
        split; [|split].
        * unfold new. destruct (dict_get (library_of f) libs) as [e0|] eqn:E;
            [|reflexivity].
          apply dict_get_some_in in E. now apply H3 in E.
        * exists f. split; [apply in_or_app; right; now left|reflexivity].
        * unfold new. destruct (dict_get (library_of f) libs) as [e0|] eqn:E.
          -- apply dict_get_some_in in E. apply H3 in E as (_ & _ & E).
             cbn [le_formats]. now rewrite E.
          -- cbn [le_formats].
             replace (files_of (library_of f) processed) with (@nil doc_file);
               [reflexivity|].
             symmetry. unfold files_of.
             destruct (filter _ processed) as [|g l] eqn:Ef; [reflexivity|].
             assert (Hg : In g (g :: l)) by now left.
             rewrite <- Ef in Hg. apply filter_In in Hg as [Hg1 Hg2].
             apply str_eqb_eq in Hg2. apply H4 in Hg1. rewrite Hg2 in Hg1.
             apply dict_get_none_keys in E. contradiction.
      + destruct (H3 k e Hin) as (Ha & (g & Hg1 & Hg2) & Hc).
        split; [exact Ha|]. split.
        * exists g. split; [apply in_or_app; now left|exact Hg2].
        * rewrite files_of_snoc.
          assert (Hne : str_eqb (library_of f) k = false).
          { apply str_eqb_neq. congruence. }
          rewrite Hne, app_nil_r. exact Hc.
    - intros g Hg. apply dict_set_key_in.
      apply in_app_or in Hg as [Hg|[<-|[]]]; [right; now apply H4|now left].
    - pose proof (dict_set_sum (fun e => length (le_formats e))
                    (library_of f) new libs) as Hs.
      cbv beta in Hs. rewrite length_app. cbn [length].
      assert (Hnew : length (le_formats new)
                     = S (match dict_get (library_of f) libs with
                          | Some e => length (le_formats e)
                          | None => 0
                          end)).
      { unfold new. destruct (dict_get (library_of f) libs) as [e0|];
          cbn [le_formats]; [|reflexivity].
        rewrite length_app. cbn [length]. lia. }
      lia. }
  assert (Hfold : forall l processed st,
             Inv processed st ->
             Inv (processed ++ l) (fold_left (add_doc_file format_1f) l st)).
  { induction l as [|f l IH]; intros processed st H.
    - now rewrite app_nil_r.
    - cbn [fold_left].
      replace (processed ++ f :: l) with ((processed ++ [f]) ++ l)
        by (rewrite <- app_assoc; reflexivity).
      apply IH. now apply Hstep. }
  unfold list_installed_library_docs.
  destruct dir_exists; cbn [negb]; [|discriminate].
  destruct doc_files as [|f0 l] eqn:Edocs; [discriminate|].
  rewrite <- Edocs. clear Edocs f0 l.
  destruct (forallb stat_ok doc_files); [|discriminate].
  assert (H0 : Inv [] ([], [])).
  { unfold Inv. cbn [fst snd map list_sum fold_right length].
    split; [reflexivity|]. split; [constructor|].
    split; [intros k e []|]. split; [intros f []|reflexivity]. }
  pose proof (Hfold doc_files [] ([], []) H0) as H. cbn [app] in H.
  destruct (fold_left (add_doc_file format_1f) doc_files ([], []))
    as [libs all_files].
  unfold Inv in H. cbn [fst snd] in H.
  destruct H as (H1 & H2 & H3 & H4 & H5).
  intros [= <- <- <- <-].
  assert (Hkeys : map fst libs = map le_library (map snd libs)).
  { rewrite map_map. apply map_ext_in. intros [k e] Hin.
    cbn [fst snd]. symmetry. now apply H3 in Hin. }
  split; [rewrite H1; apply length_map|].
  split; [exact H1|]. split; [exact Hkeys|]. split; [exact H2|].
  split; [|split].
  - intros lib. split.
    + intros Hin. apply in_map_iff in Hin as ([k e] & <- & Hin).
      now apply H3 in Hin.
    + intros (f & Hf & <-). now apply H4.
  - apply Forall_forall. intros e Hin.
    apply in_map_iff in Hin as ([k e'] & He & Hin). cbn [snd] in He. subst e'.
    destruct (H3 k e Hin) as (Ha & (f & Hf1 & Hf2) & Hc). rewrite Ha.
    split; [|split; [|exact Hc]].
    + rewrite Hc. intros Hnil. apply map_eq_nil in Hnil.
      assert (Hin' : In f (files_of k doc_files)).
      { unfold files_of. apply filter_In. split; [exact Hf1|].
        now apply str_eqb_eq. }
      rewrite Hnil in Hin'. exact Hin'.
    + rewrite <- Hf2. apply before_underscore_none.
  - rewrite H1, length_map, <- H5, map_map. reflexivity.
Qed.

Lemma X25_installed_docs_witness :
  2 = length example_doc_files
  /\ [lit "Browser"]
     = map le_library
         [ mk_library_entry (lit "Browser")
             [ mk_format_entry (lit "json") (lit "Browser.json")
                 (lit "0.0 KB");
               mk_format_entry (lit "html") (lit "Browser_keywords.html")
                 (lit "0.0 KB") ] ].
Proof.
  destruct (X25_installed_docs_grouping (fun _ _ => lit "0.0") true
              example_doc_files 2 [lit "Browser"]
              [ mk_library_entry (lit "Browser")
                  [ mk_format_entry (lit "json") (lit "Browser.json")
                      (lit "0.0 KB");
                    mk_format_entry (lit "html")
                      (lit "Browser_keywords.html") (lit "0.0 KB") ] ]
              _ eq_refl) as (H1 & _ & H3 & _).
  exact (conj H1 H3).
Defined.

(** X27. Raw documentation is the text of the file that is named after
    the library and the format (for Robocop in the txt format, of the help
    or the rules file), cut at 5000 characters: the answer is marked as
    truncated exactly when the text is longer; then it holds the first
    5000 characters and a notice of 17 characters, else the whole text.  A
    text of exactly 5000 characters is returned whole. *)
Theorem X27_raw_docs_truncation
  (json_loads : str -> loads_result) (dir_exists : bool)
  (tree : dict doc_file) (elsewhere : str -> option doc_file)
  (glob_match : str -> option (str -> bool))
  (library_name format : str) (file_path : str) (file_size : nat)
  (modified : str) (truncated : bool) (content : str) :
  get_installed_library_docs json_loads dir_exists tree elsewhere glob_match
    library_name format
  = RawDocs file_path file_size modified truncated content ->
  format <> lit "json"
  /\ exists f text,
       documentation_file tree elsewhere library_name format = Some f
       /\ df_text f = Some text
       /\ df_stat f = Some (file_size, modified)
       /\ df_path f = file_path
       /\ truncated = (5000 <? length text)
       /\ firstn 5000 content = firstn 5000 text
       /\ (if truncated then length content = 5000 + 17 else content = text).
Proof.
  unfold get_installed_library_docs.
  destruct dir_exists; cbn [negb]; [|discriminate].
  fold (robocop_file tree elsewhere).
  change (if str_eqb (lower library_name) (lit "robocop")
             && str_eqb format (lit "txt")
          then robocop_file tree elsewhere
          else docs tree elsewhere (library_name ++ lit "." ++ format))
    with (documentation_file tree elsewhere library_name format).
  destruct (documentation_file tree elsewhere library_name format) as [f|];
    [|destruct (glob tree glob_match (library_name ++ lit "*")); discriminate].
  unfold stat_ok, st_size, df_modified.
  destruct (df_stat f) as [[size mtime]|] eqn:Est; cbn [negb];
    [|discriminate].
  destruct (str_eqb format (lit "json")) eqn:Ef.
  { unfold json_docs. destruct (df_text f) as [text|]; [|discriminate].
    destruct (json_loads text) as [js| |]; try discriminate.
    match goal with
    | |- match ?X with _ => _ end = _ -> _ => destruct X as [r|] eqn:Er end;
      [|discriminate].
    intros ->. exfalso.
    repeat match type of Er with
           | match ?X with _ => _ end = _ => destruct X; try discriminate
           | (if ?X then _ else _) = _ => destruct X; try discriminate
           end. }
  apply str_eqb_neq in Ef. intros H. split; [exact Ef|].
  unfold raw_docs in H. destruct (df_text f) as [text|] eqn:Et; [|discriminate].
  cbv zeta in H.
  set (long := firstn 5000 text ++ _) in H.
  assert (Hlong : 5000 < length text ->
                  firstn 5000 long = firstn 5000 text
                  /\ length long = 5000 + 17).
  { intros Hlt. unfold long. split.
    - rewrite firstn_app, firstn_firstn, length_firstn.
      replace (Nat.min 5000 5000) with 5000 by (apply eq_sym, Nat.min_id).
      replace (5000 - Nat.min 5000 (length text)) with 0 by lia.
      cbn [firstn]. apply app_nil_r.
    - rewrite !length_app, length_firstn.
      change (length (lit "... (truncated)")) with 15. cbn [length]. lia. }
  clearbody long. injection H as <- <- <- <- <-. exists f, text.
  split; [reflexivity|]. split; [exact Et|].
  split; [unfold st_size, df_modified; now rewrite Est|].
  split; [reflexivity|]. split; [reflexivity|].
  destruct (5000 <? length text) eqn:E.
  - apply Nat.ltb_lt in E. exact (Hlong E).
  - split; reflexivity.
Qed.

Lemma X27_raw_docs_witness :
  lit "txt" <> lit "json"
  /\ exists f text,
       documentation_file [(lit "Browser.txt", long_text_file)]
         (fun _ => None) (lit "Browser") (lit "txt") = Some f
       /\ df_text f = Some text
       /\ df_stat f = Some (6 * 1000, lit "2025-01-01T00:00:00")
       /\ df_path f = lit "/app/docs/Browser.txt"
       /\ true = (5000 <? length text)
       /\ firstn 5000
            (repeat "a"%char 5000 ++ [ascii_of_nat 10; ascii_of_nat 10]
               ++ lit "... (truncated)")
          = firstn 5000 text
       /\ length (repeat "a"%char 5000 ++ [ascii_of_nat 10; ascii_of_nat 10]
                    ++ lit "... (truncated)")
          = 5000 + 17.
Proof.
  assert (H : get_installed_library_docs (fun _ => JSONDecodeError) true
                [(lit "Browser.txt", long_text_file)] (fun _ => None)
                (fun _ => None) (lit "Browser") (lit "txt")
              = RawDocs (lit "/app/docs/Browser.txt") (6 * 1000)
                  (lit "2025-01-01T00:00:00") true
                  (repeat "a"%char 5000 ++ [ascii_of_nat 10; ascii_of_nat 10]
                     ++ lit "... (truncated)"))
    by (vm_compute; reflexivity).
  exact (X27_raw_docs_truncation _ _ _ _ _ _ _ _ _ _ _ _ H).
Defined.

(** X28. The JSON answer summarizes the decoded text of the file named
    after the library: [keywords_count] is the length of its keywords
    while the sample holds the first ten of them (all when there are
    fewer); version and scope are those of the file, "unknown" when it has
    none; the documentation is that of the file when it has at most 500
    characters, else its first 500 characters and three dots. *)
Theorem X28_json_docs_summary
  (json_loads : str -> loads_result) (dir_exists : bool)
  (tree : dict doc_file) (elsewhere : str -> option doc_file)
  (glob_match : str -> option (str -> bool))
  (library_name format : str) (file_path : str) (version scope : json)
  (keywords_count file_size : nat) (modified : str)
  (documentation sample : json) :
  get_installed_library_docs json_loads dir_exists tree elsewhere glob_match
    library_name format
  = JSONDocs file_path version scope keywords_count file_size modified
      documentation sample ->
  format = lit "json"
  /\ exists f text content keywords library_doc n,
       documentation_file tree elsewhere library_name format = Some f
       /\ df_text f = Some text
       /\ json_loads text = Loaded content
       /\ json_get content (lit "keywords") (JList []) = Some keywords
       /\ json_len keywords = Some keywords_count
       /\ json_slice 10 keywords = Some sample
       /\ json_len sample = Some (Nat.min 10 keywords_count)
       /\ json_get content (lit "version") (JStr (lit "unknown")) = Some version
       /\ json_get content (lit "scope") (JStr (lit "unknown")) = Some scope
       /\ json_get content (lit "doc") (JStr []) = Some library_doc
       /\ json_len library_doc = Some n
       /\ (n <= 500 -> documentation = library_doc)
       /\ (500 < n ->
           exists s, library_doc = JStr s
                     /\ documentation = JStr (firstn 500 s ++ lit "...")).
Proof.
  unfold get_installed_library_docs.
  destruct dir_exists; cbn [negb]; [|discriminate].
  fold (robocop_file tree elsewhere).
  change (if str_eqb (lower library_name) (lit "robocop")
             && str_eqb format (lit "txt")
          then robocop_file tree elsewhere
          else docs tree elsewhere (library_name ++ lit "." ++ format))
    with (documentation_file tree elsewhere library_name format).
  destruct (documentation_file tree elsewhere library_name format) as [f|];
    [|destruct (glob tree glob_match (library_name ++ lit "*")); discriminate].
  destruct (stat_ok f); cbn [negb]; [|discriminate].
  destruct (str_eqb format (lit "json")) eqn:Ef.
  2:{ unfold raw_docs. destruct (df_text f); discriminate. }
  apply str_eqb_eq in Ef. intros H. split; [exact Ef|].
  unfold json_docs in H.
  destruct (df_text f) as [text|] eqn:Et; [|discriminate].
  destruct (json_loads text) as [content| |] eqn:Ej; try discriminate.
  destruct (json_get content (lit "keywords") (JList [])) as [keywords|] eqn:Ek;
    [|discriminate].
  destruct (json_len keywords) as [count|] eqn:El; [|discriminate].
  destruct (json_get content (lit "version") (JStr (lit "unknown")))
    as [v|] eqn:Ev; [|discriminate].
  destruct (json_get content (lit "scope") (JStr (lit "unknown")))
    as [sc|] eqn:Esc; [|discriminate].
  destruct (json_get content (lit "doc") (JStr [])) as [library_doc|] eqn:Edoc;
    [|discriminate].
  destruct (json_len library_doc) as [n|] eqn:Ed; [|discriminate].
  set (doc := if 500 <? n then _ else _) in H.
  assert (Hdoc : forall d, doc = Some d ->
                   (n <= 500 -> d = library_doc)
                   /\ (500 < n ->
                       exists s, library_doc = JStr s
                                 /\ d = JStr (firstn 500 s ++ lit "..."))).
  { unfold doc. intros d. destruct (500 <? n) eqn:E.
    - apply Nat.ltb_lt in E. intros Hd. split; [lia|]. intros _.
      destruct library_doc as [| | | |s| |]; try discriminate.
      exists s. split; [reflexivity|].
      cbn [json_slice json_add_dots] in Hd. congruence.
    - apply Nat.ltb_ge in E. intros Hd. split; [congruence|lia]. }
  destruct doc as [d|]; [|discriminate].
  destruct (json_slice 10 keywords) as [smp|] eqn:Es; [|discriminate].
  assert (Hc : count = keywords_count) by congruence.
  assert (Hs : smp = sample) by congruence.
  assert (Hd : d = documentation) by congruence.
  assert (Hv : v = version) by congruence.
  assert (Hsc : sc = scope) by congruence.
  subst count smp d v sc. clear H.
  exists f, text, content, keywords, library_doc, n.
  split; [reflexivity|]. split; [exact Et|]. split; [exact Ej|].
  split; [exact Ek|]. split; [exact El|]. split; [exact Es|]. split.
  { destruct keywords as [| | | |s|l|]; try discriminate;
      cbn [json_slice json_len] in Es, El.
    - assert (Hs : sample = JStr (firstn 10 s)) by congruence.
      assert (Hc : keywords_count = length s) by congruence.
      subst. cbn [json_len]. now rewrite length_firstn.
    - assert (Hs : sample = JList (firstn 10 l)) by congruence.
      assert (Hc : keywords_count = length l) by congruence.
      subst. cbn [json_len]. now rewrite length_firstn. }
  split; [exact Ev|]. split; [exact Esc|]. split; [exact Edoc|].
  split; [exact Ed|]. exact (Hdoc documentation eq_refl).
Qed.

Lemma X28_json_docs_witness :
  get_installed_library_docs (fun _ => Loaded twelve_keywords) true
    [(lit "Browser.json", json_file)] (fun _ => None) (fun _ => None)
    (lit "Browser") (lit "json")
  = JSONDocs (lit "/app/docs/Browser.json") (JStr (lit "unknown"))
      (JStr (lit "unknown")) 12 700 (lit "2025-01-01T00:00:00")
      (JStr (repeat "d"%char 500 ++ lit "..."))
      (JList (repeat (JDict []) 10))
  /\ lit "json" = lit "json".
Proof.
  assert (H : get_installed_library_docs (fun _ => Loaded twelve_keywords) true
                [(lit "Browser.json", json_file)] (fun _ => None)
                (fun _ => None) (lit "Browser") (lit "json")
              = JSONDocs (lit "/app/docs/Browser.json") (JStr (lit "unknown"))
                  (JStr (lit "unknown")) 12 700 (lit "2025-01-01T00:00:00")
                  (JStr (repeat "d"%char 500 ++ lit "..."))
                  (JList (repeat (JDict []) 10)))
    by (vm_compute; reflexivity).
  split; [exact H|].
  exact (proj1 (X28_json_docs_summary _ _ _ _ _ _ _ _ _ _ _ _ _ _ _ H)).
Defined.

(** * The documentation addresses *)

(** X29. The table of addresses agrees with the refresh: its libraries
    are the standard libraries, in their order, each at the address its
    documentation is downloaded from.  A topic is answered by one entry
    under the name that was asked, which reads "Topic not found" exactly
    when the name is no key of the table. *)
Theorem X29_documentation_addresses :
  (exists table,
     dict_get (lit "standard_libraries") urls = Some (UrlTable table)
     /\ map fst table = STANDARD_LIBRARIES
     /\ Forall (fun lib => dict_get lib table = Some (library_url lib))
          STANDARD_LIBRARIES)
  /\ forall (c : ascii) (t : str),
       exists u,
         get_documentation_url (Some (c :: t)) = [(c :: t, u)]
         /\ (u = Url (lit "Topic not found")
             <-> ~ In (c :: t) (map fst urls)).
Proof.
  split.
  - eexists. split; [reflexivity|]. split; [reflexivity|].
    repeat constructor.
  - intros c t. cbn [get_documentation_url].
    destruct (dict_get (c :: t) urls) as [u|] eqn:E.
    + exists u. split; [reflexivity|].
      apply dict_get_some_in in E.
      assert (Hk : In (c :: t) (map fst urls))
        by exact (in_map fst _ _ E).
      split; [|intros H; contradiction].
      intros ->. exfalso. unfold urls in E. cbn [In] in E.
      repeat (destruct E as [E|E]; [discriminate E|]). exact E.
    + exists (Url (lit "Topic not found")). split; [reflexivity|].
      split; [|reflexivity]. intros _. now apply dict_get_none_keys.
Qed.
